(** * The staged CRUD evaluator of [eval.py]

  A shallow embedding of [evaluate_project] and of the helpers it calls
  ([load_metadata], [dynamic_import], [Score.add], [finalize]), followed by
  the properties of the scoring pipeline.

  The evaluator is a straight-line Python function that mutates a [Score]
  object, calls into the submission (code it does not control), into the
  file system, into SQLite and into a linter subprocess, and leaves through
  one of several [return] statements or through an exception nobody
  catches.  It is embedded as a state monad over the score and the state
  reachable by the submission, with three ways to leave a statement:
  fall through with a value, [return] a report, raise an exception.
  Everything outside [eval.py] is an oracle of a [World] record, so that a
  theorem about "every run" quantifies over every behaviour of the
  submission and of its environment.

  An exception carries whether it is an instance of [Exception], which is
  what the [except Exception] clauses catch and [SystemExit] is not, and
  whether [str] of it returns.  Every attribute lookup and call on an object
  of the submission runs its code: it may change the submission's state and
  may raise.  What SQLite raises on the evaluator's own connection is an
  instance of [sqlite3.Error], hence of [Exception].

  What the model leaves out: a call that never returns; paths are joined as
  on POSIX. *)

From Stdlib Require Import String Ascii List ZArith Bool Lia DecimalString.
Import ListNotations.
Local Open Scope string_scope.
Local Open Scope Z_scope.

(** ** Python values *)

(** What [json.load] produces, and the shape of the values the submission
  hands back.  A JSON object is the Python [dict] built from it: entries in
  insertion order, keys pairwise distinct.  Numbers are the integers;
  manifests with fractional numbers are outside the model. *)
#[warnings="-register-all"]
Inductive json : Type :=
| JNull
| JBool (b : bool)
| JInt (z : Z)
| JStr (s : string)
| JArr (items : list json)
| JObj (entries : list (string * json)).

(** An exception instance: its class name, the text of [str(e)], whether it
  is an instance of [Exception] (an [except Exception] clause catches it;
  [SystemExit], [KeyboardInterrupt] and the classes a submission derives
  from [BaseException] alone pass through), and the exception [str(e)]
  raises instead of returning, when the class of [e] has such a [__str__]. *)
#[warnings="-register-all"]
Inductive exn : Type :=
| Exn (exn_type exn_str : string) (is_exception : bool) (str_raises : option exn).

Definition exn_type (e : exn) : string :=
  match e with Exn t _ _ _ => t end.

Definition exn_str (e : exn) : string :=
  match e with Exn _ s _ _ => s end.

Definition is_exception (e : exn) : bool :=
  match e with Exn _ _ b _ => b end.

Definition str_raises (e : exn) : option exn :=
  match e with Exn _ _ _ r => r end.

(** An instance of a class below [Exception] with the [__str__] of
  [BaseException]: what the interpreter, the standard library and SQLite
  raise. *)
Definition mkExn (exn_type exn_str : string) : exn :=
  Exn exn_type exn_str true None.

Inductive result (A : Type) : Type :=
| Ok (a : A)
| Raise (e : exn).
Arguments Ok {A} a.
Arguments Raise {A} e.

(** [str(e)] *)
Definition str_of_exn (e : exn) : result string :=
  match str_raises e with
  | Some raised => Raise raised
  | None => Ok (exn_str e)
  end.

Module Py.

(** [type(v).__name__] *)
Definition type_name (v : json) : string :=
  match v with
  | JNull => "NoneType"
  | JBool _ => "bool"
  | JInt _ => "int"
  | JStr _ => "str"
  | JArr _ => "list"
  | JObj _ => "dict"
  end.

(** [bool(v)] *)
Definition truthy (v : json) : bool :=
  match v with
  | JNull => false
  | JBool b => b
  | JInt z => negb (z =? 0)
  | JStr s => negb (String.eqb s EmptyString)
  | JArr l => match l with [] => false | _ => true end
  | JObj l => match l with [] => false | _ => true end
  end.

(** [all(vs)] over the truth values of a list *)
Definition all (vs : list json) : bool := forallb truthy vs.

Definition str_of_int (z : Z) : string := NilZero.string_of_int (Z.to_int z).

Definition hex_digit (n : N) : ascii :=
  match String.get (N.to_nat n) "0123456789abcdef" with
  | Some c => c
  | None => "0"%char
  end.

(** The body of [repr] of a [str] delimited by [q]: backslash, the
    delimiter and the control characters are escaped; bytes of a
    multi-byte character are taken as printable. *)
Fixpoint repr_body (q : ascii) (s : string) : string :=
  match s with
  | EmptyString => EmptyString
  | String c rest =>
      let n := N_of_ascii c in
      let tail := repr_body q rest in
      if Ascii.eqb c "\" then String "\" (String "\" tail)
      else if Ascii.eqb c q then String "\" (String q tail)
      else if (n =? 9)%N then String "\" (String "t" tail)
      else if (n =? 10)%N then String "\" (String "n" tail)
      else if (n =? 13)%N then String "\" (String "r" tail)
      else if ((n <? 32) || (n =? 127))%N
           then String "\" (String "x" (String (hex_digit (n / 16))
                                 (String (hex_digit (n mod 16)) tail)))
      else String c tail
  end.

Fixpoint contains_char (c : ascii) (s : string) : bool :=
  match s with
  | EmptyString => false
  | String d rest => Ascii.eqb c d || contains_char c rest
  end.

(** [repr(s)]: single quotes, unless the text has a single quote and no
    double quote. *)
Definition repr_str (s : string) : string :=
  let q : ascii :=
    if contains_char "'" s && negb (contains_char "034" s) then "034"%char
    else "'"%char in
  String q (repr_body q s ++ String q EmptyString).

Fixpoint join (sep : string) (parts : list string) : string :=
  match parts with
  | [] => EmptyString
  | [p] => p
  | p :: rest => p ++ sep ++ join sep rest
  end.

(** [repr(v)] *)
Fixpoint repr (v : json) : string :=
  match v with
  | JNull => "None"
  | JBool true => "True"
  | JBool false => "False"
  | JInt z => str_of_int z
  | JStr s => repr_str s
  | JArr l => "[" ++ join ", " (map repr l) ++ "]"
  | JObj l =>
      "{" ++ join ", " (map (fun kv => repr_str (fst kv) ++ ": " ++ repr (snd kv)) l)
          ++ "}"
  end.

(** [str(v)], which is what an f-string field [{v}] inserts *)
Definition str (v : json) : string :=
  match v with
  | JStr s => s
  | _ => repr v
  end.

Fixpoint assoc (k : string) (l : list (string * json)) : option json :=
  match l with
  | [] => None
  | (k', v) :: rest => if String.eqb k k' then Some v else assoc k rest
  end.

Definition no_attribute (v : json) (name : string) : exn :=
  mkExn "AttributeError"
        ("'" ++ type_name v ++ "' object has no attribute '" ++ name ++ "'").

(** [d.get(k, default)]; only a [dict] has [get] *)
Definition get (d : json) (k : string) (default : json) : result json :=
  match d with
  | JObj l => Ok (match assoc k l with Some v => v | None => default end)
  | _ => Raise (no_attribute d "get")
  end.

(** [list(d.values())] *)
Definition values (d : json) : result (list json) :=
  match d with
  | JObj l => Ok (map snd l)
  | _ => Raise (no_attribute d "values")
  end.

(** [d.keys()] *)
Definition keys (d : json) : result (list string) :=
  match d with
  | JObj l => Ok (map fst l)
  | _ => Raise (no_attribute d "keys")
  end.

(** [l[0]] *)
Definition first {A : Type} (l : list A) : result A :=
  match l with
  | x :: _ => Ok x
  | [] => Raise (mkExn "IndexError" "list index out of range")
  end.

(** [d[k]] for a string key [k] *)
Definition getitem (d : json) (k : string) : result json :=
  match d with
  | JObj l =>
      match assoc k l with
      | Some v => Ok v
      | None => Raise (mkExn "KeyError" (repr_str k))
      end
  | JArr _ =>
      Raise (mkExn "TypeError" "list indices must be integers or slices, not str")
  | JStr _ =>
      Raise (mkExn "TypeError" "string indices must be integers, not 'str'")
  | _ =>
      Raise (mkExn "TypeError" ("'" ++ type_name d ++ "' object is not subscriptable"))
  end.

Definition starts_with_slash (s : string) : bool :=
  match s with
  | String c _ => Ascii.eqb c "/"
  | EmptyString => false
  end.

Fixpoint ends_with_slash (s : string) : bool :=
  match s with
  | EmptyString => false
  | String c EmptyString => Ascii.eqb c "/"
  | String _ rest => ends_with_slash rest
  end.

(** [posixpath.join(a, b)] on two strings *)
Definition posix_join (a b : string) : string :=
  if starts_with_slash b then b
  else if String.eqb a EmptyString || ends_with_slash a then a ++ b
  else a ++ "/" ++ b.

(** [os.path.join(a, b)] with [a] a string and [b] a manifest value *)
Definition path_join (a : string) (b : json) : result string :=
  match b with
  | JStr s => Ok (posix_join a s)
  | _ =>
      Raise (mkExn "TypeError"
               ("join() argument must be str, bytes, or os.PathLike object, not '"
                  ++ type_name b ++ "'"))
  end.

(** The attribute name of a [getattr] or [setattr] must be a [str]. *)
Definition attr_name (v : json) : result string :=
  match v with
  | JStr s => Ok s
  | _ =>
      Raise (mkExn "TypeError"
               ("attribute name must be string, not '" ++ type_name v ++ "'"))
  end.

End Py.

(** ** The score accumulator (class [Score]) *)

Module Score.

Record t : Type := mk { total : Z; earned : Z; details : list string }.

(** [Score.__init__] *)
Definition init : t := mk 0 0 [].

(** [Score.add(self, points, condition, success_msg, fail_msg)] *)
Definition add (points : Z) (condition : bool) (success_msg fail_msg : string)
           (self : t) : t :=
  if condition
  then mk (total self + points) (earned self + points)
          (details self ++ ["✔ " ++ success_msg])
  else mk (total self + points) (earned self)
          (details self ++ ["❌ " ++ fail_msg]).

(** [self.details.append(msg)], used by the evaluator on its own *)
Definition append (msg : string) (self : t) : t :=
  mk (total self) (earned self) (details self ++ [msg]).

End Score.

(** The dictionary [evaluate_project] returns: [{"error": ...}] or the three
  keys [finalize] sets on the empty [report]. *)
Inductive Report : Type :=
| ErrorReport (error : string)
| ScoreReport (score max_score : Z) (details : list string).

(** [finalize(score, report)]; [round(n, 2)] of an [int] is that [int]. *)
Definition finalize (score : Score.t) : Report :=
  ScoreReport (Score.earned score) (Score.total score) (Score.details score).

(** ** The submission and its environment *)

(** The tables of one SQLite connection, as [sqlite_master] lists them. *)
Definition catalog : Type := list string.

(** What [subprocess.run(["pycodestyle", path])] gives when lines 225-229
  have an answer for it: the process ran and exited with a return code, or
  the executable was not found ([FileNotFoundError]). *)
Inductive lint : Type :=
| LintExit (returncode : Z)
| LintNotFound.

Section Environment.

(** Everything the submission can reach and change: its modules' globals,
    its objects, the connections it opened, the files it wrote. *)
Context {S : Type}.

(** A call into submission code runs on that state and returns or
    raises. *)
Definition call (A : Type) : Type := S -> result A * S.

(** The object [CRUDClass()] returned, as the evaluator uses it. *)
Record Crud : Type := {
  (** [hasattr(crud_obj, name)]: the lookup runs the properties and the
      [__getattr__] of the class; [AttributeError] gives [False], any other
      exception is raised *)
  hasattr : string -> call bool;
  (** [setattr(crud_obj, "conn_override", fake_connection)] *)
  set_conn_override : call unit;
  (** The four methods.  Of what they return the evaluator takes the
      truth value only; a value whose [bool] raises is a call that
      raises. *)
  create : json -> call json;
  read : json -> call json;
  update : json -> json -> call json;
  delete : json -> call json;
  (** The dictionary handed to [create] is the evaluator's own
      [sample_data] object: what it holds once the submission has had it *)
  sample_seen : json -> S -> json
}.

(** A module object made by [dynamic_import]: [getattr(mod, name)] gives
    something to call, or nothing when the name is not bound;
    [setattr(mod, name, fake_connection)] binds a global of the module,
    whether the name was bound before or not, unless the class of the
    module object refuses it. *)
Record PyModule : Type := {
  mod_getattr : string -> option (call Crud);
  mod_setattr : string -> call unit
}.

Record World : Type := {
  os_path_exists : string -> bool;
  (** [open(path)] followed by [json.load] *)
  json_load : string -> result json;
  (** [spec_from_file_location], [module_from_spec] and [exec_module] on
      a path and a module name *)
  exec_module : string -> string -> call PyModule;
  (** [cur.execute(sql)] of a statement without parameters on a
      connection of the evaluator: the catalog after it, or the class and
      the text of the [sqlite3.Error] raised *)
  cursor_execute : string -> catalog -> catalog + string * string;
  (** [subprocess.run(["pycodestyle", path], ...)]; [Raise] is for what
      it raises besides [FileNotFoundError] ([PermissionError], ...) *)
  pycodestyle : string -> S -> result lint;
  (** [traceback.format_exc()] while the exception is handled *)
  format_exc : exn -> string
}.

End Environment.

Arguments Crud S : clear implicits.
Arguments PyModule S : clear implicits.
Arguments World S : clear implicits.

(** [cur.execute(sql)] as a call of the evaluator: what it raises is an
    instance of [sqlite3.Error], a subclass of [Exception]. *)
Definition sqlite_execute {S : Type} (w : World S) (sql : string) (conn : catalog)
  : result catalog :=
  match cursor_execute w sql conn with
  | inl conn' => Ok conn'
  | inr (class, text) => Raise (mkExn class text)
  end.

(** ** The evaluator's control flow *)

(** One entry per mutation of the score object, kept beside it (ghost
  state): a call of [Score.add] is a check that was attempted, a bare
  [score.details.append] is a diagnostic line. *)
Inductive event : Type :=
| Attempted (points : Z) (passed : bool)
| Diagnostic.

(** How a statement ends. *)
Inductive ctl (A : Type) : Type :=
| Next (a : A)
| Return (r : Report)
| Uncaught (e : exn).
Arguments Next {A} a.
Arguments Return {A} r.
Arguments Uncaught {A} e.

(** The names bound before the first check (lines 62-71). *)
Record Locals : Type := mkLocals {
  meta : json;
  crud_class_name : json;
  sample_data : json;
  crud_path : string;
  db_path : string
}.

(** What a caller of [evaluate_project] observes. *)
Inductive outcome : Type :=
| Returned (r : Report)
| Escaped (e : exn).

Section Evaluator.

Context {S : Type}.
Variable w : World S.

(** The state of one run: the [score] object, the local [table_name]
    (unbound until line 168 assigns it), the state of the submission and
    the log of score mutations. *)
Record Run : Type := mkRun {
  score : Score.t;
  table_name : option json;
  cand : S;
  log : list event
}.

Definition M (A : Type) : Type := Run -> ctl A * Run.

Definition ret {A : Type} (a : A) : M A := fun r => (Next a, r).

Definition bind {A B : Type} (m : M A) (k : A -> M B) : M B :=
  fun r =>
    match m r with
    | (Next a, r') => k a r'
    | (Return rep, r') => (Return rep, r')
    | (Uncaught e, r') => (Uncaught e, r')
    end.

Notation "x <- m ;; k" := (bind m (fun x => k))
  (at level 100, m at next level, right associativity).
Notation "m ;; k" := (bind m (fun _ => k))
  (at level 100, right associativity).

(** [raise e] *)
Definition raise {A : Type} (e : exn) : M A := fun r => (Uncaught e, r).

(** [return rep] *)
Definition return_ {A : Type} (rep : Report) : M A := fun r => (Return rep, r).

(** An expression of the interpreter that yields a value or raises. *)
Definition eval {A : Type} (x : result A) : M A :=
  match x with
  | Ok a => ret a
  | Raise e => raise e
  end.

(** A call into the submission. *)
Definition invoke {A : Type} (c : call A) : M A :=
  fun r =>
    let '(x, s) := c (cand r) in
    let r' := mkRun (score r) (table_name r) s (log r) in
    match x with
    | Ok a => (Next a, r')
    | Raise e => (Uncaught e, r')
    end.

(** [try: body except Exception as e: handler(e)] *)
Definition try_except {A : Type} (body : M A) (handler : exn -> M A) : M A :=
  fun r =>
    match body r with
    | (Uncaught e, r') =>
        if is_exception e then handler e r' else (Uncaught e, r')
    | other => other
    end.

(** [score.add(points, condition, success_msg, fail_msg)] *)
Definition score_add (points : Z) (condition : bool)
           (success_msg fail_msg : string) : M unit :=
  fun r =>
    (Next tt,
     mkRun (Score.add points condition success_msg fail_msg (score r))
           (table_name r) (cand r)
           (log r ++ [Attempted points condition])).

(** [score.details.append(msg)] *)
Definition details_append (msg : string) : M unit :=
  fun r =>
    (Next tt,
     mkRun (Score.append msg (score r)) (table_name r) (cand r)
           (log r ++ [Diagnostic])).

(** [return finalize(score, report)] *)
Definition return_finalize {A : Type} : M A :=
  fun r => (Return (finalize (score r)), r).

(** [table_name = v] *)
Definition assign_table_name (v : json) : M unit :=
  fun r => (Next tt, mkRun (score r) (Some v) (cand r) (log r)).

(** A read of the local [table_name] *)
Definition read_table_name : M json :=
  fun r =>
    match table_name r with
    | Some v => (Next v, r)
    | None =>
        (Uncaught
           (mkExn "UnboundLocalError"
              "cannot access local variable 'table_name' where it is not associated with a value"),
         r)
    end.

(** The submission's state, for the oracles that observe it. *)
Definition submission_state : M S := fun r => (Next (cand r), r).

(** [setattr(mod, name, fake_connection)] on a module object *)
Definition module_setattr (m : PyModule S) (name : string) : M unit :=
  invoke (mod_setattr m name).

(** *** Utility: dynamic module import (lines 12-16) *)
Definition dynamic_import (path module_name : string) : M (PyModule S) :=
  invoke (exec_module w path module_name).

(** *** Utility: load README.json (lines 22-28) *)
Definition load_metadata (project_dir : string) : M json :=
  let readme_path := Py.posix_join project_dir "README.json" in
  if negb (os_path_exists w readme_path)
  then raise (mkExn "Exception"
                "❌ Missing README.json – naming conventions unknown.")
  else eval (json_load w readme_path).

(** [fake_connection()] (lines 138-141): a new in-memory database, empty
    and private to the connection object returned. *)
Definition fake_connection : catalog := [].

(** [cur.execute("SELECT name FROM sqlite_master WHERE type='table' AND
    name=?", (v,))] followed by [cur.fetchone() is not None].  The bound
    value is compared as text with the names of the catalog; [None] binds
    to NULL, which equals nothing; lists and dictionaries cannot be bound. *)
Definition table_in_catalog (v : json) (c : catalog) : result bool :=
  let found (name : string) := existsb (String.eqb name) c in
  match v with
  | JNull => Ok false
  | JBool b => Ok (found (if b then "1" else "0"))
  | JInt z =>
      if (- 2 ^ 63 <=? z) && (z <? 2 ^ 63) then Ok (found (Py.str_of_int z))
      else Raise (mkExn "OverflowError"
                    "Python int too large to convert to SQLite INTEGER")
  | JStr s => Ok (found s)
  | _ =>
      Raise (mkExn "ProgrammingError"
               ("Error binding parameter 1: type '" ++ Py.type_name v
                  ++ "' is not supported"))
  end.

(** *** Lines 53-71: the manifest and the two paths *)
Definition read_manifest (project_dir : string) : M Locals :=
  meta <- try_except (load_metadata project_dir)
                     (fun e =>
                        text <- eval (str_of_exn e);;
                        return_ (ErrorReport text));;
  crud_file <- eval (Py.get meta "crud_module" JNull);;
  crud_class_name <- eval (Py.get meta "crud_class" JNull);;
  db_adapter_file <- eval (Py.get meta "db_adapter" JNull);;
  sample <- eval (Py.get meta "sample_data" (JObj []));;
  sample_data <- eval (Py.get sample "create" (JObj []));;
  if negb (Py.truthy crud_file) || negb (Py.truthy crud_class_name)
  then return_ (ErrorReport "README.json must contain CRUD module + class name.")
  else
    crud_path <- eval (Py.path_join project_dir crud_file);;
    db_path <- eval (Py.path_join project_dir db_adapter_file);;
    ret (mkLocals meta crud_class_name sample_data crud_path db_path).

(** *** Test 1: file existence (lines 76-91) *)
Definition file_existence (l : Locals) : M unit :=
  score_add 10 (os_path_exists w (crud_path l))
            "CRUD module found" "CRUD module missing";;
  score_add 10 (os_path_exists w (db_path l))
            "DB adapter file found" "DB adapter file missing";;
  if negb (os_path_exists w (crud_path l)) then return_finalize else ret tt.

(** [getattr(mod, name)] on the module [dynamic_import] named
    [module_name] *)
Definition getattr (module_name : string) (m : PyModule S) (name : string)
  : result (call (Crud S)) :=
  match mod_getattr m name with
  | Some c => Ok c
  | None =>
      Raise (mkExn "AttributeError"
               ("module '" ++ module_name ++ "' has no attribute '" ++ name ++ "'"))
  end.

(** Lines 97-99: load the module, fetch the class, instantiate it *)
Definition instantiate (l : Locals) : M (Crud S) :=
  mod_ <- dynamic_import (crud_path l) "crud_module";;
  name <- eval (Py.attr_name (crud_class_name l));;
  CRUDClass <- eval (getattr "crud_module" mod_ name);;
  invoke CRUDClass.

(** *** Test 2: import class (lines 96-113).  [imported] and [crud_obj]
    are one option: [crud_obj] is bound exactly when [imported] is true. *)
Definition import_class (l : Locals) : M (Crud S) :=
  imported <-
    try_except
      (crud_obj <- instantiate l;;
       ret (Some crud_obj))
      (fun e =>
         text <- eval (str_of_exn e);;
         details_append ("❌ Could not import CRUD class: " ++ text);;
         ret None);;
  score_add 20 (match imported with Some _ => true | None => false end)
            "CRUD class imported successfully" "Failed to load CRUD class";;
  match imported with
  | None => return_finalize
  | Some crud_obj => ret crud_obj
  end.

Definition required : list string := ["create"; "read"; "update"; "delete"].

(** [for x in xs: body(x)] *)
Fixpoint for_each {A : Type} (xs : list A) (body : A -> M unit) : M unit :=
  match xs with
  | [] => ret tt
  | x :: rest => body x;; for_each rest body
  end.

(** [all(hasattr(crud_obj, m) for m in ms)]: the lookups are made again,
    in turn, up to the first that answers [False] *)
Fixpoint all_hasattr (crud_obj : Crud S) (ms : list string) : call bool :=
  fun s =>
    match ms with
    | [] => (Ok true, s)
    | m :: rest =>
        match hasattr crud_obj m s with
        | (Ok true, s1) => all_hasattr crud_obj rest s1
        | other => other
        end
    end.

(** *** Test 3: method existence (lines 118-130) *)
Definition method_existence (crud_obj : Crud S) : M unit :=
  for_each required
    (fun m =>
       found <- invoke (hasattr crud_obj m);;
       score_add 5 found
                 ("Method " ++ m ++ "() found") ("Method " ++ m ++ "() missing"));;
  complete <- invoke (all_hasattr crud_obj required);;
  if negb complete then return_finalize else ret tt.

(** Line 144: [setattr(db_mod, meta.get("db_connect_fn",
    "get_connection"), fake_connection)] *)
Definition patch_connection (l : Locals) (db_mod : PyModule S) : M unit :=
  fn <- eval (Py.get (meta l) "db_connect_fn" (JStr "get_connection"));;
  name <- eval (Py.attr_name fn);;
  module_setattr db_mod name.

(** *** Test 4: SQLite patch simulation (lines 136-158) *)
Definition sqlite_patch (l : Locals) : M unit :=
  db_mod <- dynamic_import (db_path l) "db_module";;
  patched_db <-
    try_except
      (patch_connection l db_mod;;
       ret true)
      (fun e =>
         text <- eval (str_of_exn e);;
         details_append ("❌ Cannot patch DB connection: " ++ text);;
         ret false);;
  score_add 10 patched_db
            "Database connection successfully sandboxed"
            "Unable to sandbox database calls";;
  if negb patched_db then return_finalize else ret tt.

(** [sample_data["id"]], on the dictionary as the submission left it *)
Definition sample_id (l : Locals) (crud_obj : Crud S) : M json :=
  s <- submission_state;;
  eval (Py.getitem (sample_seen crud_obj (sample_data l) s) "id").

(** Lines 164-174: the table for the round trip, and the connection
    factory handed to the object *)
Definition prepare_schema (l : Locals) (crud_obj : Crud S) : M unit :=
  let conn := fake_connection in
  tables <- eval (Py.get (meta l) "tables" JNull);;
  vals <- eval (Py.values tables);;
  first_table <- eval (Py.first vals);;
  assign_table_name first_table;;
  keys <- eval (Py.keys (sample_data l));;
  let fields := Py.join ", " (map (fun k => k ++ " TEXT") keys) in
  conn <- eval (sqlite_execute w
                  ("CREATE TABLE " ++ Py.str first_table
                     ++ " (id INTEGER PRIMARY KEY, " ++ fields ++ ")") conn);;
  invoke (set_conn_override crud_obj).

(** Lines 177-182: the four calls, and the list handed to [all]; what
    [create] returns is dropped *)
Definition round_trip (l : Locals) (crud_obj : Crud S) : M (list json) :=
  _ <- invoke (create crud_obj (sample_data l));;
  id_r <- sample_id l crud_obj;;
  read_item <- invoke (read crud_obj id_r);;
  id_u <- sample_id l crud_obj;;
  updated <- invoke (update crud_obj id_u (JObj [("name", JStr "Updated")]));;
  id_d <- sample_id l crud_obj;;
  deleted <- invoke (delete crud_obj id_d);;
  ret [read_item; updated; deleted].

(** The body of the [try] of test 5 (lines 164-182) *)
Definition functional_body (l : Locals) (crud_obj : Crud S) : M bool :=
  prepare_schema l crud_obj;;
  results <- round_trip l crud_obj;;
  ret (Py.all results).

(** *** Test 5: CRUD functional test (lines 163-193) *)
Definition crud_functional_test (l : Locals) (crud_obj : Crud S) : M unit :=
  passed <-
    try_except (functional_body l crud_obj)
      (fun e =>
         details_append ("❌ CRUD runtime error: " ++ format_exc w e);;
         ret false);;
  score_add 30 passed
            "CRUD operations successfully executed" "CRUD functional test failed".

Definition injection_record : json :=
  JObj [("id", JInt 999); ("name", JStr "Robert'); DROP TABLE users; --")].

(** The body of the [try] of test 6 (lines 199-210).  The table is made
    in, and looked up in, the connection [conn] of the evaluator, which no
    call of the submission receives. *)
Definition injection_body (crud_obj : Crud S) : M bool :=
  let conn := fake_connection in
  target <- read_table_name;;
  conn <- eval (sqlite_execute w
                  ("CREATE TABLE " ++ Py.str target
                     ++ " (id INTEGER PRIMARY KEY, name TEXT)") conn);;
  _ <- invoke (create crud_obj injection_record);;
  target' <- read_table_name;;
  eval (table_in_catalog target' conn).

(** *** Test 6: SQL injection safety (lines 198-220) *)
Definition sql_injection_safety (crud_obj : Crud S) : M unit :=
  still_exists <- try_except (injection_body crud_obj) (fun _ => ret false);;
  score_add 20 still_exists
            "SQL injection protection appears safe"
            "SQL injection vulnerability detected".

(** Lines 225-229: the linter's verdict, a pass when there is no linter;
    [except FileNotFoundError] catches that class and nothing else *)
Definition is_clean (l : Locals) (s : S) : result bool :=
  match pycodestyle w (crud_path l) s with
  | Ok (LintExit returncode) => Ok (returncode =? 0)
  | Ok LintNotFound => Ok true
  | Raise e =>
      if String.eqb (exn_type e) "FileNotFoundError" then Ok true else Raise e
  end.

(** *** Test 7: code quality (lines 225-236) *)
Definition code_quality (l : Locals) : M unit :=
  s <- submission_state;;
  clean <- eval (is_clean l s);;
  score_add 10 clean "Code is PEP8 clean" "Code style violations found".

(** The trailing sequence, tests 5 to 7 and the final [return]. *)
Definition trailing_checks (l : Locals) (crud_obj : Crud S) : M Report :=
  crud_functional_test l crud_obj;;
  sql_injection_safety crud_obj;;
  code_quality l;;
  return_finalize.

(** *** Core evaluator (lines 52-238), in three stretches: up to the
    instantiated object (line 113), up to the sandboxed database
    (line 158), and the trailing sequence. *)
Definition loaded (project_dir : string) : M (Locals * Crud S) :=
  l <- read_manifest project_dir;;
  file_existence l;;
  crud_obj <- import_class l;;
  ret (l, crud_obj).

Definition sandboxed (project_dir : string) : M (Locals * Crud S) :=
  lo <- loaded project_dir;;
  method_existence (snd lo);;
  sqlite_patch (fst lo);;
  ret lo.

Definition evaluate_project_body (project_dir : string) : M Report :=
  lo <- sandboxed project_dir;;
  trailing_checks (fst lo) (snd lo).

(** The state at line 54: an empty score, [table_name] unbound. *)
Definition start (s0 : S) : Run := mkRun Score.init None s0 [].

Definition evaluate_project (project_dir : string) (s0 : S) : outcome :=
  match fst (evaluate_project_body project_dir (start s0)) with
  | Next rep => Returned rep
  | Return rep => Returned rep
  | Uncaught e => Escaped e
  end.

End Evaluator.

(** ** A fragment of SQLite, for concrete runs

  Enough of the engine to run the statements of the evaluator and of small
  submissions: [CREATE TABLE] with a flat column list, [INSERT INTO],
  [DROP TABLE], string literals, line comments, scripts separated by
  semicolons.  Keywords are upper case, as the evaluator writes them; a
  statement outside the fragment is refused. *)
Module Sqlite.

Inductive token : Type :=
| Word (s : string)
| Lit (s : string)
| Sym (c : ascii).

Inductive mode : Type :=
| Plain
| InWord (acc : string)
| InLit (acc : string)
| Dash
| InComment.

Definition between (lo hi n : N) : bool := ((lo <=? n) && (n <=? hi))%N.

Definition is_word_char (c : ascii) : bool :=
  let n := N_of_ascii c in
  between 48 57 n || between 65 90 n || between 97 122 n || (n =? 95)%N.

Definition is_space (c : ascii) : bool :=
  let n := N_of_ascii c in
  (n =? 32)%N || (n =? 9)%N || (n =? 10)%N || (n =? 13)%N.

Definition snoc (s : string) (c : ascii) : string := s ++ String c EmptyString.

Definition plain (c : ascii) : list token * mode :=
  if is_word_char c then ([], InWord (String c EmptyString))
  else if is_space c then ([], Plain)
  else if Ascii.eqb c "'" then ([], InLit EmptyString)
  else if Ascii.eqb c "-" then ([], Dash)
  else ([Sym c], Plain).

Definition step (m : mode) (c : ascii) : list token * mode :=
  match m with
  | Plain => plain c
  | InWord acc =>
      if is_word_char c then ([], InWord (snoc acc c))
      else let '(ts, m') := plain c in (Word acc :: ts, m')
  | InLit acc =>
      if Ascii.eqb c "'" then ([Lit acc], Plain) else ([], InLit (snoc acc c))
  | Dash =>
      if Ascii.eqb c "-" then ([], InComment)
      else let '(ts, m') := plain c in (Sym "-" :: ts, m')
  | InComment =>
      if (N_of_ascii c =? 10)%N then ([], Plain) else ([], InComment)
  end.

Definition flush (m : mode) : list token :=
  match m with
  | InWord acc => [Word acc]
  | InLit acc => [Lit acc]
  | Dash => [Sym "-"]
  | _ => []
  end.

Fixpoint lex (m : mode) (s : string) : list token :=
  match s with
  | EmptyString => flush m
  | String c rest => let '(ts, m') := step m c in ts ++ lex m' rest
  end.

Definition is_sym (c : ascii) (t : token) : bool :=
  match t with
  | Sym d => Ascii.eqb c d
  | _ => false
  end.

(** The token list cut at every [c]. *)
Fixpoint split_at (c : ascii) (ts : list token) (cur : list token)
  : list (list token) :=
  match ts with
  | [] => [cur]
  | t :: rest =>
      if is_sym c t then cur :: split_at c rest []
      else split_at c rest (cur ++ [t])
  end.

Definition nonempty {A : Type} (l : list A) : bool :=
  match l with [] => false | _ => true end.

Definition statements (sql : string) : list (list token) :=
  filter nonempty (split_at ";" (lex Plain sql) []).

(** The statement without the keywords [kws] it has to start with. *)
Fixpoint expect (kws : list string) (ts : list token) : option (list token) :=
  match kws with
  | [] => Some ts
  | k :: kws' =>
      match ts with
      | Word x :: rest => if String.eqb k x then expect kws' rest else None
      | _ => None
      end
  end.

Definition row : Type := list token.
Definition db : Type := list (string * list row).

(** An upper-case letter with its bit of weight 32 set *)
Definition lower (c : ascii) : ascii :=
  match c with
  | Ascii b0 b1 b2 b3 b4 _ b6 b7 =>
      if between 65 90 (N_of_ascii c) then Ascii b0 b1 b2 b3 b4 true b6 b7 else c
  end.

Fixpoint lowercase (s : string) : string :=
  match s with
  | EmptyString => EmptyString
  | String c rest => String (lower c) (lowercase rest)
  end.

(** Names of tables and columns compare without case. *)
Definition same_name (a b : string) : bool :=
  String.eqb (lowercase a) (lowercase b).

Definition has_table (name : string) (d : db) : bool :=
  existsb (fun t => same_name name (fst t)) d.

Definition operational (msg : string) : exn := mkExn "OperationalError" msg.

(** A name does not start with a digit. *)
Definition is_name (s : string) : bool :=
  match s with
  | String c _ => negb (between 48 57 (N_of_ascii c))
  | EmptyString => false
  end.

Definition column_name (def : list token) : option string :=
  match def with
  | Word c :: _ => if is_name c then Some c else None
  | _ => None
  end.

(** The names of a column list.  A definition that does not start with a
    name is a syntax error; a name met twice is refused. *)
Fixpoint check_columns (defs : list (list token)) (seen : list string)
  : result (list string) :=
  match defs with
  | [] => Ok seen
  | def :: rest =>
      match column_name def with
      | None =>
          Raise (operational
                   ("near " ++ String "034" ")" ++ String "034" ": syntax error"))
      | Some c =>
          if existsb (same_name c) seen
          then Raise (operational ("duplicate column name: " ++ c))
          else check_columns rest (seen ++ [c])
      end
  end.

(** [CREATE TABLE name ( body ], where [body] still has the closing
    parenthesis *)
Definition create_table (name : string) (body : list token) (d : db)
  : result db :=
  match rev body with
  | Sym c :: inner_rev =>
      if Ascii.eqb c ")" then
        match check_columns (split_at "," (rev inner_rev) []) [] with
        | Ok _ => Ok (d ++ [(name, [])])%list
        | Raise e => Raise e
        end
      else Raise (operational "incomplete input")
  | _ => Raise (operational "incomplete input")
  end.

Definition open_paren (ts : list token) : option (list token) :=
  match ts with
  | Sym c :: rest => if Ascii.eqb c "(" then Some rest else None
  | _ => None
  end.

Definition table_and_rest (ts : list token) : option (string * list token) :=
  match ts with
  | Word name :: rest => if is_name name then Some (name, rest) else None
  | _ => None
  end.

Definition insert_row (name : string) (r : row) (d : db) : db :=
  map (fun t => if same_name name (fst t) then (fst t, (snd t ++ [r])%list) else t) d.

Definition drop_table (name : string) (d : db) : db :=
  filter (fun t => negb (same_name name (fst t))) d.

(** The values of [... VALUES ( v , ... )] *)
Fixpoint values_of (ts : list token) : row :=
  match ts with
  | [] => []
  | Word v :: rest =>
      if String.eqb v "VALUES"
      then filter (fun t => negb (is_sym "(" t || is_sym "," t || is_sym ")" t)) rest
      else values_of rest
  | _ :: rest => values_of rest
  end.

Definition syntax_error : exn := operational "syntax error".

(** One statement *)
Definition run_statement (st : list token) (d : db) : result db :=
  match expect ["CREATE"; "TABLE"; "IF"; "NOT"; "EXISTS"] st with
  | Some rest =>
      match table_and_rest rest with
      | Some (name, rest') =>
          match open_paren rest' with
          | Some body => if has_table name d then Ok d else create_table name body d
          | None => Raise syntax_error
          end
      | None => Raise syntax_error
      end
  | None =>
  match expect ["CREATE"; "TABLE"] st with
  | Some rest =>
      match table_and_rest rest with
      | Some (name, rest') =>
          match open_paren rest' with
          | Some body =>
              if has_table name d
              then Raise (operational ("table " ++ name ++ " already exists"))
              else create_table name body d
          | None => Raise syntax_error
          end
      | None => Raise syntax_error
      end
  | None =>
  match expect ["INSERT"; "INTO"] st with
  | Some rest =>
      match table_and_rest rest with
      | Some (name, rest') =>
          if has_table name d then Ok (insert_row name (values_of rest') d)
          else Raise (operational ("no such table: " ++ name))
      | None => Raise syntax_error
      end
  | None =>
  match expect ["DROP"; "TABLE"] st with
  | Some [Word name] =>
      if has_table name d then Ok (drop_table name d)
      else Raise (operational ("no such table: " ++ name))
  | _ => Raise syntax_error
  end end end end.

Fixpoint run_statements (sts : list (list token)) (d : db) : result db :=
  match sts with
  | [] => Ok d
  | st :: rest =>
      match run_statement st d with
      | Ok d' => run_statements rest d'
      | Raise e => Raise e
      end
  end.

(** [cursor.execute(sql)]: one statement, no more *)
Definition execute (sql : string) (d : db) : result db :=
  match statements sql with
  | [] => Ok d
  | [st] => run_statement st d
  | _ => Raise (mkExn "ProgrammingError"
                  "You can only execute one statement at a time.")
  end.

(** [connection.executescript(sql)]: every statement in turn *)
Definition executescript (sql : string) (d : db) : result db :=
  run_statements (statements sql) d.

(** [execute] on a connection of the evaluator, of which only the table
    names are kept *)
Definition execute_ddl (sql : string) (c : catalog) : result catalog :=
  match execute sql (map (fun name => (name, [])) c) with
  | Ok d => Ok (map fst d)
  | Raise e => Raise e
  end.

(** The same, as the environment gives it: the catalog, or the class and
    the text of the error *)
Definition cursor (sql : string) (c : catalog) : catalog + string * string :=
  match execute_ddl sql c with
  | Ok c' => inl c'
  | Raise e => inr (exn_type e, exn_str e)
  end.

End Sqlite.

(** ** Concrete submissions and environments *)
Module Scenario.

(** The state of these submissions is the database behind the connection
    their object keeps. *)
Definition S : Type := Sqlite.db.

Definition project_dir : string := "/tmp/student_x/project".

Definition schema : string :=
  "CREATE TABLE IF NOT EXISTS users (id INTEGER PRIMARY KEY, name TEXT)".

Definition no_such_table : exn := Sqlite.operational "no such table: users".

Definition key_of (id : json) : Sqlite.token := Sqlite.Word (Py.str id).

Definition has_key (k : Sqlite.token) (r : Sqlite.row) : bool :=
  match r, k with
  | Sqlite.Word a :: _, Sqlite.Word b => String.eqb a b
  | _, _ => false
  end.

Definition rows (d : S) : list Sqlite.row :=
  flat_map (fun t => if Sqlite.same_name "users" (fst t) then snd t else []) d.

Definition set_rows (f : list Sqlite.row -> list Sqlite.row) (d : S) : S :=
  map (fun t => if Sqlite.same_name "users" (fst t) then (fst t, f (snd t)) else t) d.

(** [create] with bound parameters:
    [execute("INSERT INTO users (id, name) VALUES (?, ?)", (data["id"], data["name"]))] *)
Definition bound_create (data : json) : call (S := S) json :=
  fun d =>
    match Sqlite.execute schema d with
    | Raise e => (Raise e, d)
    | Ok d1 =>
        match Py.getitem data "id", Py.getitem data "name" with
        | Ok i, Ok n =>
            (Ok (JBool true),
             Sqlite.insert_row "users" [key_of i; Sqlite.Lit (Py.str n)] d1)
        | Raise e, _ => (Raise e, d1)
        | _, Raise e => (Raise e, d1)
        end
    end.

(** [create] by concatenation:
    [executescript("... VALUES (" + str(data["id"]) + ", '" + data["name"] + "')")] *)
Definition naive_create (data : json) : call (S := S) json :=
  fun d =>
    match Py.getitem data "id", Py.getitem data "name" with
    | Ok i, Ok n =>
        match Sqlite.executescript
                (schema ++ "; INSERT INTO users (id, name) VALUES ("
                   ++ Py.str i ++ ", '" ++ Py.str n ++ "')") d with
        | Ok d1 => (Ok (JBool true), d1)
        | Raise e => (Raise e, d)
        end
    | Raise e, _ => (Raise e, d)
    | _, Raise e => (Raise e, d)
    end.

(** [SELECT * FROM users WHERE id = ?] and [fetchone()] *)
Definition bound_read (id : json) : call (S := S) json :=
  fun d =>
    if Sqlite.has_table "users" d then
      match find (has_key (key_of id)) (rows d) with
      | Some _ => (Ok (JArr [id]), d)
      | None => (Ok JNull, d)
      end
    else (Raise no_such_table, d).

(** [UPDATE users SET name = ? WHERE id = ?], true when a row changed *)
Definition bound_update (id fields : json) : call (S := S) json :=
  fun d =>
    if Sqlite.has_table "users" d then
      match Py.getitem fields "name" with
      | Ok n =>
          (Ok (JBool (existsb (has_key (key_of id)) (rows d))),
           set_rows (map (fun r => if has_key (key_of id) r
                                   then [key_of id; Sqlite.Lit (Py.str n)] else r)) d)
      | Raise e => (Raise e, d)
      end
    else (Raise no_such_table, d).

(** [DELETE FROM users WHERE id = ?], true when a row went *)
Definition bound_delete (id : json) : call (S := S) json :=
  fun d =>
    if Sqlite.has_table "users" d then
      (Ok (JBool (existsb (has_key (key_of id)) (rows d))),
       set_rows (filter (fun r => negb (has_key (key_of id) r))) d)
    else (Raise no_such_table, d).

Definition crud_with (methods : list string) (create_impl : json -> call (S := S) json)
  : Crud S :=
  {| hasattr := fun m d => (Ok (existsb (String.eqb m) methods), d);
     set_conn_override := fun d => (Ok tt, d);
     create := create_impl;
     read := bound_read;
     update := bound_update;
     delete := bound_delete;
     sample_seen := fun data _ => data |}.

(** A class [Crud] with the four methods and parameter binding. *)
Definition safe_crud : Crud S := crud_with required bound_create.

(** The same with [create] by concatenation. *)
Definition naive_crud : Crud S := crud_with required naive_create.

(** A class [Crud] without [delete]. *)
Definition no_delete_crud : Crud S :=
  crud_with ["create"; "read"; "update"] bound_create.

(** The module [crud.py] defining the class [Crud]. *)
Definition crud_module (obj : Crud S) : PyModule S :=
  {| mod_getattr := fun name =>
       if String.eqb name "Crud" then Some (fun d => (Ok obj, d)) else None;
     mod_setattr := fun _ d => (Ok tt, d) |}.

Definition connection : Crud S := crud_with [] bound_create.

(** The module [db.py], with the globals [names] bound to functions that
    return a connection. *)
Definition db_module (names : list string) : PyModule S :=
  {| mod_getattr := fun name =>
       if existsb (String.eqb name) names
       then Some (fun d => (Ok connection, d)) else None;
     mod_setattr := fun _ d => (Ok tt, d) |}.

Definition file_not_found (path : string) : exn :=
  mkExn "FileNotFoundError" ("[Errno 2] No such file or directory: '" ++ path ++ "'").

Definition newline : string := String "010" EmptyString.

Definition in_dir (name : string) : string := Py.posix_join project_dir name.

(** An extracted submission: the files present, the manifest read from
    [README.json], what executing [crud.py] and [db.py] gives, and the exit
    status of the linter. *)
Definition world (files : list string) (manifest : json)
           (crud_py db_py : result (PyModule S)) (returncode : Z) : World S :=
  {| os_path_exists := fun p => existsb (fun f => String.eqb p (in_dir f)) files;
     json_load := fun p =>
       if String.eqb p (in_dir "README.json") then Ok manifest
       else Raise (file_not_found p);
     exec_module := fun p _ d =>
       if String.eqb p (in_dir "crud.py") then (crud_py, d)
       else if String.eqb p (in_dir "db.py") then (db_py, d)
       else (Raise (file_not_found p), d);
     cursor_execute := Sqlite.cursor;
     pycodestyle := fun _ _ => Ok (LintExit returncode);
     format_exc := fun e =>
       "Traceback (most recent call last):" ++ newline
         ++ exn_type e ++ ": " ++ exn_str e ++ newline |}.

Definition all_files : list string := ["README.json"; "crud.py"; "db.py"].

(** The manifest of the concrete scenario of the specification. *)
Definition manifest : json :=
  JObj [("crud_module", JStr "crud.py");
        ("crud_class", JStr "Crud");
        ("db_adapter", JStr "db.py");
        ("db_connect_fn", JStr "get_connection");
        ("tables", JObj [("user", JStr "users")]);
        ("sample_data",
          JObj [("create", JObj [("id", JInt 1); ("name", JStr "Alice")])])].

Definition without (key : string) (m : json) : json :=
  match m with
  | JObj l => JObj (filter (fun kv => negb (String.eqb key (fst kv))) l)
  | other => other
  end.

Definition with_entry (key : string) (v : json) (m : json) : json :=
  match without key m with
  | JObj l => JObj (l ++ [(key, v)])
  | other => other
  end.

Definition db_py : result (PyModule S) := Ok (db_module ["get_connection"]).

(** The correct submission of the scenario. *)
Definition correct_submission : World S :=
  world all_files manifest (Ok (crud_module safe_crud)) db_py 0.

(** The same submission with [create] written by concatenation. *)
Definition naive_submission : World S :=
  world all_files manifest (Ok (crud_module naive_crud)) db_py 0.

(** The manifest does not have the key [db_adapter]. *)
Definition no_adapter_entry : World S :=
  world all_files (without "db_adapter" manifest)
        (Ok (crud_module safe_crud)) db_py 0.

(** The manifest names [db.py], and the archive has no such file. *)
Definition adapter_file_absent : World S :=
  world ["README.json"; "crud.py"] manifest
        (Ok (crud_module safe_crud)) (Raise (file_not_found (in_dir "db.py"))) 0.

(** The archive has no [crud.py], with and without [db.py]. *)
Definition crud_file_absent : World S :=
  world ["README.json"; "db.py"] manifest
        (Raise (file_not_found (in_dir "crud.py"))) db_py 0.

Definition both_files_absent : World S :=
  world ["README.json"] manifest
        (Raise (file_not_found (in_dir "crud.py")))
        (Raise (file_not_found (in_dir "db.py"))) 0.

(** [crud.py] does not parse. *)
Definition broken_import : World S :=
  world all_files manifest
        (Raise (mkExn "SyntaxError" "invalid syntax (crud.py, line 3)")) db_py 0.

(** The class has no [delete]. *)
Definition method_missing : World S :=
  world all_files manifest (Ok (crud_module no_delete_crud)) db_py 0.

(** [db.py] binds no [get_connection]. *)
Definition no_factory : World S :=
  world all_files manifest (Ok (crud_module safe_crud)) (Ok (db_module [])) 0.

(** The manifest gives a number where the name of the factory goes. *)
Definition factory_name_not_a_string : World S :=
  world all_files (with_entry "db_connect_fn" (JInt 5) manifest)
        (Ok (crud_module safe_crud)) db_py 0.

(** The manifest has no [tables]. *)
Definition no_tables : World S :=
  world all_files (without "tables" manifest) (Ok (crud_module safe_crud)) db_py 0.

(** [create] that writes the key SQLite generated back into the record it
    was given: [data["id"] = cur.lastrowid] *)
Definition assigning_create (data : json) : call (S := S) json :=
  fun d =>
    match Sqlite.execute schema d with
    | Raise e => (Raise e, d)
    | Ok d1 =>
        match Py.getitem data "name" with
        | Ok n =>
            (Ok (JBool true),
             Sqlite.insert_row "users" [key_of (JInt 1); Sqlite.Lit (Py.str n)] d1)
        | Raise e => (Raise e, d1)
        end
    end.

Definition assigning_crud : Crud S :=
  {| hasattr := fun m d => (Ok (existsb (String.eqb m) required), d);
     set_conn_override := fun d => (Ok tt, d);
     create := assigning_create;
     read := bound_read;
     update := bound_update;
     delete := bound_delete;
     sample_seen := fun data d =>
       if Sqlite.has_table "users" d then with_entry "id" (JInt 1) data else data |}.

Definition keyless_manifest : json :=
  with_entry "sample_data" (JObj [("create", JObj [("name", JStr "Alice")])]) manifest.

(** A sample record without [id], and a [create] that assigns it. *)
Definition id_assigning_submission : World S :=
  world all_files keyless_manifest (Ok (crud_module assigning_crud)) db_py 0.

(** The names bound at line 71 from a manifest that names [crud.py], [Crud]
    and [db.py]. *)
Definition locals_of (m sample : json) : Locals :=
  mkLocals m (JStr "Crud") sample (in_dir "crud.py") (in_dir "db.py").

Definition sample : json := JObj [("id", JInt 1); ("name", JStr "Alice")].

Definition locals : Locals := locals_of manifest sample.

End Scenario.

(** ** The upload view ([app.py]) *)
Module App.

(** [render_template(template, error=..., report=...)], as the values handed
    to the template. *)
Record page : Type := Page {
  template : string;
  error : option string;
  report : option Report
}.

(** What the view function gives back to Flask: the page it rendered, or
    the exception that left it. *)
Inductive response : Type :=
| Rendered (p : page)
| Failed (e : exn).

Section View.

Context {S : Type}.

(** One POST to [/evaluate] and the machine it lands on. *)
Record Server : Type := {
  (** [request.files.get("zipfile")], and whether what it gives is truthy *)
  uploaded : result bool;
  (** [tempfile.mkdtemp(prefix="student_")] *)
  mkdtemp : result string;
  (** [uploaded.save(zip_path)] *)
  save : string -> result unit;
  (** [os.makedirs(extract_path, exist_ok=True)] *)
  makedirs : string -> result unit;
  (** [zipfile.ZipFile(zip_path)] and [z.extractall(extract_path)]: the
      environment the evaluator then runs in, or the exception raised *)
  extractall : string -> string -> result (World S);
  (** [print("DEBUG RESULT:", result)] *)
  print : Report -> result unit;
  (** [render_template(template, ...)] on the values of a page *)
  render_template : page -> result unit
}.

(** [return render_template(...)] *)
Definition render (srv : Server) (p : page) : response :=
  match render_template srv p with
  | Ok _ => Rendered p
  | Raise e => Failed e
  end.

(** [except Exception as e: return render_template(template,
    error=f"{prefix}{e}")] (lines 35-36 and 41-42) *)
Definition handle (srv : Server) (template prefix : string) (e : exn) : response :=
  if is_exception e
  then
    match str_of_exn e with
    | Ok text => render srv (Page template (Some (prefix ++ text)) None)
    | Raise raised => Failed raised
    end
  else Failed e.

(** [evaluate()] (lines 17-46) *)
Definition evaluate (srv : Server) (s0 : S) : response :=
  match uploaded srv with
  | Raise e => Failed e
  | Ok false =>
      render srv (Page "upload.html" (Some "Please upload a zip file.") None)
  | Ok true =>
      match mkdtemp srv with
      | Raise e => Failed e
      | Ok temp_dir =>
          let zip_path := Py.posix_join temp_dir "project.zip" in
          match save srv zip_path with
          | Raise e => Failed e
          | Ok _ =>
              let extract_path := Py.posix_join temp_dir "project" in
              match makedirs srv extract_path with
              | Raise e => Failed e
              | Ok _ =>
                  match extractall srv zip_path extract_path with
                  | Raise e => handle srv "upload.html" "Error extracting ZIP: " e
                  | Ok w =>
                      match evaluate_project w extract_path s0 with
                      | Escaped e =>
                          handle srv "result.html" "Evaluator crashed: " e
                      | Returned result =>
                          match print srv result with
                          | Raise e => Failed e
                          | Ok _ =>
                              render srv (Page "result.html" None (Some result))
                          end
                      end
                  end
              end
          end
      end
  end.

End View.

Arguments Server S : clear implicits.

End App.

(** ** More concrete archives *)
Module Cases.

Import Scenario.

(** An archive without [README.json]. *)
Definition no_readme : World S :=
  world ["crud.py"; "db.py"] manifest (Ok (crud_module safe_crud)) db_py 0.

(** [README.json] is cut short. *)
Definition truncated_readme : World S :=
  {| os_path_exists := os_path_exists correct_submission;
     json_load := fun _ =>
       Raise (mkExn "JSONDecodeError"
                "Expecting ',' delimiter: line 4 column 3 (char 61)");
     exec_module := exec_module correct_submission;
     cursor_execute := cursor_execute correct_submission;
     pycodestyle := pycodestyle correct_submission;
     format_exc := format_exc correct_submission |}.

(** The manifest does not name the class. *)
Definition no_class_name : World S :=
  world all_files (without "crud_class" manifest)
        (Ok (crud_module safe_crud)) db_py 0.

(** [README.json] holds a list. *)
Definition list_manifest : World S :=
  world all_files (JArr [JStr "crud.py"; JStr "Crud"])
        (Ok (crud_module safe_crud)) db_py 0.

(** The manifest names a module outside the archive. *)
Definition outside_manifest : json :=
  with_entry "crud_module" (JStr "/srv/shared/crud.py") manifest.

Definition outside_module : World S :=
  world all_files outside_manifest (Ok (crud_module safe_crud)) db_py 0.

Definition outside_locals : Locals :=
  mkLocals outside_manifest (JStr "Crud") sample
           "/srv/shared/crud.py" (in_dir "db.py").

(** The manifest names a class [Store], which [crud.py] does not define. *)
Definition other_class_manifest : json :=
  with_entry "crud_class" (JStr "Store") manifest.

Definition other_class : World S :=
  world all_files other_class_manifest (Ok (crud_module safe_crud)) db_py 0.

Definition other_class_locals : Locals :=
  mkLocals other_class_manifest (JStr "Store") sample
           (in_dir "crud.py") (in_dir "db.py").

(** The linter is not installed. *)
Definition no_linter : World S :=
  {| os_path_exists := os_path_exists id_assigning_submission;
     json_load := json_load id_assigning_submission;
     exec_module := exec_module id_assigning_submission;
     cursor_execute := cursor_execute id_assigning_submission;
     pycodestyle := fun _ _ => Ok LintNotFound;
     format_exc := format_exc id_assigning_submission |}.

(** The sample record has no [id] and [create] leaves the record alone. *)
Definition keyless_sample : World S :=
  world all_files keyless_manifest (Ok (crud_module safe_crud)) db_py 0.

(** The manifest has [null] for [sample_data]. *)
Definition null_sample_manifest : json := with_entry "sample_data" JNull manifest.

Definition null_sample : World S :=
  world all_files null_sample_manifest (Ok (crud_module safe_crud)) db_py 0.

(** [create] that refuses a name with a quote in it:
    [raise ValueError("invalid name")] before any statement is run. *)
Definition strict_create (data : json) : call (S := S) json :=
  fun d =>
    match Py.getitem data "name" with
    | Ok (JStr n) =>
        if Py.contains_char "'" n
        then (Raise (mkExn "ValueError" "invalid name"), d)
        else bound_create data d
    | _ => bound_create data d
    end.

Definition strict_crud : Crud S := crud_with required strict_create.

(** The entries of a manifest object. *)
Definition entries_of (m : json) : list (string * json) :=
  match m with
  | JObj l => l
  | _ => []
  end.

(** The run at the injection probe of the scenario: [table_name] is bound
    to [users], nothing is scored yet. *)
Definition at_probe (d : S) : Run (S := S) :=
  mkRun Score.init (Some (JStr "users")) d [].

(** The class has [create] and [read], no [delete], and a property
    [update] whose getter raises:
    [raise RuntimeError("connection not configured")]. *)
Definition raising_property : exn :=
  mkExn "RuntimeError" "connection not configured".

Definition raising_property_crud : Crud S :=
  {| hasattr := fun m d =>
       if String.eqb m "update" then (Raise raising_property, d)
       else (Ok (existsb (String.eqb m) ["create"; "read"]), d);
     set_conn_override := set_conn_override safe_crud;
     create := create safe_crud;
     read := read safe_crud;
     update := update safe_crud;
     delete := delete safe_crud;
     sample_seen := sample_seen safe_crud |}.

Definition property_raises : World S :=
  world all_files manifest (Ok (crud_module raising_property_crud)) db_py 0.

(** [sys.exit(1)] *)
Definition system_exit : exn := Exn "SystemExit" "1" false None.




(** [crud.py] calls [sys.exit(1)] at its top level. *)
Definition exits_on_import : World S :=
  world all_files manifest (Raise system_exit) db_py 0.

(** [pycodestyle] is installed and may not be executed. *)
Definition permission_denied : exn :=
  mkExn "PermissionError" "[Errno 13] Permission denied: 'pycodestyle'".

Definition linter_denied : World S :=
  {| os_path_exists := os_path_exists no_tables;
     json_load := json_load no_tables;
     exec_module := exec_module no_tables;
     cursor_execute := cursor_execute no_tables;
     pycodestyle := fun _ _ => Raise permission_denied;
     format_exc := format_exc no_tables |}.

(** A request that carries an archive, on a machine where the temporary
    directory can be made and written, the debug line printed and the
    templates rendered; [archive] is what extraction gives. *)
Definition server (archive : result (World S)) : App.Server S :=
  {| App.uploaded := Ok true;
     App.mkdtemp := Ok "/tmp/student_x";
     App.save := fun _ => Ok tt;
     App.makedirs := fun _ => Ok tt;
     App.extractall := fun _ _ => archive;
     App.print := fun _ => Ok tt;
     App.render_template := fun _ => Ok tt |}.

End Cases.

(** ** An adapter module whose bindings are observed *)
Module Adapter.

(** The state of this submission: the names the evaluator has bound in the
    namespace of [db.py], latest first. *)
Definition S : Type := list string.

(** A class [Crud] that keeps its records in a list of its own and asks
    [db.py] for nothing. *)
Definition crud : Crud S :=
  {| hasattr := fun m s => (Ok (existsb (String.eqb m) required), s);
     set_conn_override := fun s => (Ok tt, s);
     create := fun _ s => (Ok (JBool true), s);
     read := fun _ s => (Ok (JObj [("name", JStr "Alice")]), s);
     update := fun _ _ s => (Ok (JBool true), s);
     delete := fun _ s => (Ok (JBool true), s);
     sample_seen := fun data _ => data |}.

Definition crud_py : PyModule S :=
  {| mod_getattr := fun name =>
       if String.eqb name "Crud" then Some (fun s => (Ok crud, s)) else None;
     mod_setattr := fun name s => (Ok tt, name :: s) |}.

(** [db.py] with the globals [defined], which [getattr] finds on the
    module as loaded; [setattr] binds whatever name it is given. *)
Definition db_py (defined : list string) : PyModule S :=
  {| mod_getattr := fun name =>
       if existsb (String.eqb name) defined
       then Some (fun s => (Ok crud, s)) else None;
     mod_setattr := fun name s => (Ok tt, name :: s) |}.

(** The archive of the scenario, [db.py] defining [defined]. *)
Definition world (defined : list string) : World S :=
  {| os_path_exists := os_path_exists Scenario.correct_submission;
     json_load := json_load Scenario.correct_submission;
     exec_module := fun p _ s =>
       if String.eqb p (Scenario.in_dir "crud.py") then (Ok crud_py, s)
       else if String.eqb p (Scenario.in_dir "db.py") then (Ok (db_py defined), s)
       else (Raise (Scenario.file_not_found p), s);
     cursor_execute := Sqlite.cursor;
     pycodestyle := fun _ _ => Ok (LintExit 0);
     format_exc := format_exc Scenario.correct_submission |}.

(** [db.py] is empty: it defines no [get_connection]. *)
Definition empty_adapter : World S := world [].

(** [db.py] replaces the class of its module object by one whose
    [__setattr__] raises. *)
Definition read_only : exn := mkExn "AttributeError" "adapter settings are read-only".

Definition frozen_db_py : PyModule S :=
  {| mod_getattr := mod_getattr (db_py ["get_connection"]);
     mod_setattr := fun _ s => (Raise read_only, s) |}.

Definition frozen_adapter : World S :=
  {| os_path_exists := os_path_exists empty_adapter;
     json_load := json_load empty_adapter;
     exec_module := fun p _ s =>
       if String.eqb p (Scenario.in_dir "crud.py") then (Ok crud_py, s)
       else if String.eqb p (Scenario.in_dir "db.py") then (Ok frozen_db_py, s)
       else (Raise (Scenario.file_not_found p), s);
     cursor_execute := cursor_execute empty_adapter;
     pycodestyle := pycodestyle empty_adapter;
     format_exc := format_exc empty_adapter |}.

End Adapter.

(** A run of [Score.add] calls on one object. *)
Definition add_all (calls : list (Z * bool * string * string)) (self : Score.t)
  : Score.t :=
  fold_left
    (fun sc c =>
       match c with
       | (points, condition, success_msg, fail_msg) =>
           Score.add points condition success_msg fail_msg sc
       end)
    calls self.

(** The value at [key] of a manifest object, [None] when the key is
    absent, as [meta.get(key)] gives it. *)
Definition manifest_value (entries : list (string * json)) (key : string) : json :=
  match Py.assoc key entries with
  | Some v => v
  | None => JNull
  end.

Definition is_object (v : json) : bool :=
  match v with
  | JObj _ => true
  | _ => false
  end.

(** ** Reading a run *)

(** The points a log entry adds to [total], and to [earned]. *)
Definition weight (e : event) : Z :=
  match e with
  | Attempted points _ => points
  | Diagnostic => 0
  end.

Definition gain (e : event) : Z :=
  match e with
  | Attempted points true => points
  | _ => 0
  end.

Definition is_check (e : event) : bool :=
  match e with
  | Attempted _ _ => true
  | Diagnostic => false
  end.

Definition total_of (f : event -> Z) (evs : list event) : Z :=
  fold_right (fun e acc => f e + acc) 0 evs.

(** The checks attempted in a run, their weights in order, and the lines
    appended outside [Score.add]. *)
Definition attempted (evs : list event) : list event := filter is_check evs.
Definition check_weights (evs : list event) : list Z := map weight (attempted evs).
Definition diagnostics (evs : list event) : list event :=
  filter (fun e => negb (is_check e)) evs.

(** The fixed weights of the pipeline: two files, the import, four methods,
    the sandbox, the round trip, the injection probe, the linter. *)
Definition pipeline_weights : list Z := [10; 10; 20; 5; 5; 5; 5; 10; 30; 20; 10].

(** The lists of weights a run can stop at: after the files, the import,
    the methods, the sandbox, or at the end. *)
Definition halting_points : list (list Z) :=
  [ [10; 10];
    [10; 10; 20];
    [10; 10; 20; 5; 5; 5; 5];
    [10; 10; 20; 5; 5; 5; 5; 10];
    pipeline_weights ].

(** The entry [Score.add] appends. *)
Definition entry (condition : bool) (success_msg fail_msg : string) : string :=
  if condition then "✔ " ++ success_msg else "❌ " ++ fail_msg.

Definition method_entry (m : string) (found : bool) : string :=
  entry found ("Method " ++ m ++ "() found") ("Method " ++ m ++ "() missing").

(** The entries and the score mutations of the loop of lines 120-126, from
  the answers of its lookups. *)
Definition method_entries (answers : list bool) : list string :=
  map (fun mb => method_entry (fst mb) (snd mb)) (combine required answers).

Definition method_events (answers : list bool) : list event :=
  map (Attempted 5) answers.

Definition import_entry (passed : bool) : string :=
  entry passed "CRUD class imported successfully" "Failed to load CRUD class".

Definition sandbox_entry (passed : bool) : string :=
  entry passed "Database connection successfully sandboxed"
        "Unable to sandbox database calls".

Definition functional_entry (passed : bool) : string :=
  entry passed "CRUD operations successfully executed" "CRUD functional test failed".

Definition injection_entry (passed : bool) : string :=
  entry passed "SQL injection protection appears safe"
        "SQL injection vulnerability detected".

Definition style_entry (passed : bool) : string :=
  entry passed "Code is PEP8 clean" "Code style violations found".

(** What [still_exists] is after the [try] of test 6. *)
Definition still_exists (cb : ctl bool) : bool :=
  match cb with
  | Next b => b
  | _ => false
  end.

(** The score mutations of test 5, by how the body of its [try] ended. *)
Definition functional_events (cb : ctl bool) : list event :=
  match cb with
  | Next passed => [Attempted 30 passed]
  | _ => [Diagnostic; Attempted 30 false]
  end.

Definition scored {A : Type} (c : ctl A) : Prop :=
  match c with
  | Return (ScoreReport _ _ _) => True
  | _ => False
  end.

Section Vocabulary.

Context {S : Type}.
Variable w : World S.

Local Abbreviation Run := (Run (S := S)).
Local Abbreviation M := (M (S := S)).

(** [r'] is [r] after the score mutations [evs], which appended [msgs]. *)
Definition extends (r r' : Run) (evs : list event) (msgs : list string) : Prop :=
  log r' = (log r ++ evs)%list
  /\ Score.details (score r') = (Score.details (score r) ++ msgs)%list
  /\ Score.total (score r') = Score.total (score r) + total_of weight evs
  /\ Score.earned (score r') = Score.earned (score r) + total_of gain evs
  /\ length msgs = length evs.

(** A computation that leaves the score alone and has no [return]. *)
Definition silent {A : Type} (m : M A) : Prop :=
  forall r,
    score (snd (m r)) = score r
    /\ log (snd (m r)) = log r
    /\ forall rep, fst (m r) <> Return rep.

(** A computation that does not assign [table_name]. *)
Definition keeps_table {A : Type} (m : M A) : Prop :=
  forall r, table_name (snd (m r)) = table_name r.

(** A computation that leaves the whole run as it was and returns no
    score. *)
Definition inert {A : Type} (m : M A) : Prop :=
  forall r, snd (m r) = r /\ ~ scored (fst (m r)).

Definition functional_messages (cb : ctl bool) : list string :=
  match cb with
  | Next passed => [functional_entry passed]
  | Uncaught e =>
      ["❌ CRUD runtime error: " ++ format_exc w e; functional_entry false]
  | Return _ => []
  end.

(** The run returned the finalized score after checks of weights [ws]. *)
Definition halted_at (r r' : Run) (rep : Report) (ws : list Z) : Prop :=
  rep = finalize (score r')
  /\ exists evs msgs, extends r r' evs msgs /\ check_weights evs = ws.

(** A critical check whose [try] raised [e], from [r] to [r'] with the
    outcome [c]: the diagnostic line with the text of [e], the failed check
    and the [return] when [e] is an [Exception] and [str(e)] returns;
    nothing scored, and an exception on its way out, otherwise. *)
Definition caught_critical {A : Type} (prefix : string) (points : Z)
           (fail_entry : string) (e : exn) (r r' : Run) (c : ctl A) : Prop :=
  if is_exception e
  then
    match str_of_exn e with
    | Ok text =>
        c = Return (finalize (score r'))
        /\ extends r r' [Diagnostic; Attempted points false]
                   [(prefix ++ text)%string; fail_entry]
    | Raise raised => c = Uncaught raised /\ extends r r' [] []
    end
  else c = Uncaught e /\ extends r r' [] [].

Definition file_entries (l : Locals) : list string :=
  [entry (os_path_exists w (crud_path l)) "CRUD module found" "CRUD module missing";
   entry (os_path_exists w (db_path l))
         "DB adapter file found" "DB adapter file missing"].

(** The answers of [hasattr(crud_obj, m)] for the names [ms], asked in
    turn from the state [s]: all of them, or the first exception. *)
Fixpoint lookups (o : Crud S) (ms : list string) (s : S) : result (list bool) * S :=
  match ms with
  | [] => (Ok [], s)
  | m :: rest =>
      match hasattr o m s with
      | (Raise e, s1) => (Raise e, s1)
      | (Ok found, s1) =>
          match lookups o rest s1 with
          | (Ok answers, s2) => (Ok (found :: answers), s2)
          | (Raise e, s2) => (Raise e, s2)
          end
      end
  end.

(** The sequence of lines 177-180 in the words of the specification:
    [create], then [read], [update] and [delete] on the object, each of the
    last three with the [id] the sample record holds by then.  It gives
    what the last three returned, or the first exception raised. *)
Definition crud_sequence (o : Crud S) (sample : json) (s : S)
  : result (json * json * json) * S :=
  match create o sample s with
  | (Raise e, s1) => (Raise e, s1)
  | (Ok _, s1) =>
  match Py.getitem (sample_seen o sample s1) "id" with
  | Raise e => (Raise e, s1)
  | Ok id_r =>
  match read o id_r s1 with
  | (Raise e, s2) => (Raise e, s2)
  | (Ok read_item, s2) =>
  match Py.getitem (sample_seen o sample s2) "id" with
  | Raise e => (Raise e, s2)
  | Ok id_u =>
  match update o id_u (JObj [("name", JStr "Updated")]) s2 with
  | (Raise e, s3) => (Raise e, s3)
  | (Ok updated, s3) =>
  match Py.getitem (sample_seen o sample s3) "id" with
  | Raise e => (Raise e, s3)
  | Ok id_d =>
  match delete o id_d s3 with
  | (Raise e, s4) => (Raise e, s4)
  | (Ok deleted, s4) => (Ok (read_item, updated, deleted), s4)
  end end end end end end end.

End Vocabulary.

(** ** Reading a rejected manifest and a stopped run *)

Definition missing_readme : string :=
  "❌ Missing README.json – naming conventions unknown.".

Definition missing_names : string :=
  "README.json must contain CRUD module + class name.".

(** The shape lines 62-65 need of the manifest object: its [sample_data],
    when there is one, is an object too. *)
Definition readable (entries : list (string * json)) : Prop :=
  match Py.assoc "sample_data" entries with
  | Some v => is_object v = true
  | None => True
  end.

Section Outcomes.

Context {S : Type}.
Variable w : World S.

(** The three ways lines 53-71 return an error report. *)
Definition rejected (project_dir : string) (msg : string) : Prop :=
  let readme := Py.posix_join project_dir "README.json" in
  (os_path_exists w readme = false /\ msg = missing_readme)
  \/ (os_path_exists w readme = true
      /\ exists e,
          json_load w readme = Raise e
          /\ is_exception e = true /\ str_of_exn e = Ok msg)
  \/ (os_path_exists w readme = true
      /\ exists entries,
          json_load w readme = Ok (JObj entries)
          /\ readable entries
          /\ (Py.truthy (manifest_value entries "crud_module") = false
              \/ Py.truthy (manifest_value entries "crud_class") = false)
          /\ msg = missing_names).

(** Where a run that returns a score stopped, and what it had met: the
    text of the exception of the import or of the patch, the answers of the
    four lookups of the loop, how the bodies of tests 5 and 6 ended, the
    linter's verdict. *)
Inductive stop : Type :=
| AfterFiles
| AfterImport (text : string)
| AfterMethods (answers : list bool)
| AfterSandbox (answers : list bool) (text : string)
| AtEnd (answers : list bool) (cb ci : ctl bool) (clean : bool).

(** The body of a [try] that did not let its exception through. *)
Definition handled {A : Type} (c : ctl A) : Prop :=
  match c with
  | Next _ => True
  | Return _ => False
  | Uncaught e => is_exception e = true
  end.

Definition stop_valid (l : Locals) (s : stop) : Prop :=
  match s with
  | AfterFiles => os_path_exists w (crud_path l) = false
  | AfterImport _ => os_path_exists w (crud_path l) = true
  | AfterMethods answers =>
      os_path_exists w (crud_path l) = true /\ length answers = 4%nat
  | AfterSandbox answers _ =>
      os_path_exists w (crud_path l) = true /\ length answers = 4%nat
  | AtEnd answers cb ci clean =>
      os_path_exists w (crud_path l) = true
      /\ length answers = 4%nat
      /\ handled cb /\ handled ci
      /\ exists s, is_clean w l s = Ok clean
  end.

Definition file_events (l : Locals) : list event :=
  [Attempted 10 (os_path_exists w (crud_path l));
   Attempted 10 (os_path_exists w (db_path l))].

Definition stop_events (l : Locals) (s : stop) : list event :=
  match s with
  | AfterFiles => file_events l
  | AfterImport _ => file_events l ++ [Diagnostic; Attempted 20 false]
  | AfterMethods answers =>
      file_events l ++ [Attempted 20 true] ++ method_events answers
  | AfterSandbox answers _ =>
      file_events l ++ [Attempted 20 true] ++ method_events answers
        ++ [Diagnostic; Attempted 10 false]
  | AtEnd answers cb ci clean =>
      file_events l ++ [Attempted 20 true] ++ method_events answers
        ++ [Attempted 10 true] ++ functional_events cb
        ++ [Attempted 20 (still_exists ci); Attempted 10 clean]
  end%list.

Definition stop_entries (l : Locals) (s : stop) : list string :=
  match s with
  | AfterFiles => file_entries w l
  | AfterImport text =>
      file_entries w l
        ++ [("❌ Could not import CRUD class: " ++ text)%string; import_entry false]
  | AfterMethods answers =>
      file_entries w l ++ [import_entry true] ++ method_entries answers
  | AfterSandbox answers text =>
      file_entries w l ++ [import_entry true] ++ method_entries answers
        ++ [("❌ Cannot patch DB connection: " ++ text)%string; sandbox_entry false]
  | AtEnd answers cb ci clean =>
      file_entries w l ++ [import_entry true] ++ method_entries answers
        ++ [sandbox_entry true] ++ functional_messages w cb
        ++ [injection_entry (still_exists ci); style_entry clean]
  end%list.

(** The checks attempted and the diagnostic lines appended up to a stop. *)
Definition stop_checks (s : stop) : nat :=
  match s with
  | AfterFiles => 2
  | AfterImport _ => 3
  | AfterMethods _ => 7
  | AfterSandbox _ _ => 8
  | AtEnd _ _ _ _ => 11
  end.

Definition stop_diagnostics (s : stop) : nat :=
  match s with
  | AfterFiles => 0
  | AfterImport _ => 1
  | AfterMethods _ => 0
  | AfterSandbox _ _ => 1
  | AtEnd _ (Uncaught _) _ _ => 1
  | AtEnd _ _ _ _ => 0
  end.

(** [max_score] at each stop. *)
Definition stop_max (s : stop) : Z :=
  match s with
  | AfterFiles => 20
  | AfterImport _ => 40
  | AfterMethods _ => 60
  | AfterSandbox _ _ => 70
  | AtEnd _ _ _ _ => 130
  end.

(** The weights of the checks attempted up to each stop. *)
Definition stop_weights (s : stop) : list Z :=
  match s with
  | AfterFiles => [10; 10]
  | AfterImport _ => [10; 10; 20]
  | AfterMethods _ => [10; 10; 20; 5; 5; 5; 5]
  | AfterSandbox _ _ => [10; 10; 20; 5; 5; 5; 5; 10]
  | AtEnd _ _ _ _ => pipeline_weights
  end.

End Outcomes.

(** One call of [Score.add] as the log entry and the line it leaves. *)
Definition call_event (c : Z * bool * string * string) : event :=
  match c with
  | (points, condition, _, _) => Attempted points condition
  end.

Definition call_entry (c : Z * bool * string * string) : string :=
  match c with
  | (_, condition, success_msg, fail_msg) => entry condition success_msg fail_msg
  end.

(** * Properties *)

Ltac done_with H := inversion H; subst; clear H.

(** A pair is known from its first component. *)
Lemma with_snd {A B : Type} (x : A * B) (a : A) : fst x = a -> x = (a, snd x).
Proof. intros <-. apply surjective_pairing. Qed.

(** ** The helpers on small inputs *)

Example str_of_nested_value :
  Py.str (JArr [JInt 1; JStr "a"; JNull; JBool true; JObj [("k", JInt (-2))]])
  = "[1, 'a', None, True, {'k': -2}]".
Proof. reflexivity. Qed.

Example join_relative_and_absolute :
  Py.posix_join "/tmp/x/project" "crud.py" = "/tmp/x/project/crud.py"
  /\ Py.posix_join "/tmp/x/project/" "crud.py" = "/tmp/x/project/crud.py"
  /\ Py.posix_join "/tmp/x/project" "/etc/passwd" = "/etc/passwd".
Proof. repeat split; reflexivity. Qed.

Example duplicate_column_refused :
  Sqlite.execute_ddl
    "CREATE TABLE users (id INTEGER PRIMARY KEY, id TEXT, name TEXT)" []
  = Raise (Sqlite.operational "duplicate column name: id")
  /\ Sqlite.execute_ddl "CREATE TABLE users (id INTEGER PRIMARY KEY, name TEXT)" []
     = Ok ["users"].
Proof. split; vm_compute; reflexivity. Qed.

Example payload_drops_the_table :
  Sqlite.executescript
    "INSERT INTO users (id, name) VALUES (999, 'Robert'); DROP TABLE users; --')"
    [("users", [])]
  = Ok [].
Proof. vm_compute. reflexivity. Qed.

Example one_statement_per_execute :
  Sqlite.execute
    "INSERT INTO users (id, name) VALUES (999, 'Robert'); DROP TABLE users; --')"
    [("users", [])]
  = Raise (mkExn "ProgrammingError" "You can only execute one statement at a time.").
Proof. vm_compute. reflexivity. Qed.

Ltac parts :=
  repeat match goal with
         | |- _ /\ _ => split
         end.

Lemma total_of_app (f : event -> Z) (a b : list event) :
  total_of f (a ++ b) = total_of f a + total_of f b.
Proof.
  induction a as [|e a IH]; simpl; [reflexivity | rewrite IH; lia].
Qed.

Lemma check_weights_app (a b : list event) :
  check_weights (a ++ b) = (check_weights a ++ check_weights b)%list.
Proof. unfold check_weights, attempted. rewrite filter_app, map_app. reflexivity. Qed.

Lemma gain_le_weight (e : event) : 0 <= weight e -> 0 <= gain e <= weight e.
Proof. destruct e as [p [|]|]; simpl; lia. Qed.

Lemma total_gain_le_weight (evs : list event) :
  Forall (fun e => 0 <= weight e) evs ->
  0 <= total_of gain evs <= total_of weight evs.
Proof.
  induction 1 as [|e evs He _ IH]; simpl; [lia|].
  pose proof (gain_le_weight e He). lia.
Qed.

Lemma total_weight_attempted (evs : list event) :
  total_of weight evs = fold_right Z.add 0 (check_weights evs).
Proof.
  unfold check_weights, attempted.
  induction evs as [|[p b|] evs IH]; simpl; [reflexivity| rewrite IH; reflexivity | exact IH].
Qed.

Lemma length_attempted_diagnostics (evs : list event) :
  (length evs = length (attempted evs) + length (diagnostics evs))%nat.
Proof.
  unfold attempted, diagnostics.
  induction evs as [|[p b|] evs IH]; simpl; lia.
Qed.

Module ScoreFacts.

Lemma add_total p c s f sc :
  Score.total (Score.add p c s f sc) = Score.total sc + p.
Proof. unfold Score.add; destruct c; reflexivity. Qed.

Lemma add_earned p c s f sc :
  Score.earned (Score.add p c s f sc) = Score.earned sc + (if c then p else 0).
Proof. unfold Score.add; destruct c; simpl; lia. Qed.

Lemma add_details p c s f sc :
  Score.details (Score.add p c s f sc) = (Score.details sc ++ [entry c s f])%list.
Proof. unfold Score.add, entry; destruct c; reflexivity. Qed.

End ScoreFacts.

Section Rules.

Context {S : Type}.
Variable w : World S.

Local Abbreviation Run := (Run (S := S)).
Local Abbreviation M := (M (S := S)).

Lemma extends_refl (r : Run) : extends r r [] [].
Proof.
  unfold extends; simpl. rewrite !app_nil_r. repeat split; lia.
Qed.

Lemma extends_trans (r1 r2 r3 : Run) evs1 msgs1 evs2 msgs2 :
  extends r1 r2 evs1 msgs1 -> extends r2 r3 evs2 msgs2 ->
  extends r1 r3 (evs1 ++ evs2) (msgs1 ++ msgs2).
Proof.
  intros (L1 & D1 & T1 & E1 & N1) (L2 & D2 & T2 & E2 & N2).
  unfold extends. rewrite L2, L1, D2, D1, T2, T1, E2, E1.
  rewrite !total_of_app, !app_assoc, !length_app.
  repeat split; lia.
Qed.

Lemma extends_same_score (r r' : Run) :
  score r' = score r -> log r' = log r -> extends r r' [] [].
Proof.
  intros Hs Hl. unfold extends. rewrite Hs, Hl, !app_nil_r. simpl.
  repeat split; lia.
Qed.

Lemma extends_score_add p c s f (r : Run) :
  extends r (snd (score_add p c s f r)) [Attempted p c] [entry c s f].
Proof.
  unfold extends; simpl.
  rewrite ScoreFacts.add_total, ScoreFacts.add_earned, ScoreFacts.add_details.
  destruct c; repeat split; lia.
Qed.

Lemma extends_details_append msg (r : Run) :
  extends r (snd (details_append msg r)) [Diagnostic] [msg].
Proof. unfold extends; simpl. repeat split; lia. Qed.

(** *** Silent computations *)

Lemma silent_ret {A} (a : A) : @silent S A (ret a).
Proof. intros r; simpl; repeat split; discriminate. Qed.

Lemma silent_raise {A} (e : exn) : @silent S A (raise e).
Proof. intros r; simpl; repeat split; discriminate. Qed.

Lemma silent_eval {A} (x : result A) : @silent S A (eval x).
Proof. destruct x; [apply silent_ret | apply silent_raise]. Qed.

Lemma silent_invoke {A} (c : call (S := S) A) : @silent S A (invoke c).
Proof.
  intros r; unfold invoke. destruct (c (cand r)) as [[a|e] s]; simpl;
    repeat split; discriminate.
Qed.

Lemma silent_bind {A B} (m : M A) (k : A -> M B) :
  silent m -> (forall a, silent (k a)) -> silent (bind m k).
Proof.
  intros Hm Hk r. unfold bind.
  destruct (Hm r) as (Hs & Hl & Hr).
  destruct (m r) as [[a|rep|e] r1]; simpl in *.
  - destruct (Hk a r1) as (Hs' & Hl' & Hr').
    rewrite Hs', Hl'. auto.
  - exfalso; apply (Hr rep); reflexivity.
  - repeat split; auto; discriminate.
Qed.

Lemma silent_assign_table_name v : @silent S unit (assign_table_name v).
Proof. intros r; simpl; repeat split; discriminate. Qed.

Lemma silent_read_table_name : @silent S json read_table_name.
Proof.
  intros r; unfold read_table_name; destruct (table_name r); simpl;
    repeat split; discriminate.
Qed.

Lemma silent_submission_state : @silent S S submission_state.
Proof. intros r; simpl; repeat split; discriminate. Qed.

Lemma silent_module_setattr (m : PyModule S) (name : string) :
  silent (module_setattr m name).
Proof. apply silent_invoke. Qed.

Lemma silent_dynamic_import (path name : string) :
  silent (dynamic_import w path name).
Proof. apply silent_invoke. Qed.

End Rules.

Create HintDb silent.
#[export] Hint Resolve silent_ret silent_raise silent_eval silent_invoke
  silent_assign_table_name silent_read_table_name silent_submission_state
  silent_module_setattr silent_dynamic_import : silent.

Ltac silence :=
  repeat first
    [ apply silent_bind; [| intros ? ]
    | solve [ auto with silent ] ].

(** A list of four answers, one for each required method. *)
Ltac four answers N :=
  destruct answers as [|? [|? [|? [|? [|? ?]]]]]; try discriminate N.
Section Stages.

Context {S : Type}.

Variable w : World S.

Local Abbreviation Run := (Run (S := S)).

Local Abbreviation M := (M (S := S)).

Lemma keeps_table_bind {A B} (m : M A) (k : A -> M B) :
  keeps_table m -> (forall a, keeps_table (k a)) -> keeps_table (bind m k).
Proof.
  intros Hm Hk r. unfold bind. specialize (Hm r).
  destruct (m r) as [[a|rep|e] r1]; simpl in *; auto.
  rewrite Hk; exact Hm.
Qed.

Lemma keeps_table_try {A} (body : M A) (h : exn -> M A) :
  keeps_table body -> (forall e, keeps_table (h e)) ->
  keeps_table (try_except body h).
Proof.
  intros Hb Hh r. unfold try_except. specialize (Hb r).
  destruct (body r) as [[a|rep|e] r1]; simpl in *; auto.
  destruct (is_exception e); [rewrite Hh|]; exact Hb.
Qed.

Lemma keeps_table_eval {A} (x : result A) : @keeps_table S A (eval x).
Proof. intros r; destruct x; reflexivity. Qed.

Lemma keeps_table_invoke {A} (c : call (S := S) A) : @keeps_table S A (invoke c).
Proof.
  intros r; unfold invoke; destruct (c (cand r)) as [[a|e] s]; reflexivity.
Qed.

Lemma keeps_table_read_table_name : @keeps_table S json read_table_name.
Proof.
  intros r. unfold read_table_name.
  destruct (table_name r) eqn:E; cbn [snd]; exact E.
Qed.

Lemma keeps_table_for_each {A} (xs : list A) (body : A -> M unit) :
  (forall x, keeps_table (body x)) -> keeps_table (for_each xs body).
Proof.
  intros Hb; induction xs as [|x xs IH]; simpl.
  - intros r; reflexivity.
  - apply keeps_table_bind; auto.
Qed.

Ltac table_kept :=
  repeat first
    [ apply keeps_table_bind; [| intros ? ]
    | apply keeps_table_try; [| intros ? ]
    | apply keeps_table_eval
    | apply keeps_table_invoke
    | apply keeps_table_read_table_name
    | apply keeps_table_for_each; intros ?
    | solve [ intros ?; reflexivity ]
    | match goal with
      | |- keeps_table (if ?c then _ else _) => destruct c
      | |- keeps_table (match ?x with _ => _ end) => destruct x
      end ].

Lemma keeps_table_read_manifest dir : keeps_table (read_manifest w dir).
Proof. unfold read_manifest, load_metadata. table_kept. Qed.

Lemma keeps_table_import_class l : keeps_table (import_class w l).
Proof. unfold import_class, instantiate, dynamic_import. table_kept. Qed.

Lemma keeps_table_method_existence (o : Crud S) : keeps_table (method_existence o).
Proof. unfold method_existence. table_kept. Qed.

Lemma keeps_table_sqlite_patch l : keeps_table (sqlite_patch w l).
Proof.
  unfold sqlite_patch, patch_connection, module_setattr, dynamic_import.
  table_kept.
Qed.

Lemma keeps_table_round_trip (l : Locals) (o : Crud S) :
  keeps_table (bind (round_trip l o) (fun results => ret (Py.all results))).
Proof. unfold round_trip, sample_id, submission_state. table_kept. Qed.

Lemma keeps_table_injection_body (o : Crud S) : keeps_table (injection_body w o).
Proof. unfold injection_body. cbv zeta. table_kept. Qed.

Lemma inert_bind {A B} (m : M A) (k : A -> M B) :
  inert m -> (forall a, inert (k a)) -> inert (bind m k).
Proof.
  intros Hm Hk r. unfold bind. destruct (Hm r) as [Hs Hr].
  destruct (m r) as [[a|rep|e] r1]; simpl in *; subst r1.
  - apply Hk.
  - split; [reflexivity | exact Hr].
  - split; [reflexivity | exact (fun F => F)].
Qed.

Lemma inert_try {A} (body : M A) (h : exn -> M A) :
  inert body -> (forall e, inert (h e)) -> inert (try_except body h).
Proof.
  intros Hb Hh r. unfold try_except. destruct (Hb r) as [Hs Hr].
  destruct (body r) as [[a|rep|e] r1]; simpl in *; subst r1.
  - split; [reflexivity | exact (fun F => F)].
  - split; [reflexivity | exact Hr].
  - destruct (is_exception e); [apply Hh|].
    split; [reflexivity | exact (fun F => F)].
Qed.

Lemma inert_eval {A} (x : result A) : @inert S A (eval x).
Proof. intros r; destruct x; simpl; split; try reflexivity; exact (fun F => F). Qed.

Ltac inertia :=
  repeat first
    [ apply inert_bind; [| intros ? ]
    | apply inert_try; [| intros ? ]
    | apply inert_eval
    | solve [ intros ?; simpl; split; [reflexivity | exact (fun F => F)] ]
    | match goal with
      | |- inert (if ?c then _ else _) => destruct c
      end ].

Lemma inert_read_manifest dir : inert (read_manifest w dir).
Proof. unfold read_manifest, load_metadata. inertia. Qed.

(** *** What each test does to the score *)

Lemma bind_run {A B} (m : M A) (k : A -> M B) (r : Run) :
  bind m k r
  = match m r with
    | (Next a, r1) => k a r1
    | (Return rep, r1) => (Return rep, r1)
    | (Uncaught e, r1) => (Uncaught e, r1)
    end.
Proof. reflexivity. Qed.

Lemma bind_next_inv {A B} (m : M A) (k : A -> M B) (r r' : Run) (b : B) :
  bind m k r = (Next b, r') ->
  exists a r1, m r = (Next a, r1) /\ k a r1 = (Next b, r').
Proof.
  rewrite bind_run. destruct (m r) as [[a|rep|e] r1]; try discriminate. eauto.
Qed.

Lemma eval_next {A} (x : result A) (r r' : Run) (a : A) :
  eval x r = (Next a, r') -> x = Ok a /\ r' = r.
Proof. destruct x; cbn; intros H; inversion H; auto. Qed.

Lemma invoke_run {A} (c : call (S := S) A) (r : Run) :
  invoke c r
  = (match fst (c (cand r)) with
     | Ok a => Next a
     | Raise e => Uncaught e
     end,
     mkRun (score r) (table_name r) (snd (c (cand r))) (log r)).
Proof. unfold invoke. destruct (c (cand r)) as [[a|e] s]; reflexivity. Qed.

Lemma invoke_next {A} (c : call (S := S) A) (r r' : Run) (a : A) :
  invoke c r = (Next a, r') ->
  c (cand r) = (Ok a, cand r')
  /\ r' = mkRun (score r) (table_name r) (cand r') (log r).
Proof.
  unfold invoke. destruct (c (cand r)) as [[x|e] s]; intros H; inversion H; auto.
Qed.

(** A [try] around a silent body: the handler starts from the score the
    [try] started from, and is entered for an [Exception] only. *)
Lemma try_silent {A} (body : M A) (h : exn -> M A) (r : Run) :
  silent body ->
  exists cb rb,
    body r = (cb, rb) /\ score rb = score r /\ log rb = log r
    /\ match cb with
       | Next a => try_except body h r = (Next a, rb)
       | Uncaught e =>
           try_except body h r
           = if is_exception e then h e rb else (Uncaught e, rb)
       | Return _ => False
       end.
Proof.
  intros Hb. destruct (Hb r) as (Hs & Hl & Hr). unfold try_except.
  destruct (body r) as [[a|rep|e] r1]; simpl in *;
    eexists; eexists; repeat split; eauto.
  apply (Hr rep); reflexivity.
Qed.

(** The handlers of lines 101-103 and 146-148: [str(e)], then the line. *)
Lemma diagnose_run {A} (prefix : string) (v : A) (e : exn) (r : Run) :
  bind (eval (str_of_exn e))
       (fun text => bind (details_append (prefix ++ text)) (fun _ => ret v)) r
  = match str_of_exn e with
    | Ok text => (Next v, snd (details_append (prefix ++ text) r))
    | Raise raised => (Uncaught raised, r)
    end.
Proof. rewrite bind_run. destruct (str_of_exn e); reflexivity. Qed.

Lemma file_existence_spec (l : Locals) (r : Run) c r' :
  file_existence w l r = (c, r') ->
  let fc := os_path_exists w (crud_path l) in
  let fd := os_path_exists w (db_path l) in
  extends r r' [Attempted 10 fc; Attempted 10 fd]
          [entry fc "CRUD module found" "CRUD module missing";
           entry fd "DB adapter file found" "DB adapter file missing"]
  /\ cand r' = cand r
  /\ table_name r' = table_name r
  /\ c = if fc then Next tt else Return (finalize (score r')).
Proof.
  intros H fc fd. unfold file_existence in H. rewrite !bind_run in H.
  set (r1 := snd (score_add 10 fc "CRUD module found" "CRUD module missing" r)).
  set (r2 := snd (score_add 10 fd "DB adapter file found" "DB adapter file missing" r1)).
  assert (E : extends r r2 [Attempted 10 fc; Attempted 10 fd]
                [entry fc "CRUD module found" "CRUD module missing";
                 entry fd "DB adapter file found" "DB adapter file missing"]).
  { apply (extends_trans r r1 r2 [_] [_] [_] [_]); apply extends_score_add. }
  cbn [score_add fst snd] in H. fold fc fd in H.
  destruct fc; cbn in H; inversion H; subst; auto.
Qed.

Lemma extends_from (r r0 r' : Run) evs msgs :
  score r0 = score r -> log r0 = log r ->
  extends r0 r' evs msgs -> extends r r' evs msgs.
Proof. unfold extends. intros <- <-. exact (fun H => H). Qed.

Lemma extends_to (r r0 r' : Run) evs msgs :
  score r' = score r0 -> log r' = log r0 ->
  extends r r0 evs msgs -> extends r r' evs msgs.
Proof. unfold extends. intros -> ->. exact (fun H => H). Qed.

Lemma extends_add_cons p c s f (r r' : Run) evs msgs :
  extends (snd (score_add p c s f r)) r' evs msgs ->
  extends r r' (Attempted p c :: evs) (entry c s f :: msgs).
Proof.
  intros H.
  exact (extends_trans r _ r' [_] [_] evs msgs (extends_score_add p c s f r) H).
Qed.

Lemma extends_note_cons msg (r r' : Run) evs msgs :
  extends (snd (details_append msg r)) r' evs msgs ->
  extends r r' (Diagnostic :: evs) (msg :: msgs).
Proof.
  intros H.
  exact (extends_trans r _ r' [_] [_] evs msgs (extends_details_append msg r) H).
Qed.

Ltac account :=
  repeat first
    [ apply extends_refl
    | apply extends_add_cons
    | apply extends_note_cons ].

Lemma silent_instantiate (l : Locals) : silent (instantiate w l).
Proof. unfold instantiate. silence. Qed.

Lemma import_class_spec (l : Locals) (r : Run) c r' :
  import_class w l r = (c, r') ->
  exists ci ri,
    instantiate w l r = (ci, ri)
    /\ cand r' = cand ri
    /\ table_name r' = table_name r
    /\ match ci with
       | Next o =>
           c = Next o /\ extends r r' [Attempted 20 true] [import_entry true]
       | Return _ => False
       | Uncaught e =>
           caught_critical "❌ Could not import CRUD class: " 20
                           (import_entry false) e r r' c
       end.
Proof.
  intros H.
  assert (T : table_name r' = table_name r).
  { change r' with (snd (c, r')). rewrite <- H. apply keeps_table_import_class. }
  destruct (silent_instantiate l r) as (Hs & Hl & Hr).
  destruct (instantiate w l r) as [ci ri] eqn:Hi. cbn [fst snd] in Hs, Hl, Hr.
  exists ci, ri. split; [reflexivity|].
  unfold import_class, try_except in H. rewrite bind_run in H. cbv beta in H.
  rewrite bind_run, Hi in H.
  destruct ci as [o|rep|e].
  - cbn in H. done_with H. parts; auto.
    apply (extends_from r ri); auto. unfold import_entry. account.
  - exfalso. apply (Hr rep). reflexivity.
  - unfold caught_critical. destruct (is_exception e).
    + rewrite diagnose_run in H. destruct (str_of_exn e) as [text|raised].
      * cbn in H. done_with H. parts; auto.
        apply (extends_from r ri); auto. unfold import_entry. account.
      * done_with H. parts; auto. apply extends_same_score; auto.
    + done_with H. parts; auto. apply extends_same_score; auto.
Qed.

(** The loop of lines 120-126: one lookup and one entry per name, up to
    the first lookup that raises. *)
Lemma method_loop_spec (o : Crud S) (ms : list string) (r : Run) :
  exists c r',
    for_each ms
      (fun m =>
         bind (invoke (hasattr o m))
              (fun found =>
                 score_add 5 found
                   ("Method " ++ m ++ "() found") ("Method " ++ m ++ "() missing"))) r
    = (c, r')
    /\ table_name r' = table_name r
    /\ cand r' = snd (lookups o ms (cand r))
    /\ match fst (lookups o ms (cand r)) with
       | Ok answers =>
           c = Next tt /\ length answers = length ms
           /\ extends r r' (map (Attempted 5) answers)
                      (map (fun mb => method_entry (fst mb) (snd mb))
                           (combine ms answers))
       | Raise e => c = Uncaught e
       end.
Proof.
  revert r. induction ms as [|m ms IH]; intros r.
  - exists (Next tt), r. cbn. parts; auto. apply extends_refl.
  - cbn [for_each lookups]. rewrite !bind_run. unfold invoke.
    destruct (hasattr o m (cand r)) as [[found|e] s1].
    + cbn [score_add fst snd].
      match goal with
      | |- context [for_each ms ?b ?r1] => destruct (IH r1) as (c & r' & E & T & C & X)
      end.
      cbn [cand table_name] in T, C, X.
      exists c, r'. split; [exact E|]. split; [exact T|].
      destruct (lookups o ms s1) as [[answers|e] s2]; cbn [fst snd] in *.
      * split; [exact C|]. destruct X as (-> & N & X).
        split; [reflexivity|]. split; [cbn; lia|].
        cbn [map combine fst snd]. unfold method_entry at 1.
        apply extends_add_cons. exact X.
      * split; [exact C | exact X].
    + eexists; eexists. cbn [fst snd]. parts; reflexivity.
Qed.

Lemma lookups_length (o : Crud S) (ms : list string) (s s' : S) answers :
  lookups o ms s = (Ok answers, s') -> length answers = length ms.
Proof.
  revert s answers. induction ms as [|m ms IH]; intros s answers; cbn [lookups].
  - intros H; inversion H; reflexivity.
  - destruct (hasattr o m s) as [[found|e] s1]; [|discriminate].
    destruct (lookups o ms s1) as [[rest|e] s2] eqn:E; [|discriminate].
    intros H; inversion H; subst. cbn. f_equal. exact (IH _ _ E).
Qed.

Lemma method_existence_spec (o : Crud S) (r : Run) c r' :
  method_existence o r = (c, r') ->
  table_name r' = table_name r
  /\ match lookups o required (cand r) with
     | (Raise e, _) => c = Uncaught e
     | (Ok answers, s1) =>
         length answers = 4%nat
         /\ extends r r' (method_events answers) (method_entries answers)
         /\ cand r' = snd (all_hasattr o required s1)
         /\ c = match fst (all_hasattr o required s1) with
                | Ok true => Next tt
                | Ok false => Return (finalize (score r'))
                | Raise e => Uncaught e
                end
     end.
Proof.
  intros H.
  assert (T : table_name r' = table_name r).
  { change r' with (snd (c, r')). rewrite <- H. apply keeps_table_method_existence. }
  split; [exact T|].
  unfold method_existence in H. rewrite bind_run in H.
  destruct (method_loop_spec o required r) as (c1 & r1 & E & _ & C & X).
  rewrite E in H.
  destruct (lookups o required (cand r)) as [[answers|e] s1] eqn:L;
    cbn [fst snd] in C, X.
  - destruct X as (-> & N & X). rewrite bind_run, invoke_run in H. rewrite C in H.
    split; [exact N|].
    destruct (all_hasattr o required s1) as [[[|]|e] s2]; cbn [fst snd] in H |- *;
      done_with H; cbn [cand score]; parts; auto;
      apply (extends_to r r1); auto.
  - subst c1. done_with H. reflexivity.
Qed.

Lemma silent_patch_connection (l : Locals) (m : PyModule S) :
  silent (patch_connection l m).
Proof. unfold patch_connection. silence. Qed.

Lemma sqlite_patch_spec (l : Locals) (r : Run) c r' :
  sqlite_patch w l r = (c, r') ->
  table_name r' = table_name r
  /\ exists cm rm,
      dynamic_import w (db_path l) "db_module" r = (cm, rm)
      /\ match cm with
         | Return _ => False
         | Uncaught e => c = Uncaught e /\ cand r' = cand rm /\ extends r r' [] []
         | Next db_mod =>
             exists cp rp,
               patch_connection l db_mod rm = (cp, rp)
               /\ cand r' = cand rp
               /\ match cp with
                  | Next _ =>
                      c = Next tt
                      /\ extends r r' [Attempted 10 true] [sandbox_entry true]
                  | Return _ => False
                  | Uncaught e =>
                      caught_critical "❌ Cannot patch DB connection: " 10
                                      (sandbox_entry false) e r r' c
                  end
         end.
Proof.
  intros H.
  assert (T : table_name r' = table_name r).
  { change r' with (snd (c, r')). rewrite <- H. apply keeps_table_sqlite_patch. }
  split; [exact T|].
  unfold sqlite_patch in H. rewrite bind_run in H.
  destruct (silent_dynamic_import w (db_path l) "db_module" r) as (Hs0 & Hl0 & Hr0).
  destruct (dynamic_import w (db_path l) "db_module" r) as [cm rm].
  cbn [fst snd] in Hs0, Hl0, Hr0. exists cm, rm. split; [reflexivity|].
  destruct cm as [db_mod|rep|e].
  - destruct (silent_patch_connection l db_mod rm) as (Hs & Hl & Hr).
    destruct (patch_connection l db_mod rm) as [cp rp] eqn:Hp.
    cbn [fst snd] in Hs, Hl, Hr. exists cp, rp. split; [reflexivity|].
    assert (Hs' : score rp = score r) by congruence.
    assert (Hl' : log rp = log r) by congruence.
    unfold try_except in H. rewrite bind_run in H. cbv beta in H.
    rewrite bind_run, Hp in H.
    destruct cp as [[]|rep|e].
    + cbn in H. done_with H. parts; auto.
      apply (extends_from r rp); auto. unfold sandbox_entry. account.
    + exfalso. apply (Hr rep). reflexivity.
    + unfold caught_critical. destruct (is_exception e).
      * rewrite diagnose_run in H. destruct (str_of_exn e) as [text|raised].
        -- cbn in H. done_with H. parts; auto.
           apply (extends_from r rp); auto. unfold sandbox_entry. account.
        -- done_with H. parts; auto. apply extends_same_score; auto.
      * done_with H. parts; auto. apply extends_same_score; auto.
  - exfalso. apply (Hr0 rep). reflexivity.
  - done_with H. parts; auto. apply extends_same_score; auto.
Qed.

Lemma silent_functional_body l (o : Crud S) : silent (functional_body w l o).
Proof. unfold functional_body, prepare_schema, round_trip, sample_id.
  silence. Qed.

Lemma silent_injection_body (o : Crud S) : silent (injection_body w o).
Proof. unfold injection_body. silence. Qed.

Lemma crud_functional_test_spec (l : Locals) (o : Crud S) (r : Run) c r' :
  crud_functional_test w l o r = (c, r') ->
  exists cb rb,
    functional_body w l o r = (cb, rb)
    /\ cand r' = cand rb /\ table_name r' = table_name rb
    /\ match cb with
       | Next passed =>
           c = Next tt
           /\ extends r r' [Attempted 30 passed] [functional_entry passed]
       | Uncaught e =>
           if is_exception e
           then c = Next tt
                /\ extends r r' [Diagnostic; Attempted 30 false]
                           ["❌ CRUD runtime error: " ++ format_exc w e;
                            functional_entry false]
           else c = Uncaught e /\ extends r r' [] []
       | Return _ => False
       end.
Proof.
  intros H. unfold crud_functional_test in H.
  match type of H with
  | context [try_except ?b ?h] => set (handler := h) in H
  end.
  destruct (try_silent (functional_body w l o) handler r
              (silent_functional_body l o)) as (cb & rb & Hr & Hs & Hl & Ht).
  rewrite bind_run in H. exists cb, rb. split; [exact Hr|].
  destruct cb as [p|rep|e]; [| contradiction |]; rewrite Ht in H.
  - cbn in H. done_with H. parts; auto.
    apply (extends_from r rb); auto. unfold functional_entry. account.
  - destruct (is_exception e).
    + subst handler. cbn in H. done_with H. parts; auto.
      apply (extends_from r rb); auto. unfold functional_entry. account.
    + done_with H. parts; auto. apply extends_same_score; auto.
Qed.

Lemma sql_injection_safety_spec (o : Crud S) (r : Run) c r' :
  sql_injection_safety w o r = (c, r') ->
  exists ci ri,
    injection_body w o r = (ci, ri)
    /\ cand r' = cand ri /\ table_name r' = table_name ri
    /\ match ci with
       | Return _ => False
       | Uncaught e =>
           if is_exception e
           then c = Next tt
                /\ extends r r' [Attempted 20 false] [injection_entry false]
           else c = Uncaught e /\ extends r r' [] []
       | Next found =>
           c = Next tt
           /\ extends r r' [Attempted 20 found] [injection_entry found]
       end.
Proof.
  intros H. unfold sql_injection_safety in H.
  match type of H with
  | context [try_except ?b ?h] => set (handler := h) in H
  end.
  destruct (try_silent (injection_body w o) handler r
              (silent_injection_body o)) as (ci & ri & Hr & Hs & Hl & Ht).
  rewrite bind_run in H. exists ci, ri. split; [exact Hr|].
  destruct ci as [p|rep|e]; [| contradiction |]; rewrite Ht in H.
  - cbn in H. done_with H. parts; auto.
    apply (extends_from r ri); auto. unfold injection_entry. account.
  - destruct (is_exception e).
    + subst handler. cbn in H. done_with H. parts; auto.
      apply (extends_from r ri); auto. unfold injection_entry. account.
    + done_with H. parts; auto. apply extends_same_score; auto.
Qed.

Lemma code_quality_spec (l : Locals) (r : Run) c r' :
  code_quality w l r = (c, r') ->
  cand r' = cand r /\ table_name r' = table_name r
  /\ match is_clean w l (cand r) with
     | Ok clean =>
         c = Next tt /\ extends r r' [Attempted 10 clean] [style_entry clean]
     | Raise e => c = Uncaught e /\ r' = r
     end.
Proof.
  intros H. unfold code_quality, submission_state in H.
  rewrite !bind_run in H.
  destruct (is_clean w l (cand r)) as [clean|e]; cbn in H; done_with H.
  - parts; auto. unfold style_entry. account.
  - parts; auto.
Qed.

(** The trailing sequence returns the finalized score unless one of its
    three checks lets an exception through. *)
Lemma trailing_checks_spec (l : Locals) (o : Crud S) (r : Run) c r' :
  trailing_checks w l o r = (c, r') ->
  exists cb rb,
    functional_body w l o r = (cb, rb)
    /\ match c with
       | Next _ => False
       | Uncaught _ => True
       | Return rep =>
           rep = finalize (score r')
           /\ handled cb
           /\ exists r5 ci ri clean,
               cand r5 = cand rb /\ table_name r5 = table_name rb
               /\ injection_body w o r5 = (ci, ri)
               /\ handled ci
               /\ is_clean w l (cand ri) = Ok clean
               /\ cand r' = cand ri
               /\ extends r r'
                    (functional_events cb
                       ++ [Attempted 20 (still_exists ci); Attempted 10 clean])
                    (functional_messages w cb
                       ++ [injection_entry (still_exists ci); style_entry clean])
       end.
Proof.
  intros H. unfold trailing_checks in H. rewrite bind_run in H.
  destruct (crud_functional_test w l o r) as [c5 r5] eqn:H5.
  apply crud_functional_test_spec in H5.
  destruct H5 as (cb & rb & Hb & Hc5 & Ht5 & X5).
  exists cb, rb. split; [exact Hb|].
  assert (N5 : c5 = Next tt
               /\ handled cb
               /\ extends r r5 (functional_events cb) (functional_messages w cb)
               \/ exists e, c5 = Uncaught e).
  { destruct cb as [p|rep|e]; [| contradiction |].
    - left. destruct X5 as [-> X5]. parts; auto. exact I.
    - destruct (is_exception e) eqn:He.
      + left. destruct X5 as [-> X5]. parts; auto.
      + right. destruct X5 as [-> _]. eauto. }
  destruct N5 as [(-> & Hh5 & X5') | (e & ->)]; [| done_with H; exact I].
  rewrite bind_run in H.
  destruct (sql_injection_safety w o r5) as [c6 r6] eqn:H6.
  apply sql_injection_safety_spec in H6.
  destruct H6 as (ci & ri & Hi & Hc6 & Ht6 & X6).
  assert (N6 : c6 = Next tt
               /\ handled ci
               /\ extends r5 r6 [Attempted 20 (still_exists ci)]
                          [injection_entry (still_exists ci)]
               \/ exists e, c6 = Uncaught e).
  { destruct ci as [p|rep|e]; [| contradiction |].
    - left. destruct X6 as [-> X6]. parts; auto. exact I.
    - destruct (is_exception e) eqn:He.
      + left. destruct X6 as [-> X6]. parts; auto.
      + right. destruct X6 as [-> _]. eauto. }
  destruct N6 as [(-> & Hh6 & X6') | (e & ->)]; [| done_with H; exact I].
  rewrite bind_run in H.
  destruct (code_quality w l r6) as [c7 r7] eqn:H7.
  apply code_quality_spec in H7. destruct H7 as (Hc7 & _ & X7).
  rewrite Hc6 in X7.
  destruct (is_clean w l (cand ri)) as [clean|e] eqn:Hq.
  - destruct X7 as [-> X7]. cbn in H. done_with H.
    split; [reflexivity|]. split; [exact Hh5|].
    exists r5, ci, ri, clean. parts; auto; try congruence.
    exact (extends_trans _ _ _ _ _ _ _ X5' (extends_trans _ _ _ _ _ _ _ X6' X7)).
  - destruct X7 as [-> _]. done_with H. exact I.
Qed.

(** *** The stretches of the pipeline *)

Lemma loaded_next (project_dir : string) (r r' : Run) (l : Locals) (o : Crud S) :
  loaded w project_dir r = (Next (l, o), r') ->
  read_manifest w project_dir r = (Next l, r)
  /\ os_path_exists w (crud_path l) = true
  /\ table_name r' = table_name r
  /\ extends r r'
       [Attempted 10 true; Attempted 10 (os_path_exists w (db_path l));
        Attempted 20 true]
       (file_entries w l ++ [import_entry true]).
Proof.
  intros H. unfold loaded in H. rewrite bind_run in H.
  destruct (inert_read_manifest project_dir r) as [Hs _].
  destruct (read_manifest w project_dir r) as [[l0|rep|e] r0];
    cbn [fst snd] in Hs; subst r0; try discriminate H.
  rewrite bind_run in H.
  destruct (file_existence w l0 r) as [c1 r1] eqn:H1.
  apply file_existence_spec in H1. cbv zeta in H1.
  destruct H1 as (X1 & _ & T1 & ->).
  destruct (os_path_exists w (crud_path l0)) eqn:Hc; [|discriminate H].
  rewrite bind_run in H.
  destruct (import_class w l0 r1) as [c2 r2] eqn:H2.
  apply import_class_spec in H2.
  destruct H2 as (ci & ri & _ & _ & T2 & X2).
  destruct c2 as [o2|rep|e]; try discriminate H.
  cbn in H. done_with H.
  destruct ci as [o'|rep|e]; [| contradiction |].
  - destruct X2 as [_ X2]. parts; auto; [congruence|].
    unfold file_entries. rewrite Hc.
    exact (extends_trans _ _ _ _ _ _ _ X1 X2).
  - exfalso. unfold caught_critical in X2.
    destruct (is_exception e); [destruct (str_of_exn e)|];
      destruct X2 as [F _]; discriminate F.
Qed.

Lemma sandboxed_next (project_dir : string) (r r' : Run) (l : Locals) (o : Crud S) :
  sandboxed w project_dir r = (Next (l, o), r') ->
  read_manifest w project_dir r = (Next l, r)
  /\ os_path_exists w (crud_path l) = true
  /\ table_name r' = table_name r
  /\ exists answers,
      length answers = 4%nat
      /\ extends r r'
           ([Attempted 10 true; Attempted 10 (os_path_exists w (db_path l));
             Attempted 20 true]
              ++ method_events answers ++ [Attempted 10 true])
           ((file_entries w l ++ [import_entry true])
              ++ method_entries answers ++ [sandbox_entry true]).
Proof.
  intros H. unfold sandboxed in H. rewrite bind_run in H.
  destruct (loaded w project_dir r) as [[[l0 o0]|rep|e] r0] eqn:H0;
    try discriminate H.
  apply loaded_next in H0. destruct H0 as (Hm & Hc & T0 & X0).
  cbn [fst snd] in H. rewrite bind_run in H.
  destruct (method_existence o0 r0) as [c3 r3] eqn:H3.
  apply method_existence_spec in H3. destruct H3 as (T3 & X3).
  destruct c3 as [[]|rep|e]; try discriminate H.
  rewrite bind_run in H.
  destruct (sqlite_patch w l0 r3) as [c4 r4] eqn:H4.
  apply sqlite_patch_spec in H4. destruct H4 as (T4 & cm & rm & _ & X4).
  destruct c4 as [[]|rep|e]; try discriminate H.
  cbn in H. done_with H.
  destruct (lookups o required (cand r0)) as [[answers|e] s1];
    [| discriminate X3].
  destruct X3 as (N & X3 & _).
  assert (X4' : extends r3 r' [Attempted 10 true] [sandbox_entry true]).
  { destruct cm as [db_mod|rep|e]; [| contradiction |].
    - destruct X4 as (cp & rp & _ & _ & X4).
      destruct cp as [[]|rep|e]; [| contradiction |].
      + apply X4.
      + exfalso. unfold caught_critical in X4.
        destruct (is_exception e); [destruct (str_of_exn e)|];
          destruct X4 as [F _]; discriminate F.
    - destruct X4 as [F _]. discriminate F. }
  split; [exact Hm|]. split; [exact Hc|]. split; [congruence|].
  exists answers. split; [exact N|].
  pose proof (extends_trans _ _ _ _ _ _ _ X0
                (extends_trans _ _ _ _ _ _ _ X3 X4')) as X.
  exact X.
Qed.

Ltac stopped_at s X :=
  exists s; split; [cbn [stop_valid handled]; parts; eauto|];
  split; [|intros E; try discriminate E; auto];
  unfold stop_events, stop_entries, file_events, file_entries;
  repeat match goal with
         | E : os_path_exists _ (crud_path _) = _ |- _ => rewrite E
         end;
  rewrite <- ?app_assoc in X; cbn [app] in X |- *; exact X.

(** Once the manifest is accepted, a run that returns gives the finalized
    score of one of the five stops; at the first, no code of the submission
    was run. *)
Lemma run_outcomes (project_dir : string) (r : Run) (l : Locals) c r' :
  read_manifest w project_dir r = (Next l, r) ->
  evaluate_project_body w project_dir r = (c, r') ->
  match c with
  | Next _ => False
  | Uncaught _ => True
  | Return rep =>
      rep = finalize (score r')
      /\ exists s,
          stop_valid w l s
          /\ extends r r' (stop_events w l s) (stop_entries w l s)
          /\ (s = AfterFiles -> cand r' = cand r)
  end.
Proof.
  intros Hm H.
  unfold evaluate_project_body, sandboxed, loaded in H.
  rewrite !bind_run, Hm in H. rewrite bind_run in H.
  destruct (file_existence w l r) as [c1 r1] eqn:H1.
  apply file_existence_spec in H1. cbv zeta in H1.
  destruct H1 as (X1 & C1 & _ & ->).
  destruct (os_path_exists w (crud_path l)) eqn:Hc.
  - rewrite bind_run in H.
    destruct (import_class w l r1) as [c2 r2] eqn:H2.
    apply import_class_spec in H2.
    destruct H2 as (ci & ri & _ & _ & _ & X2).
    destruct ci as [o|rep|e]; [| contradiction |].
    + destruct X2 as [-> X2].
      pose proof (extends_trans _ _ _ _ _ _ _ X1 X2) as X12.
      cbn [ret fst snd] in H. rewrite bind_run in H.
      destruct (method_existence o r2) as [c3 r3] eqn:H3.
      apply method_existence_spec in H3. destruct H3 as (_ & X3).
      destruct (lookups o required (cand r2)) as [[answers|e] s1].
      * destruct X3 as (N & X3 & _ & ->).
        pose proof (extends_trans _ _ _ _ _ _ _ X12 X3) as X13.
        destruct (fst (all_hasattr o required s1)) as [[|]|e].
        -- rewrite bind_run in H.
           destruct (sqlite_patch w l r3) as [c4 r4] eqn:H4.
           apply sqlite_patch_spec in H4. destruct H4 as (_ & cm & rm & _ & X4).
           destruct cm as [db_mod|rep|e]; [| contradiction |].
           ++ destruct X4 as (cp & rp & _ & _ & X4).
              destruct cp as [[]|rep|e]; [| contradiction |].
              ** destruct X4 as [-> X4].
                 pose proof (extends_trans _ _ _ _ _ _ _ X13 X4) as X14.
                 cbn [ret fst snd] in H.
                 apply trailing_checks_spec in H.
                 destruct H as (cb & rb & _ & H).
                 destruct c as [rep|rep|e]; [contradiction | | exact I].
                 destruct H as (-> & Hh & r5 & ci & ri' & clean & _ & _ & _
                                & Hhi & Hq & _ & X).
                 pose proof (extends_trans _ _ _ _ _ _ _ X14 X) as XX.
                 split; [reflexivity|].
                 stopped_at (AtEnd answers cb ci clean) XX.
              ** unfold caught_critical in X4.
                 destruct (is_exception e);
                   [destruct (str_of_exn e) as [text|raised]|];
                   destruct X4 as [-> X4]; done_with H; try exact I.
                 pose proof (extends_trans _ _ _ _ _ _ _ X13 X4) as XX.
                 split; [reflexivity|]. stopped_at (AfterSandbox answers text) XX.
           ++ destruct X4 as (-> & _). done_with H. exact I.
        -- done_with H. split; [reflexivity|].
           stopped_at (AfterMethods answers) X13.
        -- done_with H. exact I.
      * subst c3. done_with H. exact I.
    + unfold caught_critical in X2.
      destruct (is_exception e); [destruct (str_of_exn e) as [text|raised]|];
        destruct X2 as [-> X2]; done_with H; try exact I.
      pose proof (extends_trans _ _ _ _ _ _ _ X1 X2) as XX.
      split; [reflexivity|]. stopped_at (AfterImport text) XX.
  - done_with H. split; [reflexivity|]. stopped_at AfterFiles X1.
Qed.

End Stages.
(** ** The manifest (lines 22-28 and 53-71) *)

Section Manifest.

Context {S : Type}.
Variable w : World S.

Local Abbreviation Run := (Run (S := S)).

(** Lines 56-59 *)
Lemma load_stage_run (project_dir : string) (r : Run) :
  try_except (load_metadata w project_dir)
    (fun e => bind (eval (str_of_exn e)) (fun text => return_ (ErrorReport text))) r
  = if os_path_exists w (Py.posix_join project_dir "README.json")
    then
      match json_load w (Py.posix_join project_dir "README.json") with
      | Ok m => (Next m, r)
      | Raise e =>
          if is_exception e
          then match str_of_exn e with
               | Ok text => (Return (ErrorReport text), r)
               | Raise raised => (Uncaught raised, r)
               end
          else (Uncaught e, r)
      end
    else (Return (ErrorReport missing_readme), r).
Proof.
  unfold try_except, load_metadata.
  destruct (os_path_exists w (Py.posix_join project_dir "README.json"));
    cbn [negb]; [|reflexivity].
  destruct (json_load w (Py.posix_join project_dir "README.json")) as [m|e];
    cbn [eval ret raise]; [reflexivity|].
  destruct (is_exception e); [|reflexivity].
  rewrite bind_run. destruct (str_of_exn e); reflexivity.
Qed.

Lemma path_join_ok (a : string) (b : json) (p : string) :
  Py.path_join a b = Ok p -> exists s, b = JStr s /\ p = Py.posix_join a s.
Proof. destruct b; cbn; intros H; inversion H; eauto. Qed.

Lemma truthy_string (s : string) : Py.truthy (JStr s) = true -> s <> EmptyString.
Proof. cbn. intros H ->. discriminate. Qed.

Lemma read_manifest_accepts (project_dir : string) (r r' : Run) (l : Locals) :
  read_manifest w project_dir r = (Next l, r') ->
  exists entries crud_file db_adapter_file,
    os_path_exists w (Py.posix_join project_dir "README.json") = true
    /\ json_load w (Py.posix_join project_dir "README.json") = Ok (JObj entries)
    /\ meta l = JObj entries
    /\ manifest_value entries "crud_module" = JStr crud_file
    /\ crud_file <> EmptyString
    /\ crud_class_name l = manifest_value entries "crud_class"
    /\ Py.truthy (crud_class_name l) = true
    /\ manifest_value entries "db_adapter" = JStr db_adapter_file
    /\ crud_path l = Py.posix_join project_dir crud_file
    /\ db_path l = Py.posix_join project_dir db_adapter_file.
Proof.
  unfold read_manifest. rewrite bind_run, load_stage_run.
  destruct (os_path_exists w (Py.posix_join project_dir "README.json"));
    [|discriminate].
  destruct (json_load w (Py.posix_join project_dir "README.json")) as [m|e].
  2:{ destruct (is_exception e); [destruct (str_of_exn e)|]; discriminate. }
  destruct m as [| | | | |entries]; try (cbn; discriminate).
  intros H. unfold manifest_value.
  apply bind_next_inv in H. destruct H as (cf & r1 & H1 & H).
  apply eval_next in H1. destruct H1 as [H1 ->]. injection H1 as <-.
  apply bind_next_inv in H. destruct H as (cc & r1 & H1 & H).
  apply eval_next in H1. destruct H1 as [H1 ->]. injection H1 as <-.
  apply bind_next_inv in H. destruct H as (da & r1 & H1 & H).
  apply eval_next in H1. destruct H1 as [H1 ->]. injection H1 as <-.
  apply bind_next_inv in H. destruct H as (sample & r1 & _ & H).
  apply bind_next_inv in H. destruct H as (sd & r2 & _ & H).
  match type of H with
  | (if ?c then _ else _) _ = _ => destruct c eqn:Hn; [discriminate H|]
  end.
  apply orb_false_iff in Hn. destruct Hn as [Hcf Hcc].
  apply negb_false_iff in Hcf, Hcc.
  apply bind_next_inv in H. destruct H as (cp & r3 & H1 & H).
  apply eval_next in H1. destruct H1 as [H1 ->].
  apply bind_next_inv in H. destruct H as (dp & r4 & H2 & H).
  apply eval_next in H2. destruct H2 as [H2 ->].
  cbn in H. inversion H; subst; clear H. cbn [meta crud_class_name crud_path db_path].
  apply path_join_ok in H1. destruct H1 as (cfs & E1 & ->).
  apply path_join_ok in H2. destruct H2 as (das & E2 & ->).
  exists entries, cfs, das. rewrite E1 in Hcf.
  parts; auto. apply truthy_string. exact Hcf.
Qed.

Ltac no_return H :=
  repeat first
    [ discriminate H
    | rewrite bind_run in H
    | match type of H with
      | context [eval ?x] => destruct x; cbn [eval ret raise] in H
      end
    | progress cbn in H ].

Lemma read_manifest_returns (project_dir : string) (r r' : Run) (rep : Report) :
  read_manifest w project_dir r = (Return rep, r') <->
  r' = r /\ exists msg, rep = ErrorReport msg /\ rejected w project_dir msg.
Proof.
  unfold rejected, readable, read_manifest, manifest_value.
  rewrite bind_run, load_stage_run.
  destruct (os_path_exists w (Py.posix_join project_dir "README.json")) eqn:Hex.
  - destruct (json_load w (Py.posix_join project_dir "README.json")) as [m|e] eqn:Hj.
    + destruct m as [| | | | |entries];
        try (cbn; split;
             [ discriminate
             | intros (_ & msg & _ & [[F _]|[(_ & e & F & _)|(_ & es & F & _)]]);
               discriminate F ]).
      rewrite !bind_run. cbn [Py.get eval ret]. rewrite !bind_run.
      cbn [Py.get eval ret]. rewrite !bind_run. cbn [eval ret].
      destruct (Py.assoc "sample_data" entries) as [sample|] eqn:Hs.
      * destruct sample as [| | | | |es];
          try (cbn; split;
               [ discriminate
               | intros (_ & msg & _ & [[F _]|[(_ & e & F & _)|(_ & es' & F & R & _)]]);
                 [ discriminate F | discriminate F
                 | injection F as <-; rewrite Hs in R; cbn in R; discriminate R ] ]).
        rewrite !bind_run. cbn [Py.get eval ret].
        destruct (negb (Py.truthy match Py.assoc "crud_module" entries with
                                  | Some v => v | None => JNull end)
                  || negb (Py.truthy match Py.assoc "crud_class" entries with
                                     | Some v => v | None => JNull end)) eqn:Hn.
        -- cbn. split.
           ++ intros H; inversion H; subst. split; [reflexivity|].
              eexists; split; [reflexivity|]. right; right. split; [reflexivity|].
              exists entries. rewrite Hs. parts; auto.
              apply orb_true_iff in Hn. rewrite !negb_true_iff in Hn. exact Hn.
           ++ intros (-> & msg & -> & [[F _]|[(_ & e & F & _)|(_ & es' & F & _ & _ & ->)]]);
                [discriminate F | discriminate F | reflexivity].
        -- split.
           ++ intros H. no_return H.
           ++ intros (_ & msg & _ & [[F _]|[(_ & e & F & _)|(_ & es' & F & _ & T & _)]]);
                [discriminate F | discriminate F |].
              injection F as <-. apply orb_false_iff in Hn.
              rewrite !negb_false_iff in Hn. destruct Hn as [H1 H2].
              destruct T as [T|T]; congruence.
      * rewrite !bind_run. cbn [Py.get Py.assoc eval ret].
        destruct (negb (Py.truthy match Py.assoc "crud_module" entries with
                                  | Some v => v | None => JNull end)
                  || negb (Py.truthy match Py.assoc "crud_class" entries with
                                     | Some v => v | None => JNull end)) eqn:Hn.
        -- cbn. split.
           ++ intros H; inversion H; subst. split; [reflexivity|].
              eexists; split; [reflexivity|]. right; right. split; [reflexivity|].
              exists entries. rewrite Hs. parts; auto.
              apply orb_true_iff in Hn. rewrite !negb_true_iff in Hn. exact Hn.
           ++ intros (-> & msg & -> & [[F _]|[(_ & e & F & _)|(_ & es' & F & _ & _ & ->)]]);
                [discriminate F | discriminate F | reflexivity].
        -- split.
           ++ intros H. no_return H.
           ++ intros (_ & msg & _ & [[F _]|[(_ & e & F & _)|(_ & es' & F & _ & T & _)]]);
                [discriminate F | discriminate F |].
              injection F as <-. apply orb_false_iff in Hn.
              rewrite !negb_false_iff in Hn. destruct Hn as [H1 H2].
              destruct T as [T|T]; congruence.
    + destruct (is_exception e) eqn:He; [destruct (str_of_exn e) as [text|raised] eqn:Ht|].
      * split.
        -- intros H; inversion H; subst. split; [reflexivity|].
           eexists; split; [reflexivity|]. right; left. split; [reflexivity|].
           exists e. auto.
        -- intros (-> & msg & -> & [[F _]|[(_ & e' & F & _ & T)|(_ & es' & F & _)]]);
             [discriminate F | | discriminate F].
           injection F as <-. rewrite Ht in T. injection T as <-. reflexivity.
      * split; [discriminate|].
        intros (_ & msg & _ & [[F _]|[(_ & e' & F & _ & T)|(_ & es' & F & _)]]);
          [discriminate F | | discriminate F].
        injection F as <-. rewrite Ht in T. discriminate T.
      * split; [discriminate|].
        intros (_ & msg & _ & [[F _]|[(_ & e' & F & T & _)|(_ & es' & F & _)]]);
          [discriminate F | | discriminate F].
        injection F as <-. rewrite He in T. discriminate T.
  - split.
    + intros H; inversion H; subst. split; [reflexivity|].
      eexists; split; [reflexivity|]. left. auto.
    + intros (-> & msg & -> & [[_ ->]|[(F & _)|(F & _)]]);
        [reflexivity | discriminate F | discriminate F].
Qed.

End Manifest.
(** ** The report of a run *)

Section Reports.

Context {S : Type}.
Variable w : World S.

Local Abbreviation Run := (Run (S := S)).

Lemma evaluate_returned (project_dir : string) (s0 : S) rep (r' : Run) :
  evaluate_project_body w project_dir (start s0) = (Return rep, r') ->
  evaluate_project w project_dir s0 = Returned rep.
Proof. intros H. unfold evaluate_project. rewrite H. reflexivity. Qed.

Lemma evaluate_escaped (project_dir : string) (s0 : S) e (r' : Run) :
  evaluate_project_body w project_dir (start s0) = (Uncaught e, r') ->
  evaluate_project w project_dir s0 = Escaped e.
Proof. intros H. unfold evaluate_project. rewrite H. reflexivity. Qed.

Lemma finalize_from_start (s0 : S) (r' : Run) evs msgs :
  extends (start s0) r' evs msgs ->
  finalize (score r')
  = ScoreReport (total_of gain evs) (total_of weight evs) msgs
  /\ log r' = evs.
Proof.
  intros (L & D & T & E & _). cbn in L, D, T, E.
  unfold finalize. rewrite D, T, E. split; [reflexivity | exact L].
Qed.

Lemma weights_nonnegative (ws : list Z) :
  In ws halting_points -> Forall (fun z => 0 <= z) ws.
Proof.
  unfold halting_points, pipeline_weights. simpl.
  intros [<-|[<-|[<-|[<-|[<-|[]]]]]]; repeat constructor; lia.
Qed.

Lemma check_weights_nonnegative (evs : list event) :
  Forall (fun z => 0 <= z) (check_weights evs) ->
  Forall (fun e => 0 <= weight e) evs.
Proof.
  unfold check_weights, attempted.
  induction evs as [|[p b|] evs IH]; simpl; intros H.
  - constructor.
  - inversion H; subst. constructor; auto.
  - constructor; [simpl; lia | auto].
Qed.


Lemma stop_check_weights (l : Locals) (s : stop) :
  stop_valid w l s -> check_weights (stop_events w l s) = stop_weights s.
Proof.
  destruct s as [|text|answers|answers text|answers cb ci clean];
    cbn [stop_valid]; intros V; try reflexivity.
  - destruct V as [_ N]. four answers N. reflexivity.
  - destruct V as [_ N]. four answers N. reflexivity.
  - destruct V as (_ & N & Hb & _). four answers N.
    destruct cb as [p|rep|e]; [reflexivity | contradiction | reflexivity].
Qed.

Lemma stop_weights_halting (s : stop) : In (stop_weights s) halting_points.
Proof. destruct s; simpl; tauto. Qed.

Lemma stop_events_weight (l : Locals) (s : stop) :
  stop_valid w l s -> total_of weight (stop_events w l s) = stop_max s.
Proof.
  intros V. rewrite total_weight_attempted, (stop_check_weights l s V).
  destruct s; reflexivity.
Qed.

Lemma stop_entries_length (l : Locals) (s : stop) :
  stop_valid w l s ->
  length (stop_entries w l s) = (stop_checks s + stop_diagnostics s)%nat.
Proof.
  destruct s as [|text|answers|answers text|answers cb ci clean];
    cbn [stop_valid]; intros V; try reflexivity.
  - destruct V as [_ N]. four answers N. reflexivity.
  - destruct V as [_ N]. four answers N. reflexivity.
  - destruct V as (_ & N & Hb & _). four answers N.
    destruct cb as [p|rep|e]; [reflexivity | contradiction | reflexivity].
Qed.

Lemma body_returns_of_manifest (project_dir : string) (r r0 : Run) (rep : Report) :
  read_manifest w project_dir r = (Return rep, r0) ->
  evaluate_project_body w project_dir r = (Return rep, r0).
Proof.
  intros H. unfold evaluate_project_body, sandboxed, loaded.
  rewrite !bind_run, H. reflexivity.
Qed.

Lemma body_raises_of_manifest (project_dir : string) (r r0 : Run) (e : exn) :
  read_manifest w project_dir r = (Uncaught e, r0) ->
  evaluate_project_body w project_dir r = (Uncaught e, r0).
Proof.
  intros H. unfold evaluate_project_body, sandboxed, loaded.
  rewrite !bind_run, H. reflexivity.
Qed.

(** The run by what the manifest stage gave. *)
Lemma manifest_cases (project_dir : string) (r : Run) :
  (exists l, read_manifest w project_dir r = (Next l, r))
  \/ (exists msg,
         read_manifest w project_dir r = (Return (ErrorReport msg), r)
         /\ rejected w project_dir msg)
  \/ (exists e, read_manifest w project_dir r = (Uncaught e, r)).
Proof.
  destruct (inert_read_manifest w project_dir r) as [Hs _].
  destruct (read_manifest w project_dir r) as [[l|rep|e] r0] eqn:H;
    cbn [snd] in Hs; subst r0.
  - left. eauto.
  - right; left. pose proof H as H'.
    apply read_manifest_returns in H'. destruct H' as (_ & msg & -> & R). eauto.
  - right; right. eauto.
Qed.

(** Every way [evaluate_project] returns a score: the report is the
    finalized score, and the checks made are those up to one of the five
    places where the pipeline can stop. *)
Lemma run_shape (project_dir : string) (r : Run) c r' :
  evaluate_project_body w project_dir r = (c, r') ->
  match c with
  | Next _ => False
  | Return rep =>
      (exists msg, rep = ErrorReport msg /\ r' = r)
      \/ exists ws, In ws halting_points /\ halted_at r r' rep ws
  | Uncaught _ => True
  end.
Proof.
  intros H.
  destruct (manifest_cases project_dir r)
    as [(l & Hm) | [(msg & Hm & _) | (e & Hm)]].
  - pose proof (run_outcomes w _ _ _ _ _ Hm H) as Ho.
    destruct c as [rep|rep|e]; [contradiction | | exact I].
    destruct Ho as (-> & s & V & X & _). right.
    exists (stop_weights s). split; [apply stop_weights_halting|].
    split; [reflexivity|]. eexists; eexists. split; [exact X|].
    apply stop_check_weights. exact V.
  - rewrite (body_returns_of_manifest _ _ _ _ Hm) in H. done_with H.
    left. eauto.
  - rewrite (body_raises_of_manifest _ _ _ _ Hm) in H. done_with H. exact I.
Qed.

Lemma rejected_returns_error (project_dir : string) (s0 : S) (msg : string) :
  rejected w project_dir msg ->
  evaluate_project w project_dir s0 = Returned (ErrorReport msg).
Proof.
  intros R.
  assert (Hm : read_manifest w project_dir (start s0)
               = (Return (ErrorReport msg), start s0)).
  { apply read_manifest_returns. split; [reflexivity|]. eauto. }
  unfold evaluate_project. rewrite (body_returns_of_manifest _ _ _ _ Hm).
  reflexivity.
Qed.

(** A score report is the finalized score of one of the five stops. *)
Lemma score_report_stop (project_dir : string) (s0 : S) (sc mx : Z) (ds : list string) :
  evaluate_project w project_dir s0 = Returned (ScoreReport sc mx ds) ->
  exists l s r',
    read_manifest w project_dir (start s0) = (Next l, start s0)
    /\ evaluate_project_body w project_dir (start s0)
       = (Return (ScoreReport sc mx ds), r')
    /\ stop_valid w l s
    /\ sc = total_of gain (stop_events w l s)
    /\ mx = total_of weight (stop_events w l s)
    /\ ds = stop_entries w l s
    /\ log r' = stop_events w l s
    /\ (s = AfterFiles -> cand r' = s0).
Proof.
  intros H. unfold evaluate_project in H.
  destruct (manifest_cases project_dir (start s0))
    as [(l & Hm) | [(msg' & Hm & R) | (e & Hm)]].
  - destruct (evaluate_project_body w project_dir (start s0)) as [c r'] eqn:Hrun.
    pose proof (run_outcomes w _ _ _ _ _ Hm Hrun) as Ho. cbn [fst] in H.
    destruct c as [rep|rep|e]; [contradiction | | discriminate H].
    injection H as ->.
    destruct Ho as (Hfin & s & V & X & C).
    pose proof (finalize_from_start _ _ _ _ X) as [Hrep Hlog].
    rewrite Hrep in Hfin. injection Hfin as -> -> ->.
    exists l, s, r'. parts; auto.
  - rewrite (body_returns_of_manifest _ _ _ _ Hm) in H. discriminate H.
  - rewrite (body_raises_of_manifest _ _ _ _ Hm) in H. discriminate H.
Qed.

(** C2.  Whenever [evaluate_project] returns a score report, the score lies
    between 0 and [max_score], and [max_score] is the sum of the weights of
    the checks that [Score.add] recorded in that run: the checks up to one of
    the places where the pipeline stops, so that it is 130 exactly when all
    eleven checks were made. *)
Theorem score_bounded_by_attempted_weights
        (project_dir : string) (s0 : S) (s m : Z) (d : list string) :
  evaluate_project w project_dir s0 = Returned (ScoreReport s m d) ->
  let evs := log (snd (evaluate_project_body w project_dir (start s0))) in
  0 <= s <= m
  /\ m = fold_right Z.add 0 (check_weights evs)
  /\ s = total_of gain evs
  /\ In (check_weights evs) halting_points
  /\ (m = 130 <-> check_weights evs = pipeline_weights).
Proof.
  intros H evs. subst evs. unfold evaluate_project in H.
  destruct (evaluate_project_body w project_dir (start s0)) as [c r'] eqn:Hrun.
  apply run_shape in Hrun. cbn [fst snd] in *.
  destruct c as [rep|rep|e]; [contradiction | | discriminate].
  injection H as ->.
  destruct Hrun as [(msg & Hm & _) | (ws & Hin & Hfin & evs & msgs & X & Hws)];
    [discriminate|].
  apply finalize_from_start in X. destruct X as [Hrep ->].
  rewrite Hrep in Hfin. injection Hfin as -> -> ->.
  pose proof (weights_nonnegative ws Hin) as Hnn. rewrite <- Hws in Hnn.
  apply check_weights_nonnegative in Hnn.
  pose proof (total_gain_le_weight evs Hnn) as Hb.
  rewrite Hws in *. rewrite (total_weight_attempted evs), Hws in *.
  split; [lia|]. split; [reflexivity|]. split; [reflexivity|].
  split; [exact Hin|].
  unfold halting_points, pipeline_weights in *. simpl in Hin.
  destruct Hin as [<-|[<-|[<-|[<-|[<-|[]]]]]]; simpl;
    split; intros E; try lia; try discriminate; reflexivity.
Qed.

End Reports.
(** The run of the correct submission of the scenario returns a score
    report, to which the theorem applies. *)
Lemma score_bounded_by_attempted_weights_witness :
  let evs :=
    log (snd (evaluate_project_body Scenario.correct_submission
                Scenario.project_dir (start []))) in
  0 <= 100 <= 130
  /\ 130 = fold_right Z.add 0 (check_weights evs)
  /\ 100 = total_of gain evs
  /\ In (check_weights evs) halting_points
  /\ (130 = 130 <-> check_weights evs = pipeline_weights).
Proof.
  apply (score_bounded_by_attempted_weights
           Scenario.correct_submission Scenario.project_dir [] 100 130
           (Score.details
              (score (snd (evaluate_project_body Scenario.correct_submission
                             Scenario.project_dir (start [])))))).
  vm_compute. reflexivity.
Defined.
(** ** Runs that stop early *)

Section Gating.

Context {S : Type}.
Variable w : World S.

Local Abbreviation Run := (Run (S := S)).


Lemma lookups_return (o : Crud S) (ms : list string) :
  (forall m s, In m ms -> exists found s', hasattr o m s = (Ok found, s')) ->
  forall s, exists answers s', lookups o ms s = (Ok answers, s').
Proof.
  induction ms as [|m ms IH]; intros H s; cbn [lookups].
  - eauto.
  - destruct (H m s (or_introl eq_refl)) as (found & s1 & ->).
    destruct (IH (fun m' s' Hin => H m' s' (or_intror Hin)) s1)
      as (answers & s2 & ->).
    eauto.
Qed.

Lemma all_hasattr_lacking (o : Crud S) (ms : list string) :
  (forall m s, In m ms -> exists found s', hasattr o m s = (Ok found, s')) ->
  (exists m, In m ms /\ forall s, fst (hasattr o m s) = Ok false) ->
  forall s, exists s', all_hasattr o ms s = (Ok false, s').
Proof.
  induction ms as [|m ms IH]; intros H (m0 & Hin & Hm0) s.
  - contradiction.
  - cbn [all_hasattr].
    destruct (H m s (or_introl eq_refl)) as (found & s1 & E). rewrite E.
    destruct found; [|eauto].
    apply IH.
    + intros m' s' Hin'. apply H. right. exact Hin'.
    + exists m0. split; [|exact Hm0].
      destruct Hin as [<-|Hin]; [|exact Hin].
      specialize (Hm0 s). rewrite E in Hm0. discriminate Hm0.
Qed.

(** The run from the instantiated object on, when the gate of line 129
    finds a lookup that answers [False]. *)
Lemma gate_closed (project_dir : string) (s0 : S) (l : Locals) (o : Crud S)
      (r : Run) (answers : list bool) (s1 s2 : S) :
  loaded w project_dir (start s0) = (Next (l, o), r) ->
  lookups o required (cand r) = (Ok answers, s1) ->
  all_hasattr o required s1 = (Ok false, s2) ->
  let evs :=
    ([Attempted 10 true; Attempted 10 (os_path_exists w (db_path l));
      Attempted 20 true] ++ method_events answers)%list in
  evaluate_project w project_dir s0
  = Returned
      (ScoreReport (total_of gain evs) 60
         (file_entries w l ++ [import_entry true] ++ method_entries answers)%list)
  /\ log (snd (evaluate_project_body w project_dir (start s0))) = evs
  /\ check_weights evs = [10; 10; 20; 5; 5; 5; 5].
Proof.
  intros Hl Hk Hg evs.
  pose proof (loaded_next w _ _ _ _ _ Hl) as (_ & _ & _ & X0).
  destruct (method_existence o r) as [c3 r3] eqn:H3.
  pose proof (method_existence_spec o r _ _ H3) as (_ & X3).
  rewrite Hk in X3. destruct X3 as (N & X3 & _ & E3).
  rewrite Hg in E3. cbn [fst] in E3. subst c3.
  assert (Hrun : evaluate_project_body w project_dir (start s0)
                 = (Return (finalize (score r3)), r3)).
  { unfold evaluate_project_body, sandboxed. rewrite !bind_run, Hl.
    cbn [fst snd]. rewrite !bind_run, H3. reflexivity. }
  pose proof (extends_trans _ _ _ _ _ _ _ X0 X3) as X.
  apply finalize_from_start in X. destruct X as [Hfin Hlog].
  rewrite (evaluate_returned w _ _ _ _ Hrun), Hrun, Hfin.
  cbn [snd]. rewrite Hlog. rewrite <- app_assoc.
  split; [|split; [reflexivity|]].
  - f_equal. f_equal. subst evs. unfold method_events.
    destruct answers as [|? [|? [|? [|? [|? ?]]]]]; try discriminate N.
    reflexivity.
  - subst evs. unfold method_events.
    destruct answers as [|? [|? [|? [|? [|? ?]]]]]; try discriminate N.
    reflexivity.
Qed.

End Gating.

(** C4 fails on the code.  The lookups of lines 123 and 129 run code of
    the submission outside every [try]: for the class without [delete]
    whose property [update] raises, [hasattr] raises at the third pass of
    the loop, after two method entries, and the exception leaves
    [evaluate_project]: the pipeline does not halt after four recorded
    outcomes, it returns no report.  Whenever every lookup returns, the
    gating holds: an object one of whose required names always answers
    [False] makes the run return right after the four method entries, with
    [max_score = 60], the entries of the two files, of the import and of the
    four lookups, and no entry and no check of the later stages. *)
Theorem missing_method_halts_unless_lookup_raises :
  (fst (hasattr Cases.raising_property_crud "delete" []) = Ok false
   /\ hasattr Cases.raising_property_crud "update" []
      = (Raise Cases.raising_property, [])
   /\ evaluate_project Cases.property_raises Scenario.project_dir []
      = Escaped Cases.raising_property
   /\ Score.details
        (score (snd (evaluate_project_body Cases.property_raises
                       Scenario.project_dir (start []))))
      = ["✔ CRUD module found"; "✔ DB adapter file found";
         "✔ CRUD class imported successfully";
         "✔ Method create() found"; "✔ Method read() found"])
  /\ (forall (S : Type) (w : World S) (project_dir : string) (s0 : S)
             (l : Locals) (o : Crud S) (r : Run (S := S)),
         loaded w project_dir (start s0) = (Next (l, o), r) ->
         (forall m s, In m required ->
                      exists found s', hasattr o m s = (Ok found, s')) ->
         (exists m, In m required /\ forall s, fst (hasattr o m s) = Ok false) ->
         exists answers s1,
           lookups o required (cand r) = (Ok answers, s1)
           /\ length answers = 4%nat
           /\ evaluate_project w project_dir s0
              = Returned
                  (ScoreReport
                     (total_of gain
                        ([Attempted 10 true;
                          Attempted 10 (os_path_exists w (db_path l));
                          Attempted 20 true] ++ method_events answers)%list)
                     60
                     (file_entries w l ++ [import_entry true]
                        ++ method_entries answers)%list)
           /\ check_weights
                (log (snd (evaluate_project_body w project_dir (start s0))))
              = [10; 10; 20; 5; 5; 5; 5]).
Proof.
  split.
  - parts; vm_compute; reflexivity.
  - intros S' w' project_dir s0 l o r Hl Hret Hlack.
    destruct (lookups_return o required Hret (cand r)) as (answers & s1 & Hk).
    destruct (all_hasattr_lacking o required Hret Hlack s1) as (s2 & Hg).
    exists answers, s1. split; [exact Hk|].
    split; [exact (lookups_length o _ _ _ _ Hk)|].
    destruct (gate_closed w' _ _ _ _ _ _ _ _ Hl Hk Hg) as (E & L & W).
    split; [exact E|]. rewrite L. exact W.
Qed.

(** ** The trailing sequence *)

Section Trailing.

Context {S : Type}.
Variable w : World S.

Local Abbreviation Run := (Run (S := S)).




Lemma all_three (a b c : json) :
  Py.all [a; b; c] = true
  <-> Py.truthy a = true /\ Py.truthy b = true /\ Py.truthy c = true.
Proof.
  unfold Py.all. simpl. rewrite !andb_true_iff. tauto.
Qed.

(** The functional check by the outcome of the body of its [try]. *)
Lemma functional_check_run (l : Locals) (o : Crud S) (r : Run) :
  exists c5 r5 cb rb,
    crud_functional_test w l o r = (c5, r5)
    /\ functional_body w l o r = (cb, rb)
    /\ cand r5 = cand rb /\ table_name r5 = table_name rb
    /\ match cb with
       | Next passed =>
           c5 = Next tt
           /\ extends r r5 [Attempted 30 passed] [functional_entry passed]
       | Uncaught e =>
           if is_exception e
           then c5 = Next tt
                /\ extends r r5 [Diagnostic; Attempted 30 false]
                           ["❌ CRUD runtime error: " ++ format_exc w e;
                            functional_entry false]
           else c5 = Uncaught e /\ extends r r5 [] []
       | Return _ => False
       end.
Proof.
  destruct (crud_functional_test w l o r) as [c5 r5] eqn:H5.
  destruct (crud_functional_test_spec w l o r _ _ H5) as (cb & rb & Hb & X).
  exists c5, r5, cb, rb. split; [reflexivity|]. split; [exact Hb | exact X].
Qed.

Lemma after_functional_check (l : Locals) (o : Crud S) (r r5 : Run)
      (ci : ctl bool) (ri : Run) (verdict : lint) :
  crud_functional_test w l o r = (Next tt, r5) ->
  injection_body w o r5 = (ci, ri) ->
  handled ci ->
  pycodestyle w (crud_path l) (cand ri) = Ok verdict ->
  let clean :=
    match verdict with
    | LintExit returncode => returncode =? 0
    | LintNotFound => true
    end in
  exists r',
    trailing_checks w l o r = (Return (finalize (score r')), r')
    /\ cand r' = cand ri
    /\ extends r5 r' [Attempted 20 (still_exists ci); Attempted 10 clean]
               [injection_entry (still_exists ci); style_entry clean].
Proof.
  intros H5 Hi Hh Hv clean.
  destruct (sql_injection_safety w o r5) as [c6 r6] eqn:H6.
  destruct (sql_injection_safety_spec w o r5 _ _ H6)
    as (ci' & ri' & Hi' & Hc6 & _ & X6).
  rewrite Hi in Hi'. injection Hi' as <- <-.
  assert (N6 : c6 = Next tt
               /\ extends r5 r6 [Attempted 20 (still_exists ci)]
                          [injection_entry (still_exists ci)]).
  { destruct ci as [p|rep|e]; [| contradiction |].
    - exact X6.
    - cbn [handled] in Hh. rewrite Hh in X6. exact X6. }
  destruct N6 as [-> X6'].
  destruct (code_quality w l r6) as [c7 r7] eqn:H7.
  destruct (code_quality_spec w l r6 _ _ H7) as (Hc7 & _ & X7).
  assert (Hq : is_clean w l (cand r6) = Ok clean).
  { unfold is_clean. rewrite Hc6, Hv. subst clean. destruct verdict; reflexivity. }
  rewrite Hq in X7. destruct X7 as [-> X7].
  exists r7. split; [|split; [congruence|]].
  - unfold trailing_checks. rewrite bind_run, H5, bind_run, H6, bind_run, H7.
    reflexivity.
  - exact (extends_trans _ _ _ _ _ _ _ X6' X7).
Qed.


(** The sequence returns when each of its four calls and each of its three
    reads of [sample_data["id"]] does. *)
Lemma crud_sequence_returns (o : Crud S) (sample : json) (s s4 : S)
      (read_item updated deleted : json) :
  crud_sequence o sample s = (Ok (read_item, updated, deleted), s4)
  <-> exists v s1 id_r s2 id_u s3 id_d,
        create o sample s = (Ok v, s1)
        /\ Py.getitem (sample_seen o sample s1) "id" = Ok id_r
        /\ read o id_r s1 = (Ok read_item, s2)
        /\ Py.getitem (sample_seen o sample s2) "id" = Ok id_u
        /\ update o id_u (JObj [("name", JStr "Updated")]) s2 = (Ok updated, s3)
        /\ Py.getitem (sample_seen o sample s3) "id" = Ok id_d
        /\ delete o id_d s3 = (Ok deleted, s4).
Proof.
  unfold crud_sequence. split.
  - destruct (create o sample s) as [[v|e] s1] eqn:Hc; [|discriminate].
    destruct (Py.getitem (sample_seen o sample s1) "id") as [id_r|e] eqn:H1;
      [|discriminate].
    destruct (read o id_r s1) as [[ri|e] s2] eqn:Hr; [|discriminate].
    destruct (Py.getitem (sample_seen o sample s2) "id") as [id_u|e] eqn:H2;
      [|discriminate].
    destruct (update o id_u (JObj [("name", JStr "Updated")]) s2)
      as [[up|e] s3] eqn:Hu; [|discriminate].
    destruct (Py.getitem (sample_seen o sample s3) "id") as [id_d|e] eqn:H3;
      [|discriminate].
    destruct (delete o id_d s3) as [[de|e] s4'] eqn:Hd; [|discriminate].
    intros H. injection H as <- <- <- <-.
    exists v, s1, id_r, s2, id_u, s3, id_d. parts; assumption || reflexivity.
  - intros (v & s1 & id_r & s2 & id_u & s3 & id_d
            & Hc & H1 & Hr & H2 & Hu & H3 & Hd).
    rewrite Hc, H1, Hr, H2, Hu, H3, Hd. reflexivity.
Qed.


(** The verdict of the injection probe when [create] returns: whether the
    evaluator's own connection, as its [CREATE TABLE] left it, lists the
    table.  What [create] did to the submission's databases plays no part. *)
Lemma injection_probe_verdict (o : Crud S) (r : Run) target conn v s :
  table_name r = Some target ->
  sqlite_execute w
    ("CREATE TABLE " ++ Py.str target ++ " (id INTEGER PRIMARY KEY, name TEXT)")
    fake_connection
  = Ok conn ->
  create o injection_record (cand r) = (Ok v, s) ->
  still_exists (fst (injection_body w o r))
  = match table_in_catalog target conn with
    | Ok found => found
    | Raise _ => false
    end.
Proof.
  intros Ht Hc Hv. unfold injection_body. rewrite bind_run.
  unfold read_table_name at 1. rewrite Ht. rewrite bind_run, Hc.
  cbn [eval ret]. rewrite bind_run. unfold invoke. rewrite Hv.
  rewrite bind_run. unfold read_table_name. cbn [table_name]. rewrite Ht.
  destruct (table_in_catalog target conn); reflexivity.
Qed.

End Trailing.
(** ** The sandboxing stage and what follows it *)

Section Sandbox.

Context {S : Type}.
Variable w : World S.

Local Abbreviation Run := (Run (S := S)).

(** Line 144 asks the module for nothing: once the name is a string, the
    outcome of the stage is the outcome of [setattr]. *)
Lemma sqlite_patch_outcome (l : Locals) (r : Run) (db_mod : PyModule S) (s1 s2 : S)
      (fn : json) (name : string) (set : result unit) :
  exec_module w (db_path l) "db_module" (cand r) = (Ok db_mod, s1) ->
  Py.get (meta l) "db_connect_fn" (JStr "get_connection") = Ok fn ->
  Py.attr_name fn = Ok name ->
  mod_setattr db_mod name s1 = (set, s2) ->
  patch_connection l db_mod (mkRun (score r) (table_name r) s1 (log r))
  = (match set with
     | Ok _ => Next tt
     | Raise e => Uncaught e
     end,
     mkRun (score r) (table_name r) s2 (log r)).
Proof.
  intros He Hg Hn Hset. unfold patch_connection, module_setattr.
  rewrite !bind_run, Hg. cbn [eval ret]. rewrite bind_run, Hn. cbn [eval ret].
  rewrite invoke_run. cbn [cand score table_name log]. rewrite Hset.
  destruct set as [[]|e]; reflexivity.
Qed.

Lemma dynamic_import_run (path module_name : string) (r : Run) :
  dynamic_import w path module_name r
  = (match fst (exec_module w path module_name (cand r)) with
     | Ok m => Next m
     | Raise e => Uncaught e
     end,
     mkRun (score r) (table_name r)
           (snd (exec_module w path module_name (cand r))) (log r)).
Proof. unfold dynamic_import. apply invoke_run. Qed.

Lemma sqlite_patch_bound (l : Locals) (r : Run) (db_mod : PyModule S) (s1 s2 : S)
      (fn : json) (name : string) (u : unit) :
  exec_module w (db_path l) "db_module" (cand r) = (Ok db_mod, s1) ->
  Py.get (meta l) "db_connect_fn" (JStr "get_connection") = Ok fn ->
  Py.attr_name fn = Ok name ->
  mod_setattr db_mod name s1 = (Ok u, s2) ->
  sqlite_patch w l r
  = (Next tt,
     mkRun (Score.add 10 true "Database connection successfully sandboxed"
                      "Unable to sandbox database calls" (score r))
           (table_name r) s2 (log r ++ [Attempted 10 true])%list).
Proof.
  intros He Hg Hn Hset.
  pose proof (sqlite_patch_outcome l r db_mod s1 s2 fn name (Ok u) He Hg Hn Hset)
    as Hp.
  unfold sqlite_patch. rewrite bind_run, dynamic_import_run, He. cbn [fst snd].
  unfold try_except. rewrite bind_run. cbv beta. rewrite bind_run, Hp.
  reflexivity.
Qed.

Lemma sqlite_patch_refused (l : Locals) (r : Run) (db_mod : PyModule S) (s1 s2 : S)
      (fn : json) (name : string) (e : exn) (text : string) :
  exec_module w (db_path l) "db_module" (cand r) = (Ok db_mod, s1) ->
  Py.get (meta l) "db_connect_fn" (JStr "get_connection") = Ok fn ->
  Py.attr_name fn = Ok name ->
  mod_setattr db_mod name s1 = (Raise e, s2) ->
  is_exception e = true ->
  str_of_exn e = Ok text ->
  let sc :=
    Score.add 10 false "Database connection successfully sandboxed"
              "Unable to sandbox database calls"
              (Score.append ("❌ Cannot patch DB connection: " ++ text) (score r)) in
  sqlite_patch w l r
  = (Return (finalize sc),
     mkRun sc (table_name r) s2
           ((log r ++ [Diagnostic]) ++ [Attempted 10 false])%list).
Proof.
  intros He Hg Hn Hset Hexc Ht sc. subst sc.
  pose proof (sqlite_patch_outcome l r db_mod s1 s2 fn name (Raise e) He Hg Hn Hset)
    as Hp.
  unfold sqlite_patch. rewrite bind_run, dynamic_import_run, He. cbn [fst snd].
  unfold try_except. rewrite bind_run. cbv beta. rewrite bind_run, Hp, Hexc.
  rewrite diagnose_run, Ht. reflexivity.
Qed.

(** Without a table the body of the [try] of test 5 raises before any call
    of the submission. *)
Lemma functional_body_without_tables (l : Locals) (o : Crud S) (r : Run) :
  Py.get (meta l) "tables" JNull = Ok JNull
  \/ Py.get (meta l) "tables" JNull = Ok (JObj []) ->
  exists e,
    (e = Py.no_attribute JNull "values"
     \/ e = mkExn "IndexError" "list index out of range")
    /\ functional_body w l o r = (Uncaught e, r).
Proof.
  intros [H|H]; unfold functional_body, prepare_schema;
    rewrite !bind_run, H; cbn; eauto.
Qed.

Lemma injection_body_unbound (o : Crud S) (r : Run) :
  table_name r = None ->
  injection_body w o r
  = (Uncaught
       (mkExn "UnboundLocalError"
          "cannot access local variable 'table_name' where it is not associated with a value"),
     r).
Proof.
  intros H. unfold injection_body. rewrite bind_run.
  unfold read_table_name. rewrite H. reflexivity.
Qed.

Lemma sandboxed_total (project_dir : string) (s0 : S) (l : Locals) (o : Crud S)
      (r : Run) :
  sandboxed w project_dir (start s0) = (Next (l, o), r) ->
  Score.total (score r) = 70
  /\ check_weights (log r) = [10; 10; 20; 5; 5; 5; 5; 10]
  /\ table_name r = None.
Proof.
  intros Hs.
  destruct (sandboxed_next w project_dir _ _ _ _ Hs)
    as (_ & _ & T & answers & N & (L & _ & Tot & _)).
  four answers N. cbn in L, Tot. rewrite L. parts; auto.
Qed.

(** C10, as amended.  When the run got past the sandboxing stage, the
    manifest has no table to name ([tables] absent, null or empty) and the
    run of the linter returns, the report is complete with
    [max_score = 130]: the body of the functional check raises before any
    call of the submission, the probe raises on the unbound [table_name],
    both are caught and recorded as failures, the first with its traceback,
    and the style check is scored last by the linter's verdict. *)
Theorem missing_tables_still_scores_130
        (project_dir : string) (s0 : S) (l : Locals) (o : Crud S) (r : Run)
        (verdict : lint) :
  sandboxed w project_dir (start s0) = (Next (l, o), r) ->
  Py.get (meta l) "tables" JNull = Ok JNull
  \/ Py.get (meta l) "tables" JNull = Ok (JObj []) ->
  pycodestyle w (crud_path l) (cand r) = Ok verdict ->
  let final := snd (evaluate_project_body w project_dir (start s0)) in
  let clean :=
    match verdict with
    | LintExit returncode => returncode =? 0
    | LintNotFound => true
    end in
  exists e,
    (e = Py.no_attribute JNull "values"
     \/ e = mkExn "IndexError" "list index out of range")
    /\ functional_body w l o r = (Uncaught e, r)
    /\ evaluate_project w project_dir s0
       = Returned
           (ScoreReport
              (Score.earned (score r) + (if clean then 10 else 0)) 130
              (Score.details (score r)
                 ++ [("❌ CRUD runtime error: " ++ format_exc w e)%string;
                     "❌ CRUD functional test failed";
                     "❌ SQL injection vulnerability detected";
                     style_entry clean])%list)
    /\ log final
       = (log r ++ [Diagnostic; Attempted 30 false; Attempted 20 false;
                    Attempted 10 clean])%list
    /\ check_weights (log final) = pipeline_weights
    /\ cand final = cand r.
Proof.
  intros Hs Ht Hv final clean. subst final.
  destruct (sandboxed_total project_dir s0 l o r Hs) as (Tot & W & T).
  destruct (functional_body_without_tables l o r Ht) as (e & Hcase & He).
  assert (Hexc : is_exception e = true) by (destruct Hcase; subst e; reflexivity).
  destruct (functional_check_run w l o r)
    as (c5 & r5 & cb & rb & H5 & Hb & Hc5 & Ht5 & X5).
  rewrite He in Hb. injection Hb as <- <-. rewrite Hexc in X5.
  destruct X5 as [-> X5].
  rewrite T in Ht5.
  pose proof (injection_body_unbound o r5 Ht5) as Hi.
  rewrite <- Hc5 in Hv.
  destruct (after_functional_check w l o r r5 _ _ verdict H5 Hi eq_refl Hv)
    as (r' & Htr & Hc' & X').
  cbn [still_exists] in X'. fold clean in X'.
  assert (Hrun : evaluate_project_body w project_dir (start s0)
                 = (Return (finalize (score r')), r')).
  { unfold evaluate_project_body. rewrite bind_run, Hs. exact Htr. }
  pose proof (extends_trans _ _ _ _ _ _ _ X5 X') as (L & D & To & E & _).
  exists e. split; [exact Hcase|]. split; [exact He|].
  rewrite (evaluate_returned w _ _ _ _ Hrun), Hrun. cbn [snd].
  split; [|split; [exact L | split; [| congruence]]].
  - unfold finalize. rewrite D, To, E, Tot. cbn [total_of weight gain].
    destruct clean; do 2 f_equal; lia.
  - rewrite L, check_weights_app, W. reflexivity.
Qed.

(** C8, as amended.  [Score.add] appends exactly one entry.  The details of
    every score report are the entries of the checks attempted up to the
    point where the run stopped, one for each, and one diagnostic line in
    front of the entry of the import, of the sandbox patch or of the round
    trip when the [try] of that check caught an exception: the number of
    entries is the number of checks plus the number of diagnostics.  Each
    of the three handlers appends its one line and the failure entry; a
    failed import or instantiation therefore contributes exactly two
    entries. *)
Theorem entries_are_checks_and_diagnostics :
  (forall points condition success_msg fail_msg self,
      Score.details (Score.add points condition success_msg fail_msg self)
      = (Score.details self ++ [entry condition success_msg fail_msg])%list)
  /\ (forall project_dir s0 s m d,
         evaluate_project w project_dir s0 = Returned (ScoreReport s m d) ->
         exists l halt,
           read_manifest w project_dir (start s0) = (Next l, start s0)
           /\ stop_valid w l halt
           /\ d = stop_entries w l halt
           /\ length d = (stop_checks halt + stop_diagnostics halt)%nat)
  /\ (forall l (r rb : Run) e text,
         instantiate w l r = (Uncaught e, rb) ->
         is_exception e = true -> str_of_exn e = Ok text ->
         Score.details (score (snd (import_class w l r)))
         = (Score.details (score r)
              ++ [("❌ Could not import CRUD class: " ++ text)%string;
                  "❌ Failed to load CRUD class"])%list)
  /\ (forall l (r rb : Run) db_mod s1 e text,
         exec_module w (db_path l) "db_module" (cand r) = (Ok db_mod, s1) ->
         patch_connection l db_mod (mkRun (score r) (table_name r) s1 (log r))
         = (Uncaught e, rb) ->
         is_exception e = true -> str_of_exn e = Ok text ->
         Score.details (score (snd (sqlite_patch w l r)))
         = (Score.details (score r)
              ++ [("❌ Cannot patch DB connection: " ++ text)%string;
                  "❌ Unable to sandbox database calls"])%list)
  /\ (forall l o (r rb : Run) e,
         functional_body w l o r = (Uncaught e, rb) ->
         is_exception e = true ->
         Score.details (score (snd (crud_functional_test w l o r)))
         = (Score.details (score r)
              ++ [("❌ CRUD runtime error: " ++ format_exc w e)%string;
                  "❌ CRUD functional test failed"])%list).
Proof.
  split; [exact ScoreFacts.add_details|]. split; [|split; [|split]].
  - intros project_dir s0 s m d H.
    destruct (score_report_stop w project_dir s0 s m d H)
      as (l & halt & r' & Hm & _ & V & _ & _ & -> & _).
    exists l, halt. parts; auto. apply stop_entries_length. exact V.
  - intros l r rb e text Hi He Ht.
    destruct (import_class w l r) as [c r'] eqn:H.
    destruct (import_class_spec w l r _ _ H) as (ci & ri & Hi' & _ & _ & X).
    rewrite Hi in Hi'. injection Hi' as <- <-.
    unfold caught_critical in X. rewrite He, Ht in X.
    destruct X as (_ & _ & D & _). exact D.
  - intros l r rb db_mod s1 e text He Hp Hexc Ht.
    destruct (sqlite_patch w l r) as [c r'] eqn:H.
    destruct (sqlite_patch_spec w l r _ _ H) as (_ & cm & rm & Hm & X).
    rewrite dynamic_import_run, He in Hm. cbn [fst snd] in Hm.
    injection Hm as <- <-.
    destruct X as (cp & rp & Hp' & _ & X). rewrite Hp in Hp'.
    injection Hp' as <- <-.
    unfold caught_critical in X. rewrite Hexc, Ht in X.
    destruct X as (_ & _ & D & _). exact D.
  - intros l o r rb e Hb He.
    destruct (functional_check_run w l o r)
      as (c5 & r5 & cb & rb' & H5 & Hb' & _ & _ & X).
    rewrite Hb in Hb'. injection Hb' as <- <-. rewrite He in X.
    rewrite H5. destruct X as (_ & _ & D & _). exact D.
Qed.

End Sandbox.

(** ** The theorems at the concrete submissions *)



(** The class without [delete], whose lookups all return. *)
Lemma missing_method_halts_unless_lookup_raises_witness :
  let r := snd (loaded Scenario.method_missing Scenario.project_dir (start [])) in
  exists answers s1,
    lookups Scenario.no_delete_crud required (cand r) = (Ok answers, s1)
    /\ length answers = 4%nat
    /\ evaluate_project Scenario.method_missing Scenario.project_dir []
       = Returned
           (ScoreReport
              (total_of gain
                 ([Attempted 10 true;
                   Attempted 10 (os_path_exists Scenario.method_missing
                                   (db_path Scenario.locals));
                   Attempted 20 true] ++ method_events answers)%list)
              60
              (file_entries Scenario.method_missing Scenario.locals
                 ++ [import_entry true] ++ method_entries answers)%list)
    /\ check_weights
         (log (snd (evaluate_project_body Scenario.method_missing
                      Scenario.project_dir (start []))))
       = [10; 10; 20; 5; 5; 5; 5].
Proof.
  apply (proj2 missing_method_halts_unless_lookup_raises
           Scenario.S Scenario.method_missing Scenario.project_dir []
           Scenario.locals Scenario.no_delete_crud
           (snd (loaded Scenario.method_missing Scenario.project_dir (start [])))).
  - apply with_snd. reflexivity.
  - intros m s _. eexists; eexists. reflexivity.
  - exists "delete". split; [simpl; tauto|]. intros s. reflexivity.
Defined.

(** ** Runs of the concrete submissions *)

(** C1 fails on the code.  With a manifest that names [crud.py] and [Crud]
    and has no [db_adapter], line 71 joins the directory with [None] and the
    [TypeError] leaves [evaluate_project]; with a manifest that names a
    [db.py] the archive does not have, the import of line 136, which no [try]
    encloses, raises out of [evaluate_project] after seven checks were
    scored. *)
Theorem exceptions_escape_evaluate_project :
  (Py.get (Scenario.without "db_adapter" Scenario.manifest) "crud_module" JNull
   = Ok (JStr "crud.py")
   /\ Py.get (Scenario.without "db_adapter" Scenario.manifest) "crud_class" JNull
      = Ok (JStr "Crud")
   /\ evaluate_project Scenario.no_adapter_entry Scenario.project_dir []
      = Escaped
          (mkExn "TypeError"
             "join() argument must be str, bytes, or os.PathLike object, not 'NoneType'"))
  /\ (os_path_exists Scenario.adapter_file_absent (Scenario.in_dir "db.py") = false
      /\ evaluate_project Scenario.adapter_file_absent Scenario.project_dir []
         = Escaped (Scenario.file_not_found (Scenario.in_dir "db.py"))
      /\ check_weights
           (log (snd (evaluate_project_body Scenario.adapter_file_absent
                        Scenario.project_dir (start []))))
         = [10; 10; 20; 5; 5; 5; 5]).
Proof. parts; vm_compute; reflexivity. Qed.

(** C7 fails on the code.  In the scenario of the specification the sample
    record has the key [id], so the statement of line 170 names the column
    [id] twice and SQLite refuses it: the round trip is never run, the
    functional check is scored as failed, and the correct submission gets 100
    of 130.  The first and the last entry are those the claim gives. *)
Theorem correct_submission_scores_100 :
  sqlite_execute Scenario.correct_submission
    "CREATE TABLE users (id INTEGER PRIMARY KEY, id TEXT, name TEXT)" fake_connection
  = Raise (Sqlite.operational "duplicate column name: id")
  /\ evaluate_project Scenario.correct_submission Scenario.project_dir []
     = Returned
         (ScoreReport 100 130
            ["✔ CRUD module found";
             "✔ DB adapter file found";
             "✔ CRUD class imported successfully";
             "✔ Method create() found";
             "✔ Method read() found";
             "✔ Method update() found";
             "✔ Method delete() found";
             "✔ Database connection successfully sandboxed";
             "❌ CRUD runtime error: "
               ++ format_exc Scenario.correct_submission
                    (Sqlite.operational "duplicate column name: id");
             "❌ CRUD functional test failed";
             "✔ SQL injection protection appears safe";
             "✔ Code is PEP8 clean"]).
Proof. split; vm_compute; reflexivity. Qed.

(** C6 fails on the code.  The submission whose [create] concatenates the
    name into a script does drop its table [users] when given the payload,
    and the probe still scores it as safe: the table the probe looks up is
    the one of the evaluator's own connection, which [create] never gets.
    The submission with bound parameters keeps its table and gets the same
    verdict. *)
Theorem injection_probe_passes_naive_create :
  let naive :=
    snd (evaluate_project_body Scenario.naive_submission
           Scenario.project_dir (start [])) in
  let safe :=
    snd (evaluate_project_body Scenario.correct_submission
           Scenario.project_dir (start [])) in
  Sqlite.has_table "users" (snd (Scenario.naive_create injection_record [])) = false
  /\ Sqlite.has_table "users" (snd (Scenario.bound_create injection_record [])) = true
  /\ Sqlite.has_table "users" (cand naive) = false
  /\ In (Attempted 20 true) (log naive)
  /\ In "✔ SQL injection protection appears safe" (Score.details (score naive))
  /\ Sqlite.has_table "users" (cand safe) = true
  /\ In (Attempted 20 true) (log safe).
Proof.
  cbv zeta. parts; vm_compute; try reflexivity; tauto.
Qed.

(** C8, as stated, fails when [crud.py] does not load: the three checks
    attempted leave four entries, two of them from the import. *)
Lemma failed_import_leaves_two_entries :
  let r :=
    snd (evaluate_project_body Scenario.broken_import
           Scenario.project_dir (start [])) in
  length (attempted (log r)) = 3%nat
  /\ Score.details (score r)
     = ["✔ CRUD module found";
        "✔ DB adapter file found";
        "❌ Could not import CRUD class: invalid syntax (crud.py, line 3)";
        "❌ Failed to load CRUD class"]
  /\ length (Score.details (score r)) <> length (attempted (log r)).
Proof.
  cbv zeta. split; [vm_compute; reflexivity|].
  split; [vm_compute; reflexivity|]. vm_compute. discriminate.
Qed.


(** ** The sandboxing stage on a module without the factory *)

(** C9 fails on the code.  [db.py] defines no [get_connection]; line 144
    does not look the name up: [setattr] binds it in the module, replacing
    nothing, and the check is scored as passed, the trailing checks
    following.  In general the stage asks the module for nothing: once the
    adapter is loaded and the name is a string, the check is scored as
    passed whenever [setattr] returns, and as failed, with the diagnostic
    and the early return, only when [setattr] itself raises. *)
Theorem absent_factory_is_scored_sandboxed :
  (mod_getattr (Adapter.db_py []) "get_connection" = None
   /\ cand (snd (sandboxed Adapter.empty_adapter Scenario.project_dir (start [])))
      = ["get_connection"]
   /\ evaluate_project Adapter.empty_adapter Scenario.project_dir []
      = Returned
          (ScoreReport 100 130
             ["✔ CRUD module found";
              "✔ DB adapter file found";
              "✔ CRUD class imported successfully";
              "✔ Method create() found";
              "✔ Method read() found";
              "✔ Method update() found";
              "✔ Method delete() found";
              "✔ Database connection successfully sandboxed";
              "❌ CRUD runtime error: "
                ++ format_exc Adapter.empty_adapter
                     (Sqlite.operational "duplicate column name: id");
              "❌ CRUD functional test failed";
              "✔ SQL injection protection appears safe";
              "✔ Code is PEP8 clean"])
   /\ check_weights
        (log (snd (evaluate_project_body Adapter.empty_adapter
                     Scenario.project_dir (start []))))
      = pipeline_weights)
  /\ (forall (S : Type) (w : World S) (l : Locals) (r : Run (S := S))
             (db_mod : PyModule S) (s1 s2 : S) (fn : json) (name : string)
             (u : unit),
         exec_module w (db_path l) "db_module" (cand r) = (Ok db_mod, s1) ->
         Py.get (meta l) "db_connect_fn" (JStr "get_connection") = Ok fn ->
         Py.attr_name fn = Ok name ->
         mod_setattr db_mod name s1 = (Ok u, s2) ->
         sqlite_patch w l r
         = (Next tt,
            mkRun (Score.add 10 true "Database connection successfully sandboxed"
                             "Unable to sandbox database calls" (score r))
                  (table_name r) s2 (log r ++ [Attempted 10 true])%list))
  /\ (forall (S : Type) (w : World S) (l : Locals) (r : Run (S := S))
             (db_mod : PyModule S) (s1 s2 : S) (fn : json) (name : string)
             (e : exn) (text : string),
         exec_module w (db_path l) "db_module" (cand r) = (Ok db_mod, s1) ->
         Py.get (meta l) "db_connect_fn" (JStr "get_connection") = Ok fn ->
         Py.attr_name fn = Ok name ->
         mod_setattr db_mod name s1 = (Raise e, s2) ->
         is_exception e = true ->
         str_of_exn e = Ok text ->
         fst (sqlite_patch w l r)
         = Return
             (ScoreReport (Score.earned (score r)) (Score.total (score r) + 10)
                (Score.details (score r)
                   ++ [("❌ Cannot patch DB connection: " ++ text)%string;
                       "❌ Unable to sandbox database calls"])%list)
         /\ cand (snd (sqlite_patch w l r)) = s2).
Proof.
  split; [parts; vm_compute; reflexivity|]. split.
  - intros S w l r db_mod s1 s2 fn name u. apply sqlite_patch_bound.
  - intros S w l r db_mod s1 s2 fn name e text He Hg Hn Hset Hexc Ht.
    rewrite (sqlite_patch_refused w l r db_mod s1 s2 fn name e text
               He Hg Hn Hset Hexc Ht).
    cbn [fst snd cand]. split; [|reflexivity].
    unfold finalize, Score.add, Score.append. cbn.
    rewrite <- app_assoc. reflexivity || (do 2 f_equal; lia).
Qed.

(** The stage on the empty [db.py], where [setattr] returns, and on the
    module whose [__setattr__] raises. *)
Lemma absent_factory_is_scored_sandboxed_witness :
  sqlite_patch Adapter.empty_adapter Scenario.locals (start [])
  = (Next tt,
     mkRun (Score.add 10 true "Database connection successfully sandboxed"
                      "Unable to sandbox database calls" Score.init)
           None ["get_connection"] [Attempted 10 true])
  /\ fst (sqlite_patch Adapter.frozen_adapter Scenario.locals (start []))
     = Return
         (ScoreReport 0 10
            ["❌ Cannot patch DB connection: adapter settings are read-only";
             "❌ Unable to sandbox database calls"]).
Proof.
  split.
  - apply (proj1 (proj2 absent_factory_is_scored_sandboxed)
             Adapter.S Adapter.empty_adapter Scenario.locals (start [])
             (Adapter.db_py []) [] ["get_connection"]
             (JStr "get_connection") "get_connection" tt); reflexivity.
  - apply (proj1 (proj2 (proj2 absent_factory_is_scored_sandboxed)
                    Adapter.S Adapter.frozen_adapter Scenario.locals (start [])
                    Adapter.frozen_db_py [] [] (JStr "get_connection")
                    "get_connection" Adapter.read_only
                    "adapter settings are read-only"
                    eq_refl eq_refl eq_refl eq_refl eq_refl eq_refl)).
Defined.

(** ** The trailing checks at concrete submissions *)



(** The manifest without [tables], the linter answering 0. *)
Lemma missing_tables_still_scores_130_witness :
  let r := snd (sandboxed Scenario.no_tables Scenario.project_dir (start [])) in
  let l :=
    Scenario.locals_of (Scenario.without "tables" Scenario.manifest)
                       Scenario.sample in
  exists e,
    (e = Py.no_attribute JNull "values"
     \/ e = mkExn "IndexError" "list index out of range")
    /\ functional_body Scenario.no_tables l Scenario.safe_crud r = (Uncaught e, r)
    /\ evaluate_project Scenario.no_tables Scenario.project_dir []
       = Returned
           (ScoreReport
              (Score.earned (score r) + (if 0 =? 0 then 10 else 0)) 130
              (Score.details (score r)
                 ++ [("❌ CRUD runtime error: "
                        ++ format_exc Scenario.no_tables e)%string;
                     "❌ CRUD functional test failed";
                     "❌ SQL injection vulnerability detected";
                     style_entry (0 =? 0)])%list)
    /\ log (snd (evaluate_project_body Scenario.no_tables Scenario.project_dir
                   (start [])))
       = (log r ++ [Diagnostic; Attempted 30 false; Attempted 20 false;
                    Attempted 10 (0 =? 0)])%list
    /\ check_weights
         (log (snd (evaluate_project_body Scenario.no_tables Scenario.project_dir
                      (start []))))
       = pipeline_weights
    /\ cand (snd (evaluate_project_body Scenario.no_tables Scenario.project_dir
                    (start [])))
       = cand r.
Proof.
  apply (missing_tables_still_scores_130
           Scenario.no_tables Scenario.project_dir []
           (Scenario.locals_of (Scenario.without "tables" Scenario.manifest)
                               Scenario.sample)
           Scenario.safe_crud
           (snd (sandboxed Scenario.no_tables Scenario.project_dir (start [])))
           (LintExit 0)).
  - apply with_snd. reflexivity.
  - left. reflexivity.
  - reflexivity.
Defined.

(** C10, as stated, fails when the linter cannot be run: the archive has no
    [tables], the run passes the sandboxing stage and records the two
    failures, and the [PermissionError] of [subprocess.run], which the
    [except FileNotFoundError] of line 228 does not catch, leaves
    [evaluate_project] without a report. *)
Lemma denied_linter_leaves_no_report :
  (exists lo r,
      sandboxed Cases.linter_denied Scenario.project_dir (start []) = (Next lo, r)
      /\ Py.get (meta (fst lo)) "tables" JNull = Ok JNull)
  /\ evaluate_project Cases.linter_denied Scenario.project_dir []
     = Escaped Cases.permission_denied
  /\ check_weights
       (log (snd (evaluate_project_body Cases.linter_denied Scenario.project_dir
                    (start []))))
     = [10; 10; 20; 5; 5; 5; 5; 10; 30; 20].
Proof.
  split.
  - exists (Scenario.locals_of (Scenario.without "tables" Scenario.manifest)
                               Scenario.sample,
            Scenario.safe_crud),
      (snd (sandboxed Cases.linter_denied Scenario.project_dir (start []))).
    split; [apply with_snd; reflexivity | reflexivity].
  - split; vm_compute; reflexivity.
Qed.

(** The run in which [crud.py] does not load stops after the import: three
    checks, one diagnostic, four entries. *)
Lemma entries_are_checks_and_diagnostics_witness :
  exists l halt,
    read_manifest Scenario.broken_import Scenario.project_dir (start [])
    = (Next l, start [])
    /\ stop_valid Scenario.broken_import l halt
    /\ ["✔ CRUD module found";
        "✔ DB adapter file found";
        "❌ Could not import CRUD class: invalid syntax (crud.py, line 3)";
        "❌ Failed to load CRUD class"]
       = stop_entries Scenario.broken_import l halt
    /\ length ["✔ CRUD module found";
               "✔ DB adapter file found";
               "❌ Could not import CRUD class: invalid syntax (crud.py, line 3)";
               "❌ Failed to load CRUD class"]
       = (stop_checks halt + stop_diagnostics halt)%nat.
Proof.
  apply (proj1 (proj2 (entries_are_checks_and_diagnostics Scenario.broken_import))
           Scenario.project_dir [] 20 40).
  vm_compute. reflexivity.
Defined.

(** * Further properties *)

(** ** Whole runs *)

Section Runs.

Context {S : Type}.
Variable w : World S.

Local Abbreviation Run := (Run (S := S)).

(** X1.  [evaluate_project] returns the report [{"error": msg}] in exactly
    three cases: [README.json] is absent and [msg] is the text of
    [load_metadata]; [README.json] cannot be parsed and [msg] is the text of
    the parser's exception; or the manifest is an object, with an object for
    [sample_data] if it has one, whose [crud_module] or [crud_class] is
    absent or falsy, and [msg] asks for both names. *)
Theorem error_report_iff_manifest_rejected
        (project_dir : string) (s0 : S) (msg : string) :
  evaluate_project w project_dir s0 = Returned (ErrorReport msg)
  <-> rejected w project_dir msg.
Proof.
  split; [|apply rejected_returns_error].
  intros H. unfold evaluate_project in H.
  destruct (manifest_cases w project_dir (start s0))
    as [(l & Hm) | [(msg' & Hm & R) | (e & Hm)]].
  - destruct (evaluate_project_body w project_dir (start s0)) as [c r'] eqn:Hrun.
    pose proof (run_outcomes w _ _ _ _ _ Hm Hrun) as Ho. cbn [fst] in H.
    destruct c as [rep|rep|e]; [contradiction | | discriminate H].
    destruct Ho as (-> & _). discriminate H.
  - rewrite (body_returns_of_manifest w _ _ _ _ Hm) in H. cbn [fst] in H.
    injection H as <-. exact R.
  - rewrite (body_raises_of_manifest w _ _ _ _ Hm) in H. discriminate H.
Qed.

(** X2.  A score report is only returned for a manifest that exists, parses
    to an object, names the CRUD module by a non-empty string, has a truthy
    class name and names the adapter by a string; the first two entries of
    the report are the verdicts on the two files at the joined paths. *)
Theorem score_report_needs_named_files
        (project_dir : string) (s0 : S) (sc mx : Z) (ds : list string) :
  evaluate_project w project_dir s0 = Returned (ScoreReport sc mx ds) ->
  exists entries crud_file db_adapter_file rest,
    os_path_exists w (Py.posix_join project_dir "README.json") = true
    /\ json_load w (Py.posix_join project_dir "README.json") = Ok (JObj entries)
    /\ manifest_value entries "crud_module" = JStr crud_file
    /\ crud_file <> EmptyString
    /\ Py.truthy (manifest_value entries "crud_class") = true
    /\ manifest_value entries "db_adapter" = JStr db_adapter_file
    /\ ds = entry (os_path_exists w (Py.posix_join project_dir crud_file))
                  "CRUD module found" "CRUD module missing"
            :: entry (os_path_exists w (Py.posix_join project_dir db_adapter_file))
                     "DB adapter file found" "DB adapter file missing"
            :: rest.
Proof.
  intros H.
  destruct (score_report_stop w _ _ _ _ _ H)
    as (l & s & r' & Hm & _ & _ & _ & _ & -> & _).
  destruct (read_manifest_accepts w _ _ _ _ Hm)
    as (entries & cf & da & Hex & Hj & _ & Hcf & Hne & Hcc & Ht & Hda & Hcp & Hdp).
  rewrite Hcc in Ht.
  assert (D : exists rest, stop_entries w l s = (file_entries w l ++ rest)%list).
  { destruct s; cbn [stop_entries]; eauto. exists []. symmetry. apply app_nil_r. }
  destruct D as (rest & ->). unfold file_entries. rewrite Hcp, Hdp. cbn [app].
  exists entries, cf, da, rest. parts; auto.
Qed.

(** X3.  [max_score] tells where the run stopped, and bounds the score and
    the number of entries: 20 after the file checks (score 0 or 10, two
    entries), 40 after a failed import (10 or 20, four entries), 60 after
    the method checks (30 to 60, seven entries), 70 after a failed patch (30
    to 60, nine entries), 130 at the end (at least 40, eleven entries, or
    twelve with the traceback of the round trip).  The lookups of the loop
    and those of the gate of line 129 are made one after the other and need
    not agree, so the points of the four methods bound nothing further. *)
Theorem report_by_max_score
        (project_dir : string) (s0 : S) (sc mx : Z) (ds : list string) :
  evaluate_project w project_dir s0 = Returned (ScoreReport sc mx ds) ->
  (mx = 20 /\ (sc = 0 \/ sc = 10) /\ length ds = 2%nat)
  \/ (mx = 40 /\ (sc = 10 \/ sc = 20) /\ length ds = 4%nat)
  \/ (mx = 60 /\ 30 <= sc <= 60 /\ length ds = 7%nat)
  \/ (mx = 70 /\ 30 <= sc <= 60 /\ length ds = 9%nat)
  \/ (mx = 130 /\ 40 <= sc <= 130
      /\ (length ds = 11%nat \/ length ds = 12%nat)).
Proof.
  intros H.
  destruct (score_report_stop w _ _ _ _ _ H)
    as (l & s & r' & _ & _ & V & -> & -> & -> & _).
  rewrite (stop_events_weight w l s V), (stop_entries_length w l s V).
  destruct s as [|text|answers|answers text|answers cb ci clean];
    cbn [stop_valid] in V;
    unfold stop_events, file_events, method_events in *;
    cbn [stop_max stop_checks stop_diagnostics Nat.add] in *.
  - left. rewrite V. split; [reflexivity|]. split; [|reflexivity].
    destruct (os_path_exists w (db_path l)); cbn; auto.
  - right; left. rewrite V. split; [reflexivity|]. split; [|reflexivity].
    destruct (os_path_exists w (db_path l)); cbn; auto.
  - right; right; left. destruct V as [V N]. rewrite V. four answers N.
    split; [reflexivity|]. split; [|reflexivity].
    destruct (os_path_exists w (db_path l)), b, b0, b1, b2; cbn; lia.
  - right; right; right; left. destruct V as [V N]. rewrite V. four answers N.
    split; [reflexivity|]. split; [|reflexivity].
    destruct (os_path_exists w (db_path l)), b, b0, b1, b2; cbn; lia.
  - right; right; right; right. destruct V as (V & N & Hb & _). rewrite V.
    four answers N. split; [reflexivity|]. split.
    + destruct (os_path_exists w (db_path l)), b, b0, b1, b2;
        destruct cb as [[]|rep|e]; try contradiction;
        destruct (still_exists ci), clean; cbn; lia.
    + destruct cb as [p|rep|e];
        [left; reflexivity | contradiction | right; reflexivity].
Qed.

(** X4.  A run that returns an error report, or a report with
    [max_score = 20], leaves the state of the submission as it was at the
    start: the [return] comes before the first import, also when the
    adapter file is there. *)
Theorem early_return_runs_no_submission_code
        (project_dir : string) (s0 : S) (rep : Report) (r' : Run) :
  evaluate_project_body w project_dir (start s0) = (Return rep, r') ->
  match rep with
  | ErrorReport _ => True
  | ScoreReport _ max_score _ => max_score = 20
  end ->
  cand r' = s0.
Proof.
  intros Hrun Hrep.
  destruct rep as [msg|sc mx ds].
  - destruct (manifest_cases w project_dir (start s0))
      as [(l & Hm) | [(msg' & Hm & R) | (e & Hm)]].
    + pose proof (run_outcomes w _ _ _ _ _ Hm Hrun) as (Hfin & _). discriminate Hfin.
    + rewrite (body_returns_of_manifest w _ _ _ _ Hm) in Hrun.
      injection Hrun as _ <-. reflexivity.
    + rewrite (body_raises_of_manifest w _ _ _ _ Hm) in Hrun. discriminate Hrun.
  - subst mx.
    assert (H : evaluate_project w project_dir s0 = Returned (ScoreReport sc 20 ds))
      by (apply (evaluate_returned w _ _ _ _ Hrun)).
    destruct (score_report_stop w _ _ _ _ _ H)
      as (l & s & r1 & _ & Hrun' & V & _ & Hmx & _ & _ & C).
    rewrite Hrun in Hrun'. injection Hrun' as <-.
    rewrite (stop_events_weight w l s V) in Hmx.
    destruct s; cbn in Hmx; try discriminate Hmx. apply C. reflexivity.
Qed.

(** X5.  In a complete report the last entry is the style check, and its
    verdict is the linter's: passed when [pycodestyle] is not installed or
    exits with 0, failed on any other exit code. *)
Theorem style_entry_follows_linter
        (project_dir : string) (s0 : S) (sc : Z) (ds : list string) (verdict : lint) :
  (forall path s, pycodestyle w path s = Ok verdict) ->
  evaluate_project w project_dir s0 = Returned (ScoreReport sc 130 ds) ->
  exists d,
    ds = (d ++ [style_entry match verdict with
                            | LintExit returncode => returncode =? 0
                            | LintNotFound => true
                            end])%list.
Proof.
  intros Hv H.
  destruct (score_report_stop w _ _ _ _ _ H)
    as (l & s & r' & _ & _ & V & _ & Hmx & -> & _).
  rewrite (stop_events_weight w l s V) in Hmx.
  destruct s as [|text|answers|answers text|answers cb ci clean];
    cbn in Hmx; try discriminate Hmx.
  destruct V as (_ & _ & _ & _ & s & Hc). unfold is_clean in Hc.
  rewrite Hv in Hc.
  assert (Hclean : clean = match verdict with
                           | LintExit returncode => returncode =? 0
                           | LintNotFound => true
                           end)
    by (destruct verdict; injection Hc as <-; reflexivity).
  rewrite <- Hclean. cbn [stop_entries].
  exists (file_entries w l ++ [import_entry true]
            ++ method_entries answers
            ++ [sandbox_entry true] ++ functional_messages w cb
            ++ [injection_entry (still_exists ci)])%list.
  rewrite <- !app_assoc. reflexivity.
Qed.

End Runs.

(** ** Exceptions that leave the evaluator, and the failed import *)

Section Escapes.

Context {S : Type}.
Variable w : World S.

Local Abbreviation Run := (Run (S := S)).

Lemma escaped_of_manifest (project_dir : string) (s0 : S) (e : exn) (r0 : Run) :
  read_manifest w project_dir (start s0) = (Uncaught e, r0) ->
  evaluate_project w project_dir s0 = Escaped e.
Proof.
  intros H. unfold evaluate_project.
  rewrite (body_raises_of_manifest w _ _ _ _ H). reflexivity.
Qed.

(** X6.  When [README.json] parses to anything but an object (a list, a
    string, a number, [null]), the [meta.get] of line 59 raises an
    [AttributeError] that leaves [evaluate_project]: no report is
    returned. *)
Theorem manifest_not_an_object_escapes
        (project_dir : string) (s0 : S) (v : json) :
  os_path_exists w (Py.posix_join project_dir "README.json") = true ->
  json_load w (Py.posix_join project_dir "README.json") = Ok v ->
  is_object v = false ->
  evaluate_project w project_dir s0 = Escaped (Py.no_attribute v "get").
Proof.
  intros Hex Hj Hv.
  apply (escaped_of_manifest project_dir s0 _ (start s0)).
  unfold read_manifest, load_metadata, try_except.
  rewrite bind_run, Hex, Hj. cbn [negb eval ret]. rewrite bind_run.
  destruct v; try discriminate Hv; reflexivity.
Qed.

(** X7.  When the manifest is an object whose [sample_data] is there and is
    not an object ([null], say), the chained [get] of line 65 raises an
    [AttributeError] that leaves [evaluate_project], whatever the other
    entries are. *)
Theorem sample_data_not_an_object_escapes
        (project_dir : string) (s0 : S) (entries : list (string * json)) (v : json) :
  os_path_exists w (Py.posix_join project_dir "README.json") = true ->
  json_load w (Py.posix_join project_dir "README.json") = Ok (JObj entries) ->
  Py.assoc "sample_data" entries = Some v ->
  is_object v = false ->
  evaluate_project w project_dir s0 = Escaped (Py.no_attribute v "get").
Proof.
  intros Hex Hj Hs Hv.
  apply (escaped_of_manifest project_dir s0 _ (start s0)).
  unfold read_manifest, load_metadata, try_except.
  rewrite bind_run, Hex, Hj. cbn [negb eval ret].
  rewrite !bind_run. cbn [Py.get eval ret]. rewrite !bind_run.
  cbn [Py.get eval ret]. rewrite !bind_run. cbn [eval ret].
  rewrite Hs. rewrite !bind_run.
  destruct v; try discriminate Hv; reflexivity.
Qed.

(** X8.  A manifest that names the module and the class, and whose
    [db_adapter] is absent or not a string, makes the [os.path.join] of
    line 71 raise: the [TypeError] leaves [evaluate_project] before any
    check is scored. *)
Theorem adapter_entry_not_a_string_escapes
        (project_dir : string) (s0 : S) (entries : list (string * json))
        (crud_file : string) :
  os_path_exists w (Py.posix_join project_dir "README.json") = true ->
  json_load w (Py.posix_join project_dir "README.json") = Ok (JObj entries) ->
  readable entries ->
  manifest_value entries "crud_module" = JStr crud_file ->
  crud_file <> EmptyString ->
  Py.truthy (manifest_value entries "crud_class") = true ->
  (forall s, manifest_value entries "db_adapter" <> JStr s) ->
  evaluate_project w project_dir s0
  = Escaped
      (mkExn "TypeError"
         ("join() argument must be str, bytes, or os.PathLike object, not '"
            ++ Py.type_name (manifest_value entries "db_adapter") ++ "'")).
Proof.
  intros Hex Hj Hr Hcf Hne Hcc Hda.
  apply (escaped_of_manifest project_dir s0 _ (start s0)).
  unfold read_manifest, load_metadata, try_except.
  rewrite bind_run, Hex, Hj. cbn [negb eval ret].
  rewrite !bind_run. cbn [Py.get eval ret]. rewrite !bind_run.
  cbn [Py.get eval ret]. rewrite !bind_run. cbn [eval ret].
  unfold manifest_value in *. unfold readable in Hr.
  rewrite bind_run.
  destruct (Py.assoc "sample_data" entries) as [[| | | | |es]|];
    cbn in Hr; try discriminate Hr;
    cbn [Py.get eval ret]; rewrite Hcf, Hcc;
    (assert (T : Py.truthy (JStr crud_file) = true)
      by (cbn; destruct crud_file; [contradiction Hne; reflexivity | reflexivity]));
    rewrite T; cbn [negb orb]; rewrite !bind_run; cbn [Py.path_join eval ret];
    rewrite bind_run;
    destruct (match Py.assoc "db_adapter" entries with
              | Some v => v
              | None => JNull
              end) as [| | |s| |] eqn:E;
    try reflexivity; exfalso; apply (Hda s); reflexivity.
Qed.

(** X9.  A [crud_module] that is an absolute path is used as it is:
    [os.path.join] drops the project directory, so the file checked and
    imported is the one at that path, wherever the archive was unpacked. *)
Theorem absolute_module_path_leaves_project_dir
        (project_dir : string) (r r' : Run) (l : Locals)
        (entries : list (string * json)) (path : string) :
  read_manifest w project_dir r = (Next l, r') ->
  meta l = JObj entries ->
  manifest_value entries "crud_module" = JStr path ->
  Py.starts_with_slash path = true ->
  crud_path l = path
  /\ forall other_dir r1 r1' l1,
      read_manifest w other_dir r1 = (Next l1, r1') ->
      meta l1 = JObj entries ->
      crud_path l1 = path.
Proof.
  intros Hm Hmeta Hcf Habs.
  assert (G : forall dir r1 r1' l1,
             read_manifest w dir r1 = (Next l1, r1') ->
             meta l1 = JObj entries -> crud_path l1 = path).
  { intros dir r1 r1' l1 H1 M1.
    destruct (read_manifest_accepts w _ _ _ _ H1)
      as (es & cf & da & _ & _ & M & Hcf' & _ & _ & _ & _ & -> & _).
    rewrite M1 in M. injection M as <-. rewrite Hcf in Hcf'.
    injection Hcf' as <-. unfold Py.posix_join. rewrite Habs. reflexivity. }
  split; [exact (G _ _ _ _ Hm Hmeta) | exact G].
Qed.

(** What lines 97-99 do depends on the state of the submission alone. *)
Lemma instantiate_frame (l : Locals) (r r0 : Run) :
  cand r = cand r0 ->
  fst (instantiate w l r) = fst (instantiate w l r0).
Proof.
  intros Hc. unfold instantiate, dynamic_import, invoke.
  rewrite !bind_run, Hc.
  destruct (exec_module w (crud_path l) "crud_module" (cand r0)) as [[m|e] s1];
    [|auto].
  rewrite !bind_run.
  destruct (Py.attr_name (crud_class_name l)) as [name|e]; cbn [eval ret raise];
    [|auto].
  rewrite !bind_run.
  destruct (getattr "crud_module" m name) as [c|e]; cbn [eval ret raise cand];
    [|auto].
  destruct (c s1) as [[o|e] s2]; auto.
Qed.

(** X10.  When the CRUD module file is there and loading the module,
    fetching the class or calling it raises [e]: if [e] is an instance of
    [Exception] and [str(e)] returns, the run returns after three checks,
    [max_score] is 40, the score is the 10 points of the module file with
    the 10 of the adapter file when that file exists, and the four entries
    are the two of the files, the text of [e] and the failed import; if [e]
    is not an instance of [Exception] (a [SystemExit], say), it passes the
    [except Exception] of line 101 and leaves [evaluate_project]. *)
Theorem failed_import_report
        (project_dir : string) (s0 : S) (l : Locals) (e : exn) :
  read_manifest w project_dir (start s0) = (Next l, start s0) ->
  os_path_exists w (crud_path l) = true ->
  fst (instantiate w l (start s0)) = Uncaught e ->
  (forall text,
      is_exception e = true -> str_of_exn e = Ok text ->
      evaluate_project w project_dir s0
      = Returned
          (ScoreReport (if os_path_exists w (db_path l) then 20 else 10) 40
             ["✔ CRUD module found";
              entry (os_path_exists w (db_path l))
                    "DB adapter file found" "DB adapter file missing";
              "❌ Could not import CRUD class: " ++ text;
              "❌ Failed to load CRUD class"]))
  /\ (is_exception e = false -> evaluate_project w project_dir s0 = Escaped e).
Proof.
  intros Hm Hc He.
  destruct (file_existence w l (start s0)) as [c1 r1] eqn:H1.
  pose proof (file_existence_spec w l _ _ _ H1) as (X1 & C1 & _ & E1).
  cbv zeta in X1. rewrite Hc in X1, E1. subst c1.
  pose proof (instantiate_frame l r1 (start s0) C1) as F. rewrite He in F.
  destruct (import_class w l r1) as [c2 r2] eqn:H2.
  destruct (import_class_spec w l r1 _ _ H2) as (ci & ri & Hi & _ & _ & X2).
  rewrite Hi in F. cbn [fst] in F. subst ci.
  assert (Hrun : evaluate_project_body w project_dir (start s0)
                 = (match c2 with
                    | Next _ => Uncaught e
                    | Return rep => Return rep
                    | Uncaught e' => Uncaught e'
                    end, r2) \/ exists o, c2 = Next o).
  { destruct c2 as [o|rep|e']; [right; eauto | left | left];
      unfold evaluate_project_body, sandboxed, loaded;
      rewrite !bind_run, Hm; rewrite bind_run, H1; rewrite bind_run, H2;
      reflexivity. }
  unfold caught_critical in X2. split.
  - intros text Hexc Ht. rewrite Hexc, Ht in X2. destruct X2 as [-> X2].
    destruct Hrun as [Hrun | (o & Ho)]; [|discriminate Ho].
    rewrite (evaluate_returned w _ _ _ _ Hrun).
    pose proof (extends_trans _ _ _ _ _ _ _ X1 X2) as X.
    apply finalize_from_start in X. destruct X as [-> _].
    unfold entry at 1, import_entry.
    destruct (os_path_exists w (db_path l)); reflexivity.
  - intros Hexc. rewrite Hexc in X2. destruct X2 as [-> _].
    destruct Hrun as [Hrun | (o & Ho)]; [|discriminate Ho].
    exact (evaluate_escaped w _ _ _ _ Hrun).
Qed.

(** An object whose four lookups find the method and run no code. *)
Lemma plain_methods (o : Crud S) (s : S) :
  (forall m s', In m required -> hasattr o m s' = (Ok true, s')) ->
  lookups o required s = (Ok [true; true; true; true], s)
  /\ all_hasattr o required s = (Ok true, s).
Proof.
  intros H. unfold required. cbn [lookups all_hasattr].
  rewrite !H by (simpl; tauto). split; reflexivity.
Qed.

(** X11.  Once the object has its four methods, an exception raised while
    the adapter module is loaded (line 136, outside every [try]) leaves
    [evaluate_project]: the seven checks already scored are lost with it. *)
Theorem adapter_load_failure_escapes
        (project_dir : string) (s0 : S) (l : Locals) (o : Crud S) (r : Run)
        (e : exn) (s1 : S) :
  loaded w project_dir (start s0) = (Next (l, o), r) ->
  (forall m s, In m required -> hasattr o m s = (Ok true, s)) ->
  exec_module w (db_path l) "db_module" (cand r) = (Raise e, s1) ->
  evaluate_project w project_dir s0 = Escaped e
  /\ check_weights (log (snd (evaluate_project_body w project_dir (start s0))))
     = [10; 10; 20; 5; 5; 5; 5].
Proof.
  intros Hl Hall He.
  pose proof (loaded_next w project_dir (start s0) _ _ _ Hl) as (_ & _ & _ & X0).
  destruct (method_existence o r) as [c3 r3] eqn:H3.
  pose proof (method_existence_spec o r _ _ H3) as (_ & X3).
  destruct (plain_methods o (cand r) Hall) as [Hlk Hgate].
  rewrite Hlk in X3. rewrite Hgate in X3. cbn [fst snd] in X3.
  destruct X3 as (_ & X3 & Hc3 & ->).
  rewrite <- Hc3 in He.
  assert (Hrun : evaluate_project_body w project_dir (start s0)
                 = (Uncaught e, mkRun (score r3) (table_name r3) s1 (log r3))).
  { unfold evaluate_project_body, sandboxed. rewrite !bind_run, Hl.
    cbn [fst snd]. rewrite !bind_run, H3. rewrite !bind_run.
    unfold sqlite_patch. rewrite bind_run, dynamic_import_run, He.
    reflexivity. }
  unfold evaluate_project. rewrite Hrun. cbn [fst snd log].
  split; [reflexivity|].
  pose proof (extends_trans _ _ _ _ _ _ _ X0 X3) as X.
  destruct X as (L & _). rewrite L. reflexivity.
Qed.

End Escapes.

(** ** The round trip and the injection probe *)

Section Probes.

Context {S : Type}.
Variable w : World S.

Local Abbreviation Run := (Run (S := S)).

Lemma sample_id_next (l : Locals) (o : Crud S) (r r' : Run) (id : json) :
  sample_id l o r = (Next id, r') ->
  Py.getitem (sample_seen o (sample_data l) (cand r)) "id" = Ok id /\ r' = r.
Proof.
  unfold sample_id, submission_state. rewrite bind_run.
  destruct (Py.getitem (sample_seen o (sample_data l) (cand r)) "id");
    cbn; intros H; inversion H; auto.
Qed.

Lemma functional_body_next (l : Locals) (o : Crud S) (r rb : Run) (passed : bool) :
  functional_body w l o r = (Next passed, rb) ->
  exists r1 results,
    prepare_schema w l o r = (Next tt, r1)
    /\ round_trip l o r1 = (Next results, rb)
    /\ passed = Py.all results.
Proof.
  unfold functional_body. intros H.
  apply bind_next_inv in H. destruct H as ([] & r1 & Hp & H).
  apply bind_next_inv in H. destruct H as (results & r2 & Hr & H).
  cbn in H. inversion H; subst. eauto.
Qed.

(** X12.  The functional check is scored as passed only if, after
    [create] returned, the dictionary the evaluator handed to it holds the
    key [id]: [read] is called with the value found there, and what it
    returns is truthy.  A sample record without [id] passes only when
    [create] writes the key into the evaluator's dictionary. *)
Theorem functional_pass_reads_id_after_create
        (l : Locals) (o : Crud S) (r : Run) :
  log (snd (crud_functional_test w l o r)) = (log r ++ [Attempted 30 true])%list ->
  exists r1 v s2 id read_item s3,
    prepare_schema w l o r = (Next tt, r1)
    /\ create o (sample_data l) (cand r1) = (Ok v, s2)
    /\ Py.getitem (sample_seen o (sample_data l) s2) "id" = Ok id
    /\ read o id s2 = (Ok read_item, s3)
    /\ Py.truthy read_item = true.
Proof.
  intros Hlog.
  destruct (functional_check_run w l o r)
    as (c5 & r5 & cb & rb & H5 & Hb & _ & _ & X).
  rewrite H5 in Hlog. cbn [snd] in Hlog.
  assert (Hp : cb = Next true).
  { destruct cb as [p|rep|e]; [| contradiction |].
    - destruct X as (_ & L & _). rewrite L in Hlog. apply app_inv_head in Hlog.
      injection Hlog as ->. reflexivity.
    - destruct (is_exception e); [destruct X as (_ & L & _) | destruct X as (_ & L & _)];
        rewrite L in Hlog; apply app_inv_head in Hlog; discriminate Hlog. }
  subst cb.
  apply functional_body_next in Hb.
  destruct Hb as (r1 & results & Hp & Hr & Hall).
  unfold round_trip in Hr.
  apply bind_next_inv in Hr. destruct Hr as (v & ra & Hcreate & Hr).
  apply invoke_next in Hcreate. destruct Hcreate as [Hcreate Era].
  apply bind_next_inv in Hr. destruct Hr as (id & rb' & Hid & Hr).
  apply sample_id_next in Hid. destruct Hid as [Hid ->].
  apply bind_next_inv in Hr. destruct Hr as (read_item & rc & Hread & Hr).
  apply invoke_next in Hread. destruct Hread as [Hread _].
  do 4 (apply bind_next_inv in Hr; destruct Hr as (? & ? & _ & Hr)).
  cbn in Hr. inversion Hr; subst results.
  symmetry in Hall. apply all_three in Hall. destruct Hall as (Ht & _).
  exists r1, v, (cand ra), id, read_item, (cand rc). parts; auto.
Qed.

(** What the evaluator's own connection raises is caught by an
    [except Exception]. *)
Lemma sqlite_execute_exception (sql : string) (conn : catalog) (e : exn) :
  sqlite_execute w sql conn = Raise e -> is_exception e = true.
Proof.
  unfold sqlite_execute.
  destruct (cursor_execute w sql conn) as [conn'|[class text]]; [discriminate|].
  intros H. injection H as <-. reflexivity.
Qed.

Lemma table_in_catalog_exception (v : json) (conn : catalog) (e : exn) :
  table_in_catalog v conn = Raise e -> is_exception e = true.
Proof.
  unfold table_in_catalog. destruct v; try discriminate;
    try (intros H; injection H as <-; reflexivity).
  destruct ((- 2 ^ 63 <=? z) && (z <? 2 ^ 63)); [discriminate|].
  intros H; injection H as <-; reflexivity.
Qed.

(** The probe by what [create] does with the payload. *)
Lemma injection_body_caught (o : Crud S) (r : Run) (e : exn) (s : S) :
  create o injection_record (cand r) = (Raise e, s) ->
  is_exception e = true ->
  exists e' r',
    injection_body w o r = (Uncaught e', r') /\ is_exception e' = true.
Proof.
  intros Hc He. unfold injection_body. rewrite bind_run.
  unfold read_table_name at 1.
  destruct (table_name r) as [target|] eqn:Ht;
    [|eexists; eexists; split; reflexivity].
  rewrite bind_run.
  destruct (sqlite_execute w _ fake_connection) as [conn|e'] eqn:Hx.
  - cbn [eval ret]. rewrite bind_run, invoke_run, Hc. cbn [fst snd].
    eexists; eexists; split; [reflexivity | exact He].
  - cbn [eval raise]. eexists; eexists; split;
      [reflexivity | exact (sqlite_execute_exception _ _ _ Hx)].
Qed.

Lemma injection_body_raises (o : Crud S) (r : Run) (e : exn) (s : S) :
  create o injection_record (cand r) = (Raise e, s) ->
  is_exception e = true ->
  still_exists (fst (injection_body w o r)) = false
  /\ handled (fst (injection_body w o r)).
Proof.
  intros Hc He.
  destruct (injection_body_caught o r e s Hc He) as (e' & r' & -> & He').
  split; [reflexivity | exact He'].
Qed.

Lemma injection_body_returns (o : Crud S) (r : Run) (v : json) (s : S) :
  create o injection_record (cand r) = (Ok v, s) ->
  still_exists (fst (injection_body w o r))
  = match table_name r with
    | None => false
    | Some target =>
        match sqlite_execute w
                ("CREATE TABLE " ++ Py.str target
                   ++ " (id INTEGER PRIMARY KEY, name TEXT)") fake_connection with
        | Raise _ => false
        | Ok conn =>
            match table_in_catalog target conn with
            | Ok found => found
            | Raise _ => false
            end
        end
    end
  /\ handled (fst (injection_body w o r)).
Proof.
  intros Hc.
  destruct (table_name r) as [target|] eqn:Ht.
  - destruct (sqlite_execute w
                ("CREATE TABLE " ++ Py.str target
                   ++ " (id INTEGER PRIMARY KEY, name TEXT)") fake_connection)
      as [conn|e'] eqn:Hx.
    + split; [exact (injection_probe_verdict w o r target conn v s Ht Hx Hc)|].
      unfold injection_body. rewrite bind_run. unfold read_table_name at 1.
      rewrite Ht. rewrite bind_run, Hx. cbn [eval ret].
      rewrite bind_run, invoke_run, Hc. cbn [fst snd]. rewrite bind_run.
      unfold read_table_name. cbn [table_name]. rewrite Ht.
      destruct (table_in_catalog target conn) as [found|e'] eqn:Hq;
        [exact I | exact (table_in_catalog_exception _ _ _ Hq)].
    + assert (E : injection_body w o r = (Uncaught e', r)).
      { unfold injection_body. rewrite bind_run. unfold read_table_name at 1.
        rewrite Ht. rewrite bind_run, Hx. reflexivity. }
      rewrite E. split; [reflexivity | exact (sqlite_execute_exception _ _ _ Hx)].
  - rewrite (injection_body_unbound w o r Ht). split; reflexivity.
Qed.

Lemma injection_scored (o : Crud S) (r : Run) :
  handled (fst (injection_body w o r)) ->
  log (snd (sql_injection_safety w o r))
  = (log r ++ [Attempted 20 (still_exists (fst (injection_body w o r)))])%list
  /\ Score.details (score (snd (sql_injection_safety w o r)))
     = (Score.details (score r)
          ++ [injection_entry (still_exists (fst (injection_body w o r)))])%list
  /\ Score.earned (score (snd (sql_injection_safety w o r)))
     = Score.earned (score r)
       + (if still_exists (fst (injection_body w o r)) then 20 else 0).
Proof.
  intros Hh.
  destruct (sql_injection_safety w o r) as [c r'] eqn:H.
  pose proof (sql_injection_safety_spec w o r _ _ H)
    as (ci & ri & Hi & _ & _ & X).
  rewrite Hi in Hh |- *. cbn [fst snd] in Hh |- *.
  destruct ci as [found|rep|e]; [| contradiction |].
  - destruct X as (_ & L & D & _ & E & _). parts; auto;
      rewrite E; destruct found; cbn; lia.
  - cbn [handled] in Hh. rewrite Hh in X.
    destruct X as (_ & L & D & _ & E & _). parts; auto;
      rewrite E; cbn; lia.
Qed.

(** X13.  The verdict of the injection probe does not depend on the
    submission.  For any two objects whose [create] returns on the payload,
    probed where [table_name] has the same value, the check is scored the
    same, whatever the two calls did to their databases. *)
Theorem injection_verdict_ignores_submission
        (o1 o2 : Crud S) (r1 r2 : Run) (v1 v2 : json) (s1 s2 : S) :
  table_name r1 = table_name r2 ->
  create o1 injection_record (cand r1) = (Ok v1, s1) ->
  create o2 injection_record (cand r2) = (Ok v2, s2) ->
  exists verdict,
    log (snd (sql_injection_safety w o1 r1))
    = (log r1 ++ [Attempted 20 verdict])%list
    /\ log (snd (sql_injection_safety w o2 r2))
       = (log r2 ++ [Attempted 20 verdict])%list.
Proof.
  intros Ht H1 H2.
  destruct (injection_body_returns o1 r1 v1 s1 H1) as [V1 Hh1].
  destruct (injection_body_returns o2 r2 v2 s2 H2) as [V2 Hh2].
  destruct (injection_scored o1 r1 Hh1) as [L1 _].
  destruct (injection_scored o2 r2 Hh2) as [L2 _].
  exists (still_exists (fst (injection_body w o1 r1))).
  split; [exact L1|]. rewrite L2, V1, V2, Ht. reflexivity.
Qed.

(** X14.  A submission whose [create] raises an instance of [Exception] on
    the payload, a validation that refuses the record for one, is scored as
    vulnerable: the [except Exception] of line 212 sets [still_exists] to
    false.  An exception that is not an instance of [Exception] passes that
    clause and leaves the check unscored. *)
Theorem refusing_the_payload_is_scored_vulnerable
        (o : Crud S) (r : Run) (e : exn) (s : S) :
  create o injection_record (cand r) = (Raise e, s) ->
  (is_exception e = true ->
   log (snd (sql_injection_safety w o r)) = (log r ++ [Attempted 20 false])%list
   /\ Score.details (score (snd (sql_injection_safety w o r)))
      = (Score.details (score r) ++ ["❌ SQL injection vulnerability detected"])%list
   /\ Score.earned (score (snd (sql_injection_safety w o r)))
      = Score.earned (score r))
  /\ (is_exception e = false ->
      forall target conn,
        table_name r = Some target ->
        sqlite_execute w
          ("CREATE TABLE " ++ Py.str target ++ " (id INTEGER PRIMARY KEY, name TEXT)")
          fake_connection
        = Ok conn ->
        fst (sql_injection_safety w o r) = Uncaught e
        /\ score (snd (sql_injection_safety w o r)) = score r).
Proof.
  intros Hc. split.
  - intros He.
    destruct (injection_body_raises o r e s Hc He) as [Hf Hh].
    destruct (injection_scored o r Hh) as (L & D & E).
    rewrite Hf in L, D, E. parts; auto. rewrite E. lia.
  - intros He target conn Ht Hx.
    assert (E : sql_injection_safety w o r
                = (Uncaught e, mkRun (score r) (Some target) s (log r))).
    { unfold sql_injection_safety, try_except, injection_body.
      rewrite !bind_run. unfold read_table_name at 1. rewrite Ht.
      rewrite bind_run, Hx. cbn [eval ret]. rewrite bind_run, invoke_run, Hc.
      cbn [fst snd]. rewrite He, Ht. reflexivity. }
    rewrite E. split; reflexivity.
Qed.

End Probes.

(** ** The upload view *)

Section UploadView.

Context {S : Type}.

(** X15.  Every page the view renders carries either an error text or a
    report, never both and never neither: [upload.html] with an error, or
    [result.html] with the text of the exception that left the evaluator or
    with the report it returned. *)
Theorem page_has_error_or_report (srv : App.Server S) (s0 : S) (p : App.page) :
  App.evaluate srv s0 = App.Rendered p ->
  (App.template p = "upload.html" /\ App.report p = None
   /\ exists msg, App.error p = Some msg)
  \/ (App.template p = "result.html" /\ App.report p = None
      /\ exists e, App.error p = Some ("Evaluator crashed: " ++ exn_str e))
  \/ (App.template p = "result.html" /\ App.error p = None
      /\ exists result, App.report p = Some result).
Proof.
  assert (R : forall q, App.render srv q = App.Rendered p -> q = p).
  { intros q. unfold App.render.
    destruct (App.render_template srv q); [|discriminate].
    intros H. injection H as <-. reflexivity. }
  assert (T : forall e text, str_of_exn e = Ok text -> text = exn_str e).
  { intros e text. unfold str_of_exn. destruct (str_raises e); [discriminate|].
    intros H. injection H as <-. reflexivity. }
  unfold App.evaluate, App.handle.
  destruct (App.uploaded srv) as [[|]|e]; [| | discriminate].
  - destruct (App.mkdtemp srv) as [temp_dir|e]; [|discriminate].
    destruct (App.save srv _) as [[]|e]; [|discriminate].
    destruct (App.makedirs srv _) as [[]|e]; [|discriminate].
    destruct (App.extractall srv _ _) as [w|e].
    + destruct (evaluate_project w _ s0) as [result|e].
      * destruct (App.print srv result) as [[]|e']; [|discriminate].
        intros H. apply R in H. subst p. right; right. cbn. parts; eauto.
      * destruct (is_exception e); [|discriminate].
        destruct (str_of_exn e) as [text|raised] eqn:Ht; [|discriminate].
        intros H. apply R in H. subst p. right; left. cbn.
        rewrite (T _ _ Ht). parts; eauto.
    + destruct (is_exception e); [|discriminate].
      destruct (str_of_exn e) as [text|raised]; [|discriminate].
      intros H. apply R in H. subst p. left. cbn. parts; eauto.
  - intros H. apply R in H. subst p. left. cbn. parts; eauto.
Qed.

(** X16.  The view lets [e] through in exactly these places: [e] is raised
    by [request.files.get], by [tempfile.mkdtemp], by [uploaded.save] or by
    [os.makedirs], which no [try] encloses; the extraction or the evaluator
    raise an exception that is not an instance of [Exception], which is [e]
    itself, or one whose [str] raises [e] in the handler; [print] raises [e]
    on the report; or [render_template] raises [e] on the page the view was
    about to return. *)
Theorem view_failures (srv : App.Server S) (s0 : S) (e : exn) :
  let unrendered (p : App.page) := App.render_template srv p = Raise e in
  let unhandled (template prefix : string) (e0 : exn) :=
    (is_exception e0 = false /\ e = e0)
    \/ (is_exception e0 = true /\ str_of_exn e0 = Raise e)
    \/ (is_exception e0 = true
        /\ exists text,
            str_of_exn e0 = Ok text
            /\ unrendered (App.Page template (Some (prefix ++ text)) None)) in
  let unreported (w : World S) (extract_path : string) :=
    (exists e0,
        evaluate_project w extract_path s0 = Escaped e0
        /\ unhandled "result.html" "Evaluator crashed: " e0)
    \/ (exists result,
           evaluate_project w extract_path s0 = Returned result
           /\ (App.print srv result = Raise e
               \/ (App.print srv result = Ok tt
                   /\ unrendered (App.Page "result.html" None (Some result))))) in
  let unextracted (zip_path extract_path : string) :=
    (exists e0,
        App.extractall srv zip_path extract_path = Raise e0
        /\ unhandled "upload.html" "Error extracting ZIP: " e0)
    \/ (exists w,
           App.extractall srv zip_path extract_path = Ok w
           /\ unreported w extract_path) in
  let unsaved (zip_path extract_path : string) :=
    App.save srv zip_path = Raise e
    \/ (App.save srv zip_path = Ok tt
        /\ (App.makedirs srv extract_path = Raise e
            \/ (App.makedirs srv extract_path = Ok tt
                /\ unextracted zip_path extract_path))) in
  App.evaluate srv s0 = App.Failed e
  <-> App.uploaded srv = Raise e
      \/ (App.uploaded srv = Ok false
          /\ unrendered (App.Page "upload.html" (Some "Please upload a zip file.")
                                  None))
      \/ (App.uploaded srv = Ok true
          /\ (App.mkdtemp srv = Raise e
              \/ exists temp_dir,
                  App.mkdtemp srv = Ok temp_dir
                  /\ unsaved (Py.posix_join temp_dir "project.zip")
                             (Py.posix_join temp_dir "project"))).
Proof.
  intros unrendered unhandled unreported unextracted unsaved.
  assert (R : forall q, App.render srv q = App.Failed e <-> unrendered q).
  { intros q. unfold App.render, unrendered.
    destruct (App.render_template srv q) as [[]|e']; split; intros H;
      try discriminate H; injection H as <-; reflexivity. }
  assert (Hh : forall template prefix e0,
             App.handle srv template prefix e0 = App.Failed e
             <-> unhandled template prefix e0).
  { intros template prefix e0. unfold App.handle, unhandled.
    destruct (is_exception e0).
    - destruct (str_of_exn e0) as [text|raised].
      + rewrite R. split.
        * intros H. right; right. split; [reflexivity|].
          exists text. split; [reflexivity | exact H].
        * intros [[F _] | [[_ F] | (_ & text' & E & H)]]; try discriminate.
          injection E as <-. exact H.
      + split.
        * intros H. injection H as <-. right; left. split; reflexivity.
        * intros [[F _] | [[_ F] | (_ & text' & E & H)]]; try discriminate.
          injection F as <-. reflexivity.
    - split.
      + intros H. injection H as <-. left. split; reflexivity.
      + intros [[_ F] | [[F _] | (F & _)]]; try discriminate.
        subst e0. reflexivity. }
  assert (Hrep : forall w extract_path,
             match evaluate_project w extract_path s0 with
             | Escaped e0 => App.handle srv "result.html" "Evaluator crashed: " e0
             | Returned result =>
                 match App.print srv result with
                 | Raise e' => App.Failed e'
                 | Ok _ => App.render srv (App.Page "result.html" None (Some result))
                 end
             end = App.Failed e
             <-> unreported w extract_path).
  { intros w extract_path. unfold unreported.
    destruct (evaluate_project w extract_path s0) as [result|e0].
    - destruct (App.print srv result) as [[]|e'] eqn:Hp.
      + rewrite R. split.
        * intros H. right. exists result. split; [reflexivity|]. right.
          split; [exact Hp | exact H].
        * intros [(e0 & F & _) | (res & E & H)]; [discriminate|].
          injection E as <-. destruct H as [F | (_ & H)]; [congruence | exact H].
      + split.
        * intros H. injection H as <-. right. exists result.
          split; [reflexivity|]. left. exact Hp.
        * intros [(e0 & F & _) | (res & E & H)]; [discriminate|].
          injection E as <-. destruct H as [F | (F & _)]; congruence.
    - rewrite Hh. split.
      + intros H. left. exists e0. split; [reflexivity | exact H].
      + intros [(e1 & E & H) | (res & F & _)]; [|discriminate].
        injection E as <-. exact H. }
  assert (Hext : forall zip_path extract_path,
             match App.extractall srv zip_path extract_path with
             | Raise e0 => App.handle srv "upload.html" "Error extracting ZIP: " e0
             | Ok w =>
                 match evaluate_project w extract_path s0 with
                 | Escaped e0 =>
                     App.handle srv "result.html" "Evaluator crashed: " e0
                 | Returned result =>
                     match App.print srv result with
                     | Raise e' => App.Failed e'
                     | Ok _ =>
                         App.render srv (App.Page "result.html" None (Some result))
                     end
                 end
             end = App.Failed e
             <-> unextracted zip_path extract_path).
  { intros zip_path extract_path. unfold unextracted.
    destruct (App.extractall srv zip_path extract_path) as [w|e0].
    - rewrite Hrep. split.
      + intros H. right. exists w. split; [reflexivity | exact H].
      + intros [(e0 & F & _) | (w' & E & H)]; [discriminate|].
        injection E as <-. exact H.
    - rewrite Hh. split.
      + intros H. left. exists e0. split; [reflexivity | exact H].
      + intros [(e1 & E & H) | (w' & F & _)]; [|discriminate].
        injection E as <-. exact H. }
  unfold App.evaluate.
  destruct (App.uploaded srv) as [[|]|e1].
  - destruct (App.mkdtemp srv) as [temp_dir|e1].
    + transitivity (unsaved (Py.posix_join temp_dir "project.zip")
                            (Py.posix_join temp_dir "project")).
      * unfold unsaved.
        destruct (App.save srv _) as [[]|e2].
        -- destruct (App.makedirs srv _) as [[]|e3].
           ++ rewrite Hext. split.
              ** intros H. right. split; [reflexivity|]. right.
                 split; [reflexivity | exact H].
              ** intros [F | (_ & [F | (_ & H)])]; try discriminate. exact H.
           ++ split.
              ** intros H. injection H as <-. right.
                 split; [reflexivity|]. left. reflexivity.
              ** intros [F | (_ & [F | (F & _)])]; try discriminate.
                 injection F as <-. reflexivity.
        -- split.
           ++ intros H. injection H as <-. left. reflexivity.
           ++ intros [F | (F & _)]; try discriminate.
              injection F as <-. reflexivity.
      * split.
        -- intros H. right; right. split; [reflexivity|]. right.
           exists temp_dir. split; [reflexivity | exact H].
        -- intros [F | [[F _] | (_ & [F | (d & Hd & H)])]];
             try discriminate F.
           injection Hd as <-. exact H.
    + split.
      * intros H. injection H as <-. right; right.
        split; [reflexivity|]. left. reflexivity.
      * intros [F | [[F _] | (_ & [F | (d & Hd & _)])]]; congruence.
  - rewrite R. split.
    + intros H. right; left. split; [reflexivity | exact H].
    + intros [F | [[_ H] | (F & _)]]; [discriminate F | exact H | discriminate F].
  - split.
    + intros H. injection H as <-. left. reflexivity.
    + intros [F | [[F _] | (F & _)]]; congruence.
Qed.

(** X17.  An archive whose manifest the evaluator rejects is answered with
    [result.html], the evaluator's error report as [report] and no [error],
    once the [print] of line 45 and [render_template] return: the message
    reaches the template inside the report. *)
Theorem rejected_manifest_is_rendered_as_report
        (srv : App.Server S) (s0 : S) (temp_dir : string) (w : World S)
        (msg : string) :
  App.uploaded srv = Ok true ->
  App.mkdtemp srv = Ok temp_dir ->
  App.save srv (Py.posix_join temp_dir "project.zip") = Ok tt ->
  App.makedirs srv (Py.posix_join temp_dir "project") = Ok tt ->
  App.extractall srv (Py.posix_join temp_dir "project.zip")
                 (Py.posix_join temp_dir "project") = Ok w ->
  rejected w (Py.posix_join temp_dir "project") msg ->
  App.print srv (ErrorReport msg) = Ok tt ->
  App.render_template srv (App.Page "result.html" None (Some (ErrorReport msg)))
  = Ok tt ->
  App.evaluate srv s0
  = App.Rendered (App.Page "result.html" None (Some (ErrorReport msg))).
Proof.
  intros Hu Hd Hs Hm Hx R Hp Hr. unfold App.evaluate, App.render.
  rewrite Hu, Hd, Hs, Hm, Hx.
  rewrite (rejected_returns_error w _ s0 msg R), Hp, Hr. reflexivity.
Qed.

End UploadView.

(** ** The score object *)

Section ScoreObject.

Lemma add_all_fields
      (calls : list (Z * bool * string * string)) (self : Score.t) :
  Score.total (add_all calls self)
  = Score.total self + total_of weight (map call_event calls)
  /\ Score.earned (add_all calls self)
     = Score.earned self + total_of gain (map call_event calls)
  /\ Score.details (add_all calls self)
     = (Score.details self ++ map call_entry calls)%list.
Proof.
  revert self. unfold add_all.
  induction calls as [|[[[p c] s] f] calls IH]; intros self.
  - cbn. rewrite app_nil_r. parts; auto; lia.
  - cbn [fold_left map]. destruct (IH (Score.add p c s f self)) as (T & E & D).
    rewrite T, E, D.
    rewrite ScoreFacts.add_total, ScoreFacts.add_earned, ScoreFacts.add_details.
    rewrite <- app_assoc. cbn [app call_event call_entry total_of fold_right].
    unfold total_of. cbn [weight gain].
    parts; try reflexivity; destruct c; lia.
Qed.

(** X18.  The report [finalize] builds from a fresh score object after any
    run of [Score.add] calls: [max_score] is the sum of the points of all
    the calls, [score] the sum of the points of those whose condition held,
    and [details] has one entry per call, in the order of the calls. *)
Theorem finalize_after_adds (calls : list (Z * bool * string * string)) :
  finalize (add_all calls Score.init)
  = ScoreReport (total_of gain (map call_event calls))
                (total_of weight (map call_event calls))
                (map call_entry calls).
Proof.
  destruct (add_all_fields calls Score.init) as (T & E & D).
  unfold finalize. rewrite T, E, D. reflexivity.
Qed.

(** X19.  [Score.add] keeps [0 <= earned <= total] as long as no call has
    negative points: the invariant holds after any run of calls on an
    object for which it held before. *)
Theorem adds_keep_earned_within_total
        (calls : list (Z * bool * string * string)) (self : Score.t) :
  Forall (fun c => 0 <= weight (call_event c)) calls ->
  0 <= Score.earned self <= Score.total self ->
  0 <= Score.earned (add_all calls self) <= Score.total (add_all calls self).
Proof.
  revert self. unfold add_all.
  induction calls as [|[[[p c] s] f] calls IH]; intros self Hp Hb.
  - exact Hb.
  - cbn [fold_left]. inversion Hp as [|? ? Hp1 Hp2]; subst.
    apply IH; [exact Hp2|]. cbn in Hp1.
    unfold Score.add. destruct c; cbn; lia.
Qed.

End ScoreObject.

(** ** The name of the table *)

Section TableName.

Context {S : Type}.
Variable w : World S.

Local Abbreviation Run := (Run (S := S)).
Local Abbreviation M := (M (S := S)).

Ltac table_unchanged :=
  repeat first
    [ apply keeps_table_bind; [| intros ? ]
    | apply keeps_table_eval
    | apply keeps_table_invoke
    | solve [ intros ?; reflexivity ] ].

Lemma table_after_bind {A B} (m : M A) (k : A -> M B) (r : Run) (t : json) :
  table_name (snd (m r)) = Some t ->
  (forall a, keeps_table (k a)) ->
  table_name (snd (bind m k r)) = Some t.
Proof.
  intros Hm Hk. rewrite bind_run.
  destruct (m r) as [[a|rep|e] r1]; cbn [snd] in *; auto.
  rewrite Hk. exact Hm.
Qed.

Lemma prepare_schema_binds_table (l : Locals) (o : Crud S) (r : Run)
      (tables : json) (vals : list json) (t : json) :
  Py.get (meta l) "tables" JNull = Ok tables ->
  Py.values tables = Ok vals ->
  Py.first vals = Ok t ->
  table_name (snd (prepare_schema w l o r)) = Some t.
Proof.
  intros H1 H2 H3. unfold prepare_schema. cbv zeta.
  rewrite bind_run, H1. cbn [eval ret]. rewrite bind_run, H2. cbn [eval ret].
  rewrite bind_run, H3. cbn [eval ret]. rewrite bind_run.
  cbn [assign_table_name].
  match goal with
  | |- table_name (snd (?rest ?r1)) = _ =>
      assert (K : keeps_table rest) by table_unchanged;
      rewrite (K r1)
  end.
  reflexivity.
Qed.

(** X20.  When the manifest names a first table, [table_name] is bound to
    it from line 168 on, whatever becomes of the round trip: a functional
    check that failed later in its [try] still leaves the name for the
    injection probe, which reads it without assigning it. *)
Theorem failed_round_trip_leaves_table_name
        (l : Locals) (o : Crud S) (r : Run)
        (tables : json) (vals : list json) (t : json) :
  Py.get (meta l) "tables" JNull = Ok tables ->
  Py.values tables = Ok vals ->
  Py.first vals = Ok t ->
  table_name (snd (crud_functional_test w l o r)) = Some t
  /\ table_name (snd (sql_injection_safety w o (snd (crud_functional_test w l o r))))
     = Some t.
Proof.
  intros H1 H2 H3.
  assert (T : table_name (snd (crud_functional_test w l o r)) = Some t).
  { destruct (crud_functional_test w l o r) as [c r'] eqn:H.
    pose proof (crud_functional_test_spec w l o r _ _ H)
      as (cb & rb & Hb & _ & Ht & _).
    cbn [snd]. rewrite Ht.
    replace rb with (snd (functional_body w l o r)) by (rewrite Hb; reflexivity).
    unfold functional_body. apply table_after_bind.
    - exact (prepare_schema_binds_table l o r tables vals t H1 H2 H3).
    - intros []. apply keeps_table_round_trip. }
  split; [exact T|].
  destruct (sql_injection_safety w o (snd (crud_functional_test w l o r)))
    as [c r'] eqn:H.
  pose proof (sql_injection_safety_spec w o _ _ _ H)
    as (cb & rb & Hb & _ & Ht & _).
  cbn [snd]. rewrite Ht.
  replace rb with (snd (injection_body w o (snd (crud_functional_test w l o r))))
    by (rewrite Hb; reflexivity).
  rewrite <- T. apply keeps_table_injection_body.
Qed.

End TableName.

(** ** The theorems at concrete archives *)

(** The correct submission of the scenario gets a score report. *)
Lemma score_report_needs_named_files_witness :
  exists entries crud_file db_adapter_file rest,
    os_path_exists Scenario.correct_submission
      (Py.posix_join Scenario.project_dir "README.json") = true
    /\ json_load Scenario.correct_submission
         (Py.posix_join Scenario.project_dir "README.json") = Ok (JObj entries)
    /\ manifest_value entries "crud_module" = JStr crud_file
    /\ crud_file <> EmptyString
    /\ Py.truthy (manifest_value entries "crud_class") = true
    /\ manifest_value entries "db_adapter" = JStr db_adapter_file
    /\ Score.details
         (score (snd (evaluate_project_body Scenario.correct_submission
                        Scenario.project_dir (start []))))
       = entry (os_path_exists Scenario.correct_submission
                  (Py.posix_join Scenario.project_dir crud_file))
               "CRUD module found" "CRUD module missing"
         :: entry (os_path_exists Scenario.correct_submission
                     (Py.posix_join Scenario.project_dir db_adapter_file))
                  "DB adapter file found" "DB adapter file missing"
         :: rest.
Proof.
  apply (score_report_needs_named_files
           Scenario.correct_submission Scenario.project_dir [] 100 130).
  vm_compute. reflexivity.
Defined.

(** The class without [delete]: the run stops after the method checks. *)
Lemma report_by_max_score_witness :
  let ds :=
    ["✔ CRUD module found"; "✔ DB adapter file found";
     "✔ CRUD class imported successfully"; "✔ Method create() found";
     "✔ Method read() found"; "✔ Method update() found";
     "❌ Method delete() missing"] in
  (60 = 20 /\ (55 = 0 \/ 55 = 10) /\ length ds = 2%nat)
  \/ (60 = 40 /\ (55 = 10 \/ 55 = 20) /\ length ds = 4%nat)
  \/ (60 = 60 /\ 30 <= 55 <= 60 /\ length ds = 7%nat)
  \/ (60 = 70 /\ 30 <= 55 <= 60 /\ length ds = 9%nat)
  \/ (60 = 130 /\ 40 <= 55 <= 130
      /\ (length ds = 11%nat \/ length ds = 12%nat)).
Proof.
  apply (report_by_max_score Scenario.method_missing Scenario.project_dir []).
  vm_compute. reflexivity.
Defined.

(** The archive without [crud.py]: the database of the submission is as
    empty at the end as at the start. *)
Lemma early_return_runs_no_submission_code_witness :
  cand (snd (evaluate_project_body Scenario.crud_file_absent
               Scenario.project_dir (start [])))
  = [].
Proof.
  apply (early_return_runs_no_submission_code
           Scenario.crud_file_absent Scenario.project_dir []
           (ScoreReport 10 20 ["❌ CRUD module missing"; "✔ DB adapter file found"])).
  - apply with_snd. vm_compute. reflexivity.
  - reflexivity.
Defined.

(** A machine without [pycodestyle]. *)
Lemma style_entry_follows_linter_witness :
  exists d,
    ["✔ CRUD module found"; "✔ DB adapter file found";
     "✔ CRUD class imported successfully"; "✔ Method create() found";
     "✔ Method read() found"; "✔ Method update() found";
     "✔ Method delete() found";
     "✔ Database connection successfully sandboxed";
     "✔ CRUD operations successfully executed";
     "✔ SQL injection protection appears safe";
     "✔ Code is PEP8 clean"]
    = (d ++ [style_entry true])%list.
Proof.
  apply (style_entry_follows_linter Cases.no_linter Scenario.project_dir [] 130 _
           LintNotFound).
  - intros path s. reflexivity.
  - vm_compute. reflexivity.
Defined.

(** [README.json] holds a list. *)
Lemma manifest_not_an_object_escapes_witness :
  evaluate_project Cases.list_manifest Scenario.project_dir []
  = Escaped (Py.no_attribute (JArr [JStr "crud.py"; JStr "Crud"]) "get").
Proof.
  apply (manifest_not_an_object_escapes Cases.list_manifest Scenario.project_dir []
           (JArr [JStr "crud.py"; JStr "Crud"])); reflexivity.
Defined.

(** The manifest of the scenario with [null] for [sample_data]. *)
Lemma sample_data_not_an_object_escapes_witness :
  evaluate_project Cases.null_sample Scenario.project_dir []
  = Escaped (Py.no_attribute JNull "get").
Proof.
  apply (sample_data_not_an_object_escapes Cases.null_sample Scenario.project_dir []
           (Cases.entries_of Cases.null_sample_manifest) JNull); reflexivity.
Defined.

(** The manifest of the scenario without [db_adapter]. *)
Lemma adapter_entry_not_a_string_escapes_witness :
  evaluate_project Scenario.no_adapter_entry Scenario.project_dir []
  = Escaped
      (mkExn "TypeError"
         ("join() argument must be str, bytes, or os.PathLike object, not '"
            ++ Py.type_name
                 (manifest_value
                    (Cases.entries_of (Scenario.without "db_adapter" Scenario.manifest))
                    "db_adapter")
            ++ "'")).
Proof.
  apply (adapter_entry_not_a_string_escapes
           Scenario.no_adapter_entry Scenario.project_dir []
           (Cases.entries_of (Scenario.without "db_adapter" Scenario.manifest))
           "crud.py").
  - reflexivity.
  - reflexivity.
  - reflexivity.
  - reflexivity.
  - discriminate.
  - reflexivity.
  - intros s. discriminate.
Defined.

(** The manifest that names [/srv/shared/crud.py]. *)
Lemma absolute_module_path_leaves_project_dir_witness :
  crud_path Cases.outside_locals = "/srv/shared/crud.py"
  /\ forall other_dir (r1 r1' : Run (S := Scenario.S)) l1,
      read_manifest Cases.outside_module other_dir r1 = (Next l1, r1') ->
      meta l1 = JObj (Cases.entries_of Cases.outside_manifest) ->
      crud_path l1 = "/srv/shared/crud.py".
Proof.
  apply (absolute_module_path_leaves_project_dir
           Cases.outside_module Scenario.project_dir (start []) (start [])
           Cases.outside_locals
           (Cases.entries_of Cases.outside_manifest) "/srv/shared/crud.py").
  - vm_compute. reflexivity.
  - reflexivity.
  - reflexivity.
  - reflexivity.
Defined.

(** The manifest names a class [Store] that [crud.py] does not define; and
    the module that calls [sys.exit(1)] when it is loaded. *)
Lemma failed_import_report_witness :
  evaluate_project Cases.other_class Scenario.project_dir []
  = Returned
      (ScoreReport
         (if os_path_exists Cases.other_class (db_path Cases.other_class_locals)
          then 20 else 10) 40
         ["✔ CRUD module found";
          entry (os_path_exists Cases.other_class (db_path Cases.other_class_locals))
                "DB adapter file found" "DB adapter file missing";
          "❌ Could not import CRUD class: "
            ++ "module 'crud_module' has no attribute 'Store'";
          "❌ Failed to load CRUD class"])
  /\ evaluate_project Cases.exits_on_import Scenario.project_dir []
     = Escaped Cases.system_exit.
Proof.
  split.
  - apply (proj1 (failed_import_report Cases.other_class Scenario.project_dir []
                    Cases.other_class_locals
                    (mkExn "AttributeError"
                       "module 'crud_module' has no attribute 'Store'")
                    ltac:(vm_compute; reflexivity)
                    ltac:(vm_compute; reflexivity)
                    ltac:(vm_compute; reflexivity))
             "module 'crud_module' has no attribute 'Store'" eq_refl eq_refl).
  - apply (proj2 (failed_import_report Cases.exits_on_import Scenario.project_dir []
                    Scenario.locals Cases.system_exit
                    ltac:(vm_compute; reflexivity)
                    ltac:(vm_compute; reflexivity)
                    ltac:(vm_compute; reflexivity))
             eq_refl).
Defined.

(** The archive without [db.py]. *)
Lemma adapter_load_failure_escapes_witness :
  evaluate_project Scenario.adapter_file_absent Scenario.project_dir []
  = Escaped (Scenario.file_not_found (Scenario.in_dir "db.py"))
  /\ check_weights
       (log (snd (evaluate_project_body Scenario.adapter_file_absent
                    Scenario.project_dir (start []))))
     = [10; 10; 20; 5; 5; 5; 5].
Proof.
  apply (adapter_load_failure_escapes
           Scenario.adapter_file_absent Scenario.project_dir []
           Scenario.locals Scenario.safe_crud
           (snd (loaded Scenario.adapter_file_absent Scenario.project_dir (start [])))
           (Scenario.file_not_found (Scenario.in_dir "db.py")) []).
  - apply with_snd. reflexivity.
  - intros m s Hin. simpl in Hin.
    destruct Hin as [<-|[<-|[<-|[<-|[]]]]]; reflexivity.
  - vm_compute. reflexivity.
Defined.

(** The submission whose [create] assigns the key [id]. *)
Lemma functional_pass_reads_id_after_create_witness :
  let l := Scenario.locals_of Scenario.keyless_manifest (JObj [("name", JStr "Alice")]) in
  let o := Scenario.assigning_crud in
  let r : Run (S := Scenario.S) := start [] in
  exists r1 v s2 id read_item s3,
    prepare_schema Scenario.id_assigning_submission l o r = (Next tt, r1)
    /\ create o (sample_data l) (cand r1) = (Ok v, s2)
    /\ Py.getitem (sample_seen o (sample_data l) s2) "id" = Ok id
    /\ read o id s2 = (Ok read_item, s3)
    /\ Py.truthy read_item = true.
Proof.
  intros l o r.
  apply (functional_pass_reads_id_after_create
           Scenario.id_assigning_submission l o r).
  vm_compute. reflexivity.
Defined.

(** The object with bound parameters and the one that concatenates. *)
Lemma injection_verdict_ignores_submission_witness :
  exists verdict,
    log (snd (sql_injection_safety Scenario.correct_submission Scenario.safe_crud
                (Cases.at_probe [])))
    = (log (Cases.at_probe []) ++ [Attempted 20 verdict])%list
    /\ log (snd (sql_injection_safety Scenario.correct_submission Scenario.naive_crud
                   (Cases.at_probe [])))
       = (log (Cases.at_probe []) ++ [Attempted 20 verdict])%list.
Proof.
  apply (injection_verdict_ignores_submission
           Scenario.correct_submission Scenario.safe_crud Scenario.naive_crud
           (Cases.at_probe []) (Cases.at_probe [])
           (JBool true) (JBool true)
           (snd (Scenario.bound_create injection_record []))
           (snd (Scenario.naive_create injection_record []))).
  - reflexivity.
  - apply with_snd. vm_compute. reflexivity.
  - apply with_snd. vm_compute. reflexivity.
Defined.

(** The object whose [create] refuses a name with a quote. *)
Lemma refusing_the_payload_is_scored_vulnerable_witness :
  let r := Cases.at_probe [] in
  let r' := snd (sql_injection_safety Scenario.correct_submission Cases.strict_crud r) in
  log r' = (log r ++ [Attempted 20 false])%list
  /\ Score.details (score r')
     = (Score.details (score r) ++ ["❌ SQL injection vulnerability detected"])%list
  /\ Score.earned (score r') = Score.earned (score r).
Proof.
  apply (proj1 (refusing_the_payload_is_scored_vulnerable
                  Scenario.correct_submission Cases.strict_crud (Cases.at_probe [])
                  (mkExn "ValueError" "invalid name") []
                  ltac:(vm_compute; reflexivity))
           eq_refl).
Defined.

(** An upload without [README.json]. *)
Lemma page_has_error_or_report_witness :
  let p := App.Page "result.html" None (Some (ErrorReport missing_readme)) in
  (App.template p = "upload.html" /\ App.report p = None
   /\ exists msg, App.error p = Some msg)
  \/ (App.template p = "result.html" /\ App.report p = None
      /\ exists e, App.error p = Some ("Evaluator crashed: " ++ exn_str e))
  \/ (App.template p = "result.html" /\ App.error p = None
      /\ exists result, App.report p = Some result).
Proof.
  apply (page_has_error_or_report (Cases.server (Ok Cases.no_readme)) []).
  vm_compute. reflexivity.
Defined.

Lemma rejected_manifest_is_rendered_as_report_witness :
  App.evaluate (Cases.server (Ok Cases.no_readme)) []
  = App.Rendered
      (App.Page "result.html" None (Some (ErrorReport missing_readme))).
Proof.
  apply (rejected_manifest_is_rendered_as_report
           (Cases.server (Ok Cases.no_readme)) [] "/tmp/student_x" Cases.no_readme).
  - reflexivity.
  - reflexivity.
  - reflexivity.
  - reflexivity.
  - reflexivity.
  - left. split; [vm_compute; reflexivity | reflexivity].
  - reflexivity.
  - reflexivity.
Defined.

(** The first three checks of a run, the import failed. *)
Lemma adds_keep_earned_within_total_witness :
  let calls :=
    [(10, true, "CRUD module found", "CRUD module missing");
     (10, true, "DB adapter file found", "DB adapter file missing");
     (20, false, "CRUD class imported successfully", "Failed to load CRUD class")] in
  0 <= Score.earned (add_all calls Score.init)
    <= Score.total (add_all calls Score.init).
Proof.
  intros calls.
  apply (adds_keep_earned_within_total calls Score.init).
  - repeat constructor; cbn; lia.
  - cbn. lia.
Defined.

(** The correct submission of the scenario: the round trip fails on the
    duplicate column, and [users] stays bound. *)
Lemma failed_round_trip_leaves_table_name_witness :
  let r5 :=
    snd (crud_functional_test Scenario.correct_submission Scenario.locals
           Scenario.safe_crud (start [])) in
  table_name r5 = Some (JStr "users")
  /\ table_name (snd (sql_injection_safety Scenario.correct_submission
                        Scenario.safe_crud r5))
     = Some (JStr "users").
Proof.
  apply (failed_round_trip_leaves_table_name
           Scenario.correct_submission Scenario.locals Scenario.safe_crud (start [])
           (JObj [("user", JStr "users")]) [JStr "users"] (JStr "users"));
    reflexivity.
Defined.
